(** * A shallow embedding of the health-QA agent pipeline

    The development follows [src/app/agent.py] (the six nodes of the
    LangGraph pipeline and their helpers), [src/app/firestore_memory.py]
    (the metrics and conversation adapters), [src/app/main.py] (the
    synchronous and the streaming chat endpoints, the configuration
    endpoints) and [src/app/retriever.py] (the payloads and the search of
    the index).

    Conventions of the embedding:
    - a Python [str] is a [string]; a character is an 8-bit [ascii], text
      outside ASCII stands for its UTF-8 bytes, so [length] agrees with
      Python's [len] on ASCII text; [str.lower] folds the ASCII letters and
      takes the lowering of every other character from the runtime;
    - a Python [float] is a primitive binary64 [float];
    - a value of type [Any] is a [PyVal];
    - a [dict] with string keys whose order matters is an association list;
    - an exception is a [PyExc]; code that may raise returns a [Result];
    - code that talks to a collaborator (Firestore, Qdrant, Azure OpenAI)
      or yields to the HTTP response runs in the monad [M] over a [World]
      that records the conversation store, the calls made and the events
      emitted; what the collaborators answer is given by an [Env]. *)

From Stdlib Require Import ZArith QArith List String Ascii Bool Lia Floats DecimalString.
Import ListNotations.

Open Scope string_scope.
Open Scope Z_scope.

(* ===================================================================== *)
(** * Part I. The Python runtime the code relies on                      *)
(* ===================================================================== *)

Module Py.

(** ** Exceptions and results *)

Record PyExc := mkExc { exc_type : string; exc_msg : string }.

Inductive Result (A : Type) : Type :=
| Ok (a : A)
| Raise (e : PyExc).
Arguments Ok {A} a.
Arguments Raise {A} e.

Definition rbind {A B} (r : Result A) (k : A -> Result B) : Result B :=
  match r with
  | Ok a => k a
  | Raise e => Raise e
  end.

Definition is_ok {A} (r : Result A) : bool :=
  match r with Ok _ => true | Raise _ => false end.

(** [try: ... except Exception: return None] *)
Definition catch_none {A} (r : Result A) : option A :=
  match r with Ok a => Some a | Raise _ => None end.

(** ** Strings *)

(** [str.isspace] on one character, ASCII range. *)
Definition is_space (c : ascii) : bool :=
  let n := nat_of_ascii c in
  ((9 <=? n) && (n <=? 13) || (28 <=? n) && (n <=? 32))%nat.

Fixpoint lstrip (s : string) : string :=
  match s with
  | EmptyString => EmptyString
  | String c s' => if is_space c then lstrip s' else s
  end.

Fixpoint rstrip (s : string) : string :=
  match s with
  | EmptyString => EmptyString
  | String c s' =>
      match rstrip s' with
      | EmptyString => if is_space c then EmptyString else String c EmptyString
      | r => String c r
      end
  end.

(** [s.strip()] *)
Definition strip (s : string) : string := rstrip (lstrip s).

Definition lower_char (c : ascii) : ascii :=
  let n := nat_of_ascii c in
  if ((65 <=? n) && (n <=? 90))%nat then ascii_of_nat (n + 32) else c.

Definition upper_char (c : ascii) : ascii :=
  let n := nat_of_ascii c in
  if ((97 <=? n) && (n <=? 122))%nat then ascii_of_nat (n - 32) else c.

Fixpoint map_string (f : ascii -> ascii) (s : string) : string :=
  match s with
  | EmptyString => EmptyString
  | String c s' => String (f c) (map_string f s')
  end.

(** [s.upper()], ASCII letters. *)
Definition upper : string -> string := map_string upper_char.

(** A byte of an ASCII character: in UTF-8 every other byte belongs to a
    character beyond ASCII. *)
Definition is_ascii_char (c : ascii) : bool := (nat_of_ascii c <? 128)%nat.

(** Text of ASCII characters only ([s.isascii()]). *)
Fixpoint is_ascii (s : string) : bool :=
  match s with
  | EmptyString => true
  | String c s' => is_ascii_char c && is_ascii s'
  end.

(** [s.startswith(p)] *)
Definition startswith (s p : string) : bool := prefix p s.

(** [sub in s] *)
Fixpoint str_in (sub s : string) : bool :=
  prefix sub s ||
  match s with
  | EmptyString => false
  | String _ s' => str_in sub s'
  end.

(** [sep.join(l)] *)
Definition join (sep : string) (l : list string) : string := String.concat sep l.

(** [str(n)] for a non-negative [int]. *)
Definition str_of_nat (n : nat) : string := NilZero.string_of_uint (Nat.to_uint n).

(** [str(z)] for an [int]. *)
Definition str_of_Z (z : Z) : string := NilZero.string_of_int (Z.to_int z).

(** [s.replace("Z", "+00:00")] *)
Fixpoint replace_Z (s : string) : string :=
  match s with
  | EmptyString => EmptyString
  | String c s' =>
      if Ascii.eqb c "Z"%char then "+00:00" ++ replace_Z s'
      else String c (replace_Z s')
  end.

(** [l[start:]] with Python's treatment of a negative or too large start. *)
Definition slice_from {A} (start : Z) (l : list A) : list A :=
  let n := Z.of_nat (List.length l) in
  let i := if start <? 0 then Z.max (n + start) 0 else Z.min start n in
  skipn (Z.to_nat i) l.

(** ** Floats *)

(** [a / b] on two [int]s: the quotient correctly rounded to binary64,
    [ZeroDivisionError] for a zero divisor and [OverflowError] when the
    quotient is too large for a float. *)
Definition int_truediv (a b : Z) : Result float :=
  match b with
  | Z0 => Raise (mkExc "ZeroDivisionError" "division by zero")
  | _ =>
      match a with
      | Z0 => Ok zero
      | _ =>
          match SFdiv prec emax
                  (S754_finite (a <? 0) (Z.to_pos (Z.abs a)) 0)
                  (S754_finite (b <? 0) (Z.to_pos (Z.abs b)) 0) with
          | S754_infinity _ =>
              Raise (mkExc "OverflowError" "integer division result too large for a float")
          | r => Ok (SF2Prim r)
          end
      end
  end.

(** [float(z)] for an [int]: correctly rounded, [OverflowError] beyond the
    range of binary64. *)
Definition float_of_Z (z : Z) : Result float :=
  match binary_normalize prec emax z 0 false with
  | S754_infinity _ => Raise (mkExc "OverflowError" "int too large to convert to float")
  | r => Ok (SF2Prim r)
  end.

Definition float_of_nat (n : nat) : float := SF2Prim (binary_normalize prec emax (Z.of_nat n) 0 false).

(** [x.as_integer_ratio()] of a finite float, as a reduced fraction;
    [None] for an infinity or NaN (where Python raises). *)
Definition as_integer_ratio (x : float) : option Q :=
  match Prim2SF x with
  | S754_zero _ => Some (0 # 1)
  | S754_finite s m e =>
      let n := if s then Zneg m else Zpos m in
      Some (Qred (match e with
                  | Zneg k => n # (2 ^ k)%positive
                  | _ => (n * 2 ^ e) # 1
                  end))
  | _ => None
  end.

(** [bool(x)] of a float: false exactly for the two zeros. *)
Definition float_truthy (x : float) : bool := negb (is_zero x).

(** ** Values of type [Any] *)

Inductive PyVal :=
| PyNone
| PyBool (b : bool)
| PyInt (z : Z)
| PyFloat (f : float)
| PyStr (s : string)
| PyOther (repr : string) (truth : bool).
    (** any other object (list, mapping, timestamp...), known by its [str()]
        and its truth value; [float()] rejects it with a [TypeError] *)

(** [bool(v)] *)
Definition truthy (v : PyVal) : bool :=
  match v with
  | PyNone => false
  | PyBool b => b
  | PyInt z => negb (z =? 0)
  | PyFloat f => float_truthy f
  | PyStr s => negb (String.eqb s "")
  | PyOther _ t => t
  end.

(** [a or b] *)
Definition py_or (a b : PyVal) : PyVal := if truthy a then a else b.

Definition of_opt_float (o : option float) : PyVal :=
  match o with Some f => PyFloat f | None => PyNone end.

(** A [dict] with string keys, in insertion order. *)
Definition Dict := list (string * PyVal).

(** [d.get(k)] *)
Fixpoint dict_get (k : string) (d : Dict) : PyVal :=
  match d with
  | [] => PyNone
  | (k', v) :: d' => if String.eqb k k' then v else dict_get k d'
  end.

(** [x or {}] for an optional dict. *)
Definition dict_or_empty (o : option Dict) : Dict :=
  match o with Some d => d | None => [] end.

(** ** The library functions taken as given

    Parsing and printing of floats and of ISO dates are the Python
    library's; the embedding takes them as the fields of a [Runtime]. *)

Record Runtime := {
  (** [float(s)] for a [str]: [None] where Python raises [ValueError] *)
  float_of_str : string -> option float;
  (** [str(x)] for a float *)
  repr_float : float -> string;
  (** [f"{x:.1f}"] (digits = 1) and [f"{x:.3f}"] (digits = 3) *)
  fmt_fixed : nat -> float -> string;
  (** [datetime.fromisoformat(s)] brought to UTC, as microseconds since the
      epoch: [None] where Python raises [ValueError] *)
  fromisoformat_utc : string -> option Z;
  (** [dt.isoformat()] of a UTC datetime *)
  isoformat : Z -> string;
  (** [statistics.pstdev(data)] on data with an infinity or a NaN, where
      the versions of CPython differ (3.11 fails on [mss.numerator], 3.10
      returns NaN) *)
  pstdev_nonfinite : list float -> Result float;
  (** [s.lower()] beyond ASCII: what the lowered text has in the place of
      the byte [c] of a non-ASCII character of [before ++ c ++ after] (the
      lowered character at its first byte, nothing at the others; the
      Unicode tables decide, and the text around it may matter, as for a
      final sigma) *)
  lower_nonascii : string -> ascii -> string -> string;
}.

Section WithRuntime.
Context (rt : Runtime).

(** [float(v)] *)
Definition py_float (v : PyVal) : Result float :=
  match v with
  | PyNone => Raise (mkExc "TypeError" "float() argument must be a string or a real number, not 'NoneType'")
  | PyBool b => Ok (if b then one else zero)
  | PyInt z => float_of_Z z
  | PyFloat f => Ok f
  | PyStr s =>
      match float_of_str rt s with
      | Some f => Ok f
      | None => Raise (mkExc "ValueError" ("could not convert string to float: " ++ s))
      end
  | PyOther _ _ => Raise (mkExc "TypeError" "float() argument must be a string or a real number")
  end.

(** [s.lower()], character by character: an ASCII letter is folded
    whatever stands around it, every other ASCII character is kept, and a
    character beyond ASCII is lowered as the Unicode tables say. [before] is
    the text already passed. *)
Fixpoint lower_at (before s : string) : string :=
  match s with
  | EmptyString => EmptyString
  | String c s' =>
      if is_ascii_char c
      then String (lower_char c) (lower_at (before ++ String c EmptyString) s')
      else lower_nonascii rt before c s' ++ lower_at (before ++ String c EmptyString) s'
  end.

Definition lower (s : string) : string := lower_at EmptyString s.

(** [str(v)], as an f-string renders a value. *)
Definition py_str (v : PyVal) : string :=
  match v with
  | PyNone => "None"
  | PyBool b => if b then "True" else "False"
  | PyInt z => str_of_Z z
  | PyFloat f => repr_float rt f
  | PyStr s => s
  | PyOther r _ => r
  end.

End WithRuntime.

(** ** The [statistics] module, on floats

    [mean] and [pstdev] work on exact fractions and round once at the end
    (CPython 3.11, [statistics.py]). *)

Definition Qsum (l : list Q) : Q := fold_right Qplus (0 # 1) l.

(** The exact ratios of the data, or [None] if some value is not finite. *)
Fixpoint exact_ratios (data : list float) : option (list Q) :=
  match data with
  | [] => Some []
  | x :: rest =>
      match as_integer_ratio x, exact_ratios rest with
      | Some q, Some qs => Some (q :: qs)
      | _, _ => None
      end
  end.

(** The float sum of the values that are not finite ([partials[None]]). *)
Definition nonfinite_total (data : list float) : float :=
  fold_left (fun acc x => if is_finite x then acc else (acc + x)%float) data zero.

Definition float_of_frac (q : Q) : Result float :=
  let r := Qred q in int_truediv (Qnum r) (Zpos (Qden r)).

Definition count_Q (n : nat) : Q := Z.of_nat n # 1.

(** [statistics.mean(data)] *)
Definition mean (data : list float) : Result float :=
  match data with
  | [] => Raise (mkExc "StatisticsError" "mean requires at least one data point")
  | _ =>
      let n := List.length data in
      match exact_ratios data with
      | Some qs => float_of_frac (Qsum qs / count_Q n)%Q
      | None => Ok (nonfinite_total data / float_of_nat n)%float
      end
  end.

(** [n.bit_length()] *)
Definition bit_length (n : Z) : Z :=
  match n with Z0 => 0 | _ => Z.log2 (Z.abs n) + 1 end.

Definition _integer_sqrt_of_frac_rto (n m : Z) : Z :=
  let a := Z.sqrt (n / m) in
  Z.lor a (if a * a * m =? n then 0 else 1).

Definition _sqrt_bit_width : Z := 2 * 53 + 3.

Definition _float_sqrt_of_frac (n m : Z) : Result float :=
  let q := (bit_length n - bit_length m - _sqrt_bit_width) / 2 in
  if 0 <=? q then
    int_truediv (Z.shiftl (_integer_sqrt_of_frac_rto n (Z.shiftl m (2 * q))) q) 1
  else
    int_truediv (_integer_sqrt_of_frac_rto (Z.shiftl n (- 2 * q)) m) (Z.shiftl 1 (- q)).

(** The exact sum of squared deviations as [_ss] computes it:
    [(count * sxx - sx * sx) / count]. *)
Definition _ss (qs : list Q) : Q :=
  let count := count_Q (List.length qs) in
  let sx := Qsum qs in
  let sxx := Qsum (map (fun x => x * x)%Q qs) in
  ((count * sxx - sx * sx) / count)%Q.

(** [statistics.pstdev(data)] *)
Definition pstdev (rt : Runtime) (data : list float) : Result float :=
  match data with
  | [] => Raise (mkExc "StatisticsError" "pstdev requires at least one data point")
  | _ =>
      match exact_ratios data with
      | Some qs =>
          let mss := Qred (_ss qs / count_Q (List.length qs))%Q in
          _float_sqrt_of_frac (Qnum mss) (Zpos (Qden mss))
      | None => pstdev_nonfinite rt data
      end
  end.


End Py.
Import Py.


(* ===================================================================== *)
(** * Part II. Collaborators, the world and the effect monad             *)
(* ===================================================================== *)

Module Effects.

(** A turn of the conversation store ([append_turn] adds one). *)
Record ConvDoc := {
  cd_user : string;
  cd_role : string;
  cd_content : string;
  cd_created_at : string;
}.

(** What a stored conversation document holds ([None]: key absent). *)
Record StoredMsg := { sm_role : option string; sm_content : option string }.

(** The [ts] field of a stored metric: a datetime (microseconds since the
    epoch, UTC) or any other value. *)
Inductive TsVal :=
| TsDatetime (t : Z)
| TsOther (v : PyVal).

(** What a stored metric document holds. *)
Record MetricData := {
  md_kind : option string;
  md_ts : TsVal;
  md_value : PyVal;
  md_unit : PyVal;
}.

(** A Qdrant search hit. *)
Record Hit := { hit_payload : option Dict; hit_score : float }.

(** The calls made to the collaborators. *)
Inductive Call :=
| CallClock
| CallMessagesQuery (user : string)
| CallMetricsQuery (user : string) (start_dt end_dt : Z) (kind_in : option (list string))
| CallAdd (doc : ConvDoc)
| CallEmbed (text : string)
| CallSearch (vector : list float)
| CallChat (system user : string).

(** The events of the streaming endpoint, each sent as [data: <json>]
    followed by a blank line; [SseDone] is the line [data: [DONE]]. *)
Inductive SSE :=
| SseNode (node : string) (keys : list string)
| SseFinal (answer : string)
| SseError (message : string)
| SseDone.

Record World := {
  conv_store : list ConvDoc;   (** the turns persisted so far *)
  calls : list Call;           (** the collaborator calls, oldest first *)
  sse_out : list SSE;          (** the events yielded to the response *)
}.

(** What the collaborators answer; an answer may depend on every call made
    before (the first argument). *)
Record Env := {
  env_rt : Runtime;
  clock : list Call -> Z;
  messages_stream : list Call -> string -> Result (list (option StoredMsg));
  metrics_stream : list Call -> string -> Z -> Z -> option (list string) ->
                   Result (list (option MetricData));
  (** the exception with which adding a turn fails, if it does *)
  add_fault : list Call -> ConvDoc -> option PyExc;
  embed_query : list Call -> string -> Result (list float);
  qdrant_search : list Call -> list float -> Result (list Hit);
  (** [llm.invoke(messages).content] for the system and the user message *)
  chat_invoke : list Call -> string -> string -> Result string;
}.

Definition M (A : Type) : Type := World -> Result A * World.

Definition ret {A} (a : A) : M A := fun w => (Ok a, w).

Definition bind {A B} (m : M A) (k : A -> M B) : M B :=
  fun w =>
    match m w with
    | (Ok a, w') => k a w'
    | (Raise e, w') => (Raise e, w')
    end.

Definition lift {A} (r : Result A) : M A := fun w => (r, w).

Definition log_call (c : Call) (w : World) : World :=
  {| conv_store := conv_store w; calls := calls w ++ [c]; sse_out := sse_out w |}.

(** A call to a collaborator: the answer is computed from the calls made so
    far, and the call is recorded. *)
Definition call {A} (c : Call) (answer : list Call -> Result A) : M A :=
  fun w => (answer (calls w), log_call c w).

(** [yield ev] in the response generator. *)
Definition yield (ev : SSE) : M unit :=
  fun w => (Ok tt, {| conv_store := conv_store w; calls := calls w;
                      sse_out := sse_out w ++ [ev] |}).

(** [try: body  except Exception as exc: handler(exc)] *)
Definition try_except {A} (body : M A) (handler : PyExc -> M A) : M A :=
  fun w =>
    match body w with
    | (Ok a, w') => (Ok a, w')
    | (Raise e, w') => handler e w'
    end.

(** [try: body  finally: final] *)
Definition try_finally {A} (body : M A) (final : M unit) : M A :=
  fun w =>
    match body w with
    | (r, w') =>
        match final w' with
        | (Ok _, w'') => (r, w'')
        | (Raise e, w'') => (Raise e, w'')
        end
    end.

End Effects.
Import Effects.

Declare Scope monad_scope.
Delimit Scope monad_scope with monad.
Notation "x <- c ;; k" := (bind c (fun x => k))
  (at level 61, c at next level, right associativity) : monad_scope.
Notation "c ;;; k" := (bind c (fun _ => k))
  (at level 61, right associativity) : monad_scope.
Open Scope monad_scope.

Definition nl : string := String (ascii_of_nat 10) EmptyString.

(* ===================================================================== *)
(** * Part III. The state of the graph and its merge policy            *)
(* ===================================================================== *)

Module State.

(** ** The state and its merge policy *)

(** An entry of [state["messages"]]: a LangChain message object or a raw
    dict. *)
Inductive Message :=
| HumanMessage (content : string)
| AIMessage (content : string)
| OtherMessage (content : string)
| DictMessage (d : Dict).

(** A metric point [{"kind", "ts", "value", "unit"}]. *)
Record Point := {
  pt_kind : option string;
  pt_ts : PyVal;
  pt_value : PyVal;
  pt_unit : PyVal;
}.

(** An entry of [stats]: [{"mean", "stdev", "n"}]. *)
Record StatEntry := {
  st_mean : option float;
  st_stdev : option float;
  st_n : nat;
}.

Definition Stats := list (string * StatEntry).

(** A retrieved chunk: [{"text", "score", "metadata"}], and the ["payload"]
    key that [_format_context] also reads ([None]: key absent). *)
Record Chunk := {
  ch_text : PyVal;
  ch_score : option float;
  ch_metadata : option Dict;
  ch_payload : option Dict;
}.

(** A citation [{"id", "source", "score"}]; [cit_score] is the number under
    ["score"], if there is one. *)
Record Citation := {
  cit_id : PyVal;
  cit_source : PyVal;
  cit_score : option float;
}.

(** [{"start": ISO, "end": ISO}] *)
Record Timeframe := { tf_start : option string; tf_end : option string }.

(** [AgentState]: the channels of the graph. *)
Record AgentState := {
  messages : list Message;
  user_id : option string;
  timeframe : option Timeframe;
  metric_kinds : list string;
  question : option string;
  metrics : list Point;
  stats : option Stats;
  anomalies : list string;
  relevant_chunks : list Chunk;
  citations : list Citation;
  safety_warnings : list string;
  answer : option string;
}.

(** The channels before any input is written: a channel with a reducer
    starts from the empty list, the others are unset. *)
Definition empty_state : AgentState :=
  {| messages := []; user_id := None; timeframe := None; metric_kinds := [];
     question := None; metrics := []; stats := None; anomalies := [];
     relevant_chunks := []; citations := []; safety_warnings := [];
     answer := None |}.

(** One key of the dict a node returns (or of the graph's input), with its
    value. A node's return value is the list of its keys, in the order of the
    dict. *)
Inductive Write :=
| WMessages (v : list Message)
| WUserId (v : option string)
| WTimeframe (v : option Timeframe)
| WMetricKinds (v : list string)
| WQuestion (v : option string)
| WMetrics (v : list Point)
| WStats (v : option Stats)
| WAnomalies (v : list string)
| WRelevantChunks (v : list Chunk)
| WCitations (v : list Citation)
| WSafetyWarnings (v : list string)
| WAnswer (v : option string).

Definition Update := list Write.

Definition write_key (w : Write) : string :=
  match w with
  | WMessages _ => "messages"
  | WUserId _ => "user_id"
  | WTimeframe _ => "timeframe"
  | WMetricKinds _ => "metric_kinds"
  | WQuestion _ => "question"
  | WMetrics _ => "metrics"
  | WStats _ => "stats"
  | WAnomalies _ => "anomalies"
  | WRelevantChunks _ => "relevant_chunks"
  | WCitations _ => "citations"
  | WSafetyWarnings _ => "safety_warnings"
  | WAnswer _ => "answer"
  end.

(** [list(update.keys())] *)
Definition update_keys (u : Update) : list string := map write_key u.

(** The reducer of each channel, as [AgentState] annotates it:
    [add_messages] for [messages] (the new messages are appended),
    [operator.add] for [metric_kinds], [metrics], [anomalies],
    [relevant_chunks], [citations] and [safety_warnings] (the written list is
    concatenated to the channel's value), and plain overwrite for the
    channels without annotation. *)
Definition apply_write (s : AgentState) (w : Write) : AgentState :=
  match w with
  | WMessages v =>
      {| messages := messages s ++ v; user_id := user_id s; timeframe := timeframe s;
         metric_kinds := metric_kinds s; question := question s; metrics := metrics s;
         stats := stats s; anomalies := anomalies s;
         relevant_chunks := relevant_chunks s; citations := citations s;
         safety_warnings := safety_warnings s; answer := answer s |}
  | WUserId v =>
      {| messages := messages s; user_id := v; timeframe := timeframe s;
         metric_kinds := metric_kinds s; question := question s; metrics := metrics s;
         stats := stats s; anomalies := anomalies s;
         relevant_chunks := relevant_chunks s; citations := citations s;
         safety_warnings := safety_warnings s; answer := answer s |}
  | WTimeframe v =>
      {| messages := messages s; user_id := user_id s; timeframe := v;
         metric_kinds := metric_kinds s; question := question s; metrics := metrics s;
         stats := stats s; anomalies := anomalies s;
         relevant_chunks := relevant_chunks s; citations := citations s;
         safety_warnings := safety_warnings s; answer := answer s |}
  | WMetricKinds v =>
      {| messages := messages s; user_id := user_id s; timeframe := timeframe s;
         metric_kinds := metric_kinds s ++ v; question := question s; metrics := metrics s;
         stats := stats s; anomalies := anomalies s;
         relevant_chunks := relevant_chunks s; citations := citations s;
         safety_warnings := safety_warnings s; answer := answer s |}
  | WQuestion v =>
      {| messages := messages s; user_id := user_id s; timeframe := timeframe s;
         metric_kinds := metric_kinds s; question := v; metrics := metrics s;
         stats := stats s; anomalies := anomalies s;
         relevant_chunks := relevant_chunks s; citations := citations s;
         safety_warnings := safety_warnings s; answer := answer s |}
  | WMetrics v =>
      {| messages := messages s; user_id := user_id s; timeframe := timeframe s;
         metric_kinds := metric_kinds s; question := question s; metrics := metrics s ++ v;
         stats := stats s; anomalies := anomalies s;
         relevant_chunks := relevant_chunks s; citations := citations s;
         safety_warnings := safety_warnings s; answer := answer s |}
  | WStats v =>
      {| messages := messages s; user_id := user_id s; timeframe := timeframe s;
         metric_kinds := metric_kinds s; question := question s; metrics := metrics s;
         stats := v; anomalies := anomalies s;
         relevant_chunks := relevant_chunks s; citations := citations s;
         safety_warnings := safety_warnings s; answer := answer s |}
  | WAnomalies v =>
      {| messages := messages s; user_id := user_id s; timeframe := timeframe s;
         metric_kinds := metric_kinds s; question := question s; metrics := metrics s;
         stats := stats s; anomalies := anomalies s ++ v;
         relevant_chunks := relevant_chunks s; citations := citations s;
         safety_warnings := safety_warnings s; answer := answer s |}
  | WRelevantChunks v =>
      {| messages := messages s; user_id := user_id s; timeframe := timeframe s;
         metric_kinds := metric_kinds s; question := question s; metrics := metrics s;
         stats := stats s; anomalies := anomalies s;
         relevant_chunks := relevant_chunks s ++ v; citations := citations s;
         safety_warnings := safety_warnings s; answer := answer s |}
  | WCitations v =>
      {| messages := messages s; user_id := user_id s; timeframe := timeframe s;
         metric_kinds := metric_kinds s; question := question s; metrics := metrics s;
         stats := stats s; anomalies := anomalies s;
         relevant_chunks := relevant_chunks s; citations := citations s ++ v;
         safety_warnings := safety_warnings s; answer := answer s |}
  | WSafetyWarnings v =>
      {| messages := messages s; user_id := user_id s; timeframe := timeframe s;
         metric_kinds := metric_kinds s; question := question s; metrics := metrics s;
         stats := stats s; anomalies := anomalies s;
         relevant_chunks := relevant_chunks s; citations := citations s;
         safety_warnings := safety_warnings s ++ v; answer := answer s |}
  | WAnswer v =>
      {| messages := messages s; user_id := user_id s; timeframe := timeframe s;
         metric_kinds := metric_kinds s; question := question s; metrics := metrics s;
         stats := stats s; anomalies := anomalies s;
         relevant_chunks := relevant_chunks s; citations := citations s;
         safety_warnings := safety_warnings s; answer := v |}
  end.

(** Merging an update (or the graph's input) into the running state. *)
Definition merge (s : AgentState) (u : Update) : AgentState :=
  fold_left apply_write u s.

(** The value an update writes to a channel ([u.get(key)]). *)
Fixpoint upd_metrics (u : Update) : option (list Point) :=
  match u with
  | [] => None
  | WMetrics v :: _ => Some v
  | _ :: u' => upd_metrics u'
  end.

Fixpoint upd_relevant_chunks (u : Update) : option (list Chunk) :=
  match u with
  | [] => None
  | WRelevantChunks v :: _ => Some v
  | _ :: u' => upd_relevant_chunks u'
  end.

Fixpoint upd_citations (u : Update) : option (list Citation) :=
  match u with
  | [] => None
  | WCitations v :: _ => Some v
  | _ :: u' => upd_citations u'
  end.

Fixpoint upd_answer (u : Update) : option (option string) :=
  match u with
  | [] => None
  | WAnswer v :: _ => Some v
  | _ :: u' => upd_answer u'
  end.

(** Truth value of an optional string ([None] and [""] are false). *)
Definition str_truthy (o : option string) : bool :=
  match o with
  | Some s => negb (String.eqb s "")
  | None => false
  end.

(** [o or ""] *)
Definition str_or_empty (o : option string) : string :=
  match o with Some s => s | None => "" end.

End State.
Import State.

(* ===================================================================== *)
(** * Part IV. [src/app/firestore_memory.py]                             *)
(* ===================================================================== *)

Module FirestoreMemory.

(** The fields of [settings] the code reads. *)
Record Settings := {
  max_context_messages : Z;
  default_metric_kinds : list string;
}.

Section WithEnv.
Context (env : Env) (settings : Settings).

Let rt := env_rt env.

(** [fetch_context(user_id, limit)]: the stored turns as
    [(role, content)], the last [limit] of them. *)
Definition fetch_context (user : string) (limit : option Z) : M (list (string * string)) :=
  let limit :=
    match limit with
    | Some l => if l =? 0 then max_context_messages settings else l
    | None => max_context_messages settings
    end in
  docs <- call (CallMessagesQuery user) (fun w => messages_stream env w user) ;;
  let messages :=
    map (fun d : option StoredMsg =>
           match d with
           | Some m => (match sm_role m with Some r => r | None => "user" end,
                        match sm_content m with Some c => c | None => "" end)
           | None => ("user", "")
           end) docs in
  ret (slice_from (- limit) messages).

(** [append_turn(user_id, role, content)] *)
Definition append_turn (user role content : string) : M unit :=
  now <- call CallClock (fun w => Ok (clock env w)) ;;
  let doc := {| cd_user := user; cd_role := role; cd_content := content;
                cd_created_at := isoformat rt now |} in
  fun w =>
    match add_fault env (calls w) doc with
    | Some e => (Raise e, log_call (CallAdd doc) w)
    | None =>
        (Ok tt, {| conv_store := conv_store w ++ [doc];
                   calls := calls w ++ [CallAdd doc];
                   sse_out := sse_out w |})
    end.

(** [_parse_iso_utc(s)] *)
Definition _parse_iso_utc (s : string) : Result Z :=
  if String.eqb s "" then Raise (mkExc "ValueError" "Empty ISO datetime string.")
  else
    let iso := replace_Z (strip s) in
    match fromisoformat_utc rt iso with
    | Some dt => Ok dt
    | None => Raise (mkExc "ValueError" ("Invalid isoformat string: " ++ iso))
    end.

(** [list(dict.fromkeys(kinds))]: the kinds without repetition, each at its
    first place. *)
Fixpoint uniq_from (seen : list string) (l : list string) : list string :=
  match l with
  | [] => []
  | x :: rest =>
      if existsb (String.eqb x) seen then uniq_from seen rest
      else x :: uniq_from (x :: seen) rest
  end.

Definition uniq (l : list string) : list string := uniq_from [] l.

(** [k in kinds] for the kind of a stored point. *)
Definition kind_in (k : option string) (kinds : list string) : bool :=
  match k with
  | Some s => existsb (String.eqb s) kinds
  | None => false
  end.

Definition is_nil {A} (l : list A) : bool :=
  match l with [] => true | _ => false end.

(** The body of the loop over the streamed documents: the point the
    document contributes, or [None] where the loop [continue]s. A document
    without data has no ["value"], which [float] rejects. *)
Definition point_of_doc (kinds : list string) (d : option MetricData) : option Point :=
  match d with
  | None => None
  | Some data =>
      let k := md_kind data in
      if negb (is_nil kinds) && (10 <? Z.of_nat (List.length kinds)) && negb (kind_in k kinds)
      then None
      else
        let ts_iso :=
          match md_ts data with
          | TsDatetime t => isoformat rt t
          | TsOther v => py_str rt v
          end in
        match py_float rt (md_value data) with
        | Raise _ => None
        | Ok val =>
            Some {| pt_kind := k; pt_ts := PyStr ts_iso; pt_value := PyFloat val;
                    pt_unit := md_unit data |}
        end
  end.

Fixpoint collect_points (kinds : list string) (docs : list (option MetricData)) : list Point :=
  match docs with
  | [] => []
  | d :: rest =>
      match point_of_doc kinds d with
      | Some p => p :: collect_points kinds rest
      | None => collect_points kinds rest
      end
  end.

(** The [kind in uniq] clause of the query, when there is one. *)
Definition kind_filter (kinds : list string) : option (list string) :=
  if is_nil kinds then None
  else
    let u := uniq kinds in
    if Z.of_nat (List.length u) <=? 10 then Some u else None.

(** [get_user_metrics(user_id, start_iso, end_iso, kinds)] *)
Definition get_user_metrics (user start_iso end_iso : string) (kinds : list string)
  : M (list Point) :=
  start_dt <- lift (_parse_iso_utc start_iso) ;;
  end_dt <- lift (_parse_iso_utc end_iso) ;;
  docs <- call (CallMetricsQuery user start_dt end_dt (kind_filter kinds))
               (fun w => metrics_stream env w user start_dt end_dt (kind_filter kinds)) ;;
  ret (collect_points kinds docs).

End WithEnv.

End FirestoreMemory.
Import FirestoreMemory.

(* ===================================================================== *)
(** * Part V. [src/app/agent.py]                                         *)
(* ===================================================================== *)

Module Agent.

(** [d[k] = v] on a dict kept in insertion order. *)
Fixpoint dict_set {V} (k : string) (v : V) (d : list (string * V)) : list (string * V) :=
  match d with
  | [] => [(k, v)]
  | (k', v') :: rest =>
      if String.eqb k k' then (k', v) :: rest else (k', v') :: dict_set k v rest
  end.

(** [d[k]] where [k in d]. *)
Fixpoint dict_find {V} (k : string) (d : list (string * V)) : option V :=
  match d with
  | [] => None
  | (k', v) :: rest => if String.eqb k k' then Some v else dict_find k rest
  end.

(** [d.setdefault(k, []).append(v)] *)
Fixpoint setdefault_append (k : string) (v : float) (d : list (string * list float))
  : list (string * list float) :=
  match d with
  | [] => [(k, [v])]
  | (k', vs) :: rest =>
      if String.eqb k k' then (k', (vs ++ [v])%list) :: rest
      else (k', vs) :: setdefault_append k v rest
  end.

(** [x or y] on optional dicts: an empty dict is false. *)
Definition dict_opt_or (a b : option Dict) : option Dict :=
  match a with
  | Some (_ :: _) => a
  | _ => b
  end.

Definition EMERGENCY_SIGNS : list string :=
  [ "crushing chest pain"; "shortness of breath"; "fainting"; "stroke";
    "severe bleeding"; "unconscious" ].

Definition URGENT_CARE_WARNING : string :=
  "Possible emergency symptoms mentioned — advise urgent in-person care.".

Definition HEART_RATE_WARNING : string :=
  "Unusual heart rate pattern detected; seek medical review if persistent.".

Definition SYSTEM_INSTRUCTIONS : string :=
  "You are a careful health information assistant. " ++
  "Personalize using the user's metrics and ONLY the retrieved context. " ++
  "Use bracketed citations like [1], [2]. " ++
  "Do not provide diagnosis or dosing; be concise and structured.".

Definition DISCLAIMER : string :=
  "Note: This is general information based on your data and referenced materials, " ++
  "not medical advice. For diagnosis, dosing, or urgent issues, consult a clinician " ++
  "or seek in-person care.".

Section WithEnv.
Context (env : Env).

Let rt := env_rt env.

(** [_mean_sd(values)] *)
Definition _mean_sd (values : list float) : Result (option float * option float) :=
  match values with
  | [] => Ok (None, None)
  | [v] => Ok (Some v, Some zero)
  | _ =>
      rbind (mean values) (fun mu =>
      rbind (pstdev rt values) (fun sd =>
      Ok (Some mu, Some sd)))
  end.

(** [_safe_float(x)] *)
Definition _safe_float (x : PyVal) : option float := catch_none (py_float rt x).

(** The block of one chunk in [_format_context]:
    [f"[SOURCE: {src}]\n{text}\n"]. *)
Definition context_part (r : Chunk) : string :=
  let text :=
    py_or (py_or (ch_text r) (dict_get "text" (dict_or_empty (ch_payload r)))) (PyStr "") in
  let meta := dict_or_empty (dict_opt_or (ch_metadata r) (ch_payload r)) in
  let src :=
    py_or (py_or (py_or (dict_get "source" meta) (dict_get "url" meta))
                 (dict_get "id" meta))
          (PyStr "unknown") in
  "[SOURCE: " ++ py_str rt src ++ "]" ++ nl ++ py_str rt text ++ nl.

(** The loop of [_format_context], with its [break]. *)
Fixpoint format_loop (chunks : list Chunk) (max_chars : Z) (pieces : list string) (used : nat)
  : list string :=
  match chunks with
  | [] => pieces
  | r :: rest =>
      let part := context_part r in
      if max_chars <? Z.of_nat (used + String.length part) then pieces
      else format_loop rest max_chars (pieces ++ [part])%list (used + String.length part)
  end.

(** [_format_context(chunks, max_chars)] *)
Definition _format_context (chunks : list Chunk) (max_chars : Z) : string :=
  join nl (format_loop chunks max_chars [] 0).

(** The default of [max_chars]. *)
Definition MAX_CHARS : Z := 4000.

(** [_citation_block(citations)] *)
Fixpoint citation_lines (i : nat) (citations : list Citation) : list string :=
  match citations with
  | [] => []
  | c :: rest =>
      let src := py_or (cit_source c) (PyStr "unknown") in
      let tail :=
        match cit_score c with
        | Some score => " (sim " ++ fmt_fixed rt 3 score ++ ")"
        | None => ""
        end in
      ("[" ++ str_of_nat i ++ "] " ++ py_str rt src ++ tail) :: citation_lines (S i) rest
  end.

Definition _citation_block (citations : list Citation) : string :=
  join nl (citation_lines 1 citations).

(** ** The nodes *)

(** The scan of [reversed(state["messages"])] in [node_parse_user]. *)
Fixpoint latest_question (reversed : list Message) : option string :=
  match reversed with
  | [] => None
  | HumanMessage content :: _ => Some (strip content)
  | DictMessage d :: rest =>
      match dict_get "type" d with
      | PyStr "human" => Some (strip (py_str rt (py_or (dict_get "content" d) (PyStr ""))))
      | _ => latest_question rest
      end
  | _ :: rest => latest_question rest
  end.

Definition node_parse_user (state : AgentState) : Update :=
  let question := latest_question (rev (messages state)) in
  [ WQuestion question;
    WMetricKinds (metric_kinds state);
    WMetrics [];
    WAnomalies [];
    WRelevantChunks [];
    WCitations [];
    WSafetyWarnings [] ].

(** The dict built for each point in [node_pull_metrics]. *)
Definition cleaned_point (p : Point) : Point :=
  {| pt_kind := pt_kind p; pt_ts := pt_ts p;
     pt_value := of_opt_float (_safe_float (pt_value p));
     pt_unit := pt_unit p |}.

Definition node_pull_metrics (state : AgentState) : M Update :=
  let user_id := user_id state in
  let timeframe :=
    match timeframe state with
    | Some tf => tf
    | None => {| tf_start := None; tf_end := None |}
    end in
  let kinds := metric_kinds state in
  if negb (str_truthy user_id) || negb (str_truthy (tf_start timeframe))
     || negb (str_truthy (tf_end timeframe))
  then ret [WMetrics []]
  else
    data <- get_user_metrics env (str_or_empty user_id)
              (str_or_empty (tf_start timeframe)) (str_or_empty (tf_end timeframe)) kinds ;;
    ret [WMetrics (map cleaned_point data)].

(** The first loop of [node_analyze]. *)
Definition group_step (by_kind : list (string * list float)) (p : Point)
  : list (string * list float) :=
  match _safe_float (pt_value p), pt_kind p with
  | Some v, Some k =>
      if String.eqb k "" then by_kind else setdefault_append k v by_kind
  | _, _ => by_kind
  end.

Definition group_by_kind (points : list Point) : list (string * list float) :=
  fold_left group_step points [].

(** The values of a group outside [[lo, hi]]. *)
Definition outliers_of (mu sd : float) (vals : list float) : list float :=
  let lo := (mu - 2.5 * sd)%float in
  let hi := (mu + 2.5 * sd)%float in
  filter (fun v => (v <? lo)%float || (hi <? v)%float) vals.

Definition anomaly_flag (k : string) (outlier_count : nat) : string :=
  k ++ ": " ++ str_of_nat outlier_count ++ " outlier(s) beyond ±2.5σ".

(** The flag one kind contributes, if any. *)
Definition flag_of (k : string) (mu sd : option float) (vals : list float) : option string :=
  match mu, sd with
  | Some mu, Some sd =>
      if float_truthy sd && (0 <? sd)%float then
        match outliers_of mu sd vals with
        | [] => None
        | outliers => Some (anomaly_flag k (List.length outliers))
        end
      else None
  | _, _ => None
  end.

(** The second loop of [node_analyze]. *)
Fixpoint analyze_loop (by_kind : list (string * list float)) (stats : Stats)
  (flags : list string) : Result (Stats * list string) :=
  match by_kind with
  | [] => Ok (stats, flags)
  | (k, vals) :: rest =>
      rbind (_mean_sd vals) (fun '(mu, sd) =>
        let stats' :=
          dict_set k {| st_mean := mu; st_stdev := sd; st_n := List.length vals |} stats in
        let flags' :=
          match flag_of k mu sd vals with
          | Some f => (flags ++ [f])%list
          | None => flags
          end in
        analyze_loop rest stats' flags')
  end.

Definition node_analyze (state : AgentState) : Result Update :=
  let by_kind := group_by_kind (metrics state) in
  rbind (analyze_loop by_kind [] []) (fun '(stats, flags) =>
    Ok [WStats (Some stats); WAnomalies flags]).

(** [float(hit.score or 0.0)] *)
Definition score_of (h : Hit) : float :=
  if float_truthy (hit_score h) then hit_score h else zero.

(** The loop of [node_retrieve] over the hits. *)
Fixpoint retrieve_loop (results : list Hit) (chunks : list Chunk) (cites : list Citation)
  : list Chunk * list Citation :=
  match results with
  | [] => (chunks, cites)
  | hit :: rest =>
      let payload := dict_or_empty (hit_payload hit) in
      let text :=
        py_or (py_or (dict_get "text" payload) (dict_get "page_content" payload)) (PyStr "") in
      let meta : Dict :=
        [ ("id", py_or (dict_get "id" payload) (dict_get "doc_id" payload));
          ("source", py_or (py_or (dict_get "source" payload) (dict_get "url" payload))
                           (dict_get "path" payload));
          ("title", dict_get "title" payload);
          ("chunk", py_or (dict_get "chunk" payload) (dict_get "chunk_id" payload)) ] in
      retrieve_loop rest
        (chunks ++ [ {| ch_text := text; ch_score := Some (score_of hit);
                        ch_metadata := Some meta; ch_payload := None |} ])%list
        (cites ++ [ {| cit_id := dict_get "id" meta; cit_source := dict_get "source" meta;
                       cit_score := Some (score_of hit) |} ])%list
  end.

(** The fragments [f"{k} mean {mean:.1f}"] of the enriched query. *)
Definition enrich_of (stats : Stats) : list string :=
  flat_map (fun k =>
              match dict_find k stats with
              | Some st =>
                  match st_mean st with
                  | Some mu => [k ++ " mean " ++ fmt_fixed rt 1 mu]
                  | None => []
                  end
              | None => []
              end)
           ["hr"; "hrv"; "sleep"; "steps"].

Definition node_retrieve (state : AgentState) : M Update :=
  let q := strip (str_or_empty (question state)) in
  if String.eqb q "" then ret [WRelevantChunks []; WCitations []]
  else
    let stats := match stats state with Some st => st | None => [] end in
    let enrich := enrich_of stats in
    let enriched :=
      match enrich with
      | [] => q
      | _ => q ++ " | " ++ join "; " enrich
      end in
    vector <- call (CallEmbed enriched) (fun w => embed_query env w enriched) ;;
    results <- call (CallSearch vector) (fun w => qdrant_search env w vector) ;;
    let '(chunks, cites) := retrieve_loop results [] [] in
    ret [WRelevantChunks chunks; WCitations cites].

Definition node_safety (state : AgentState) : Update :=
  let q := lower rt (str_or_empty (question state)) in
  let warnings1 :=
    if existsb (fun k => str_in k q) EMERGENCY_SIGNS then [URGENT_CARE_WARNING] else [] in
  let anomalies := anomalies state in
  let warnings2 :=
    if existsb (fun a => startswith a "hr:") anomalies
    then (warnings1 ++ [HEART_RATE_WARNING])%list else warnings1 in
  [WSafetyWarnings warnings2].

(** The metrics summary lines of [node_answer]. *)
Definition summary_parts (stats : Stats) : list string :=
  flat_map (fun '(k, st) =>
              match st_mean st with
              | Some mu =>
                  if (st_n st =? 0)%nat then []
                  else
                    let seg := "- " ++ upper k ++ ": mean " ++ fmt_fixed rt 1 mu in
                    let seg :=
                      match st_stdev st with
                      | Some sd => seg ++ ", σ " ++ fmt_fixed rt 1 sd
                      | None => seg
                      end in
                    [seg ++ " over " ++ str_of_nat (st_n st) ++ " pts"]
              | None => []
              end)
           stats.

(** The user prompt of [node_answer]. *)
Definition user_prompt_of (state : AgentState) : string :=
  let question := str_or_empty (question state) in
  let stats := match stats state with Some st => st | None => [] end in
  let anomalies := anomalies state in
  let safety := safety_warnings state in
  let parts := summary_parts stats in
  let metrics_summary :=
    match parts with
    | [] => "No recent metrics available for the requested window."
    | _ => join nl parts
    end in
  let context := _format_context (relevant_chunks state) MAX_CHARS in
  let cites := _citation_block (citations state) in
  let p := "Question:" ++ nl ++ question ++ nl ++ nl ++
           "Your recent metrics (summary):" ++ nl ++ metrics_summary ++ nl in
  let p :=
    match anomalies with
    | [] => p
    | _ => p ++ nl ++ "Detected anomalies:" ++ nl ++ "- " ++ join (nl ++ "- ") anomalies ++ nl
    end in
  let p := p ++ nl ++ "Context (verbatim excerpts):" ++ nl ++ context ++ nl ++ nl in
  let p := p ++
           "Instructions:" ++ nl ++
           "- Personalize using the user's metrics." ++ nl ++
           "- Use ONLY the provided context for claims; add bracketed citations." ++ nl ++
           "- If context is insufficient, say so and suggest what data or timeframe would help." ++ nl ++
           "- Keep the answer under ~180 words." ++ nl in
  let p :=
    match safety with
    | [] => p
    | _ => p ++ nl ++ "Safety considerations:" ++ nl ++ "- " ++ join (nl ++ "- ") safety ++ nl
    end in
  if String.eqb cites "" then p
  else p ++ nl ++ "Sources:" ++ nl ++ cites ++ nl.

Definition node_answer (state : AgentState) : M Update :=
  let user_prompt := user_prompt_of state in
  resp <- call (CallChat SYSTEM_INSTRUCTIONS user_prompt)
               (fun w => chat_invoke env w SYSTEM_INSTRUCTIONS user_prompt) ;;
  let content := strip resp ++ nl ++ nl ++ DISCLAIMER in
  ret [WAnswer (Some content); WMessages [AIMessage content]].

(** ** The graph *)

Definition Node : Type := AgentState -> M Update.

(** [build_graph()]: the nodes in the order of the edges from [START] to
    [END]. *)
Definition GRAPH : list (string * Node) :=
  [ ("parse_user", fun s => ret (node_parse_user s));
    ("pull_metrics", node_pull_metrics);
    ("analyze_metrics", fun s => lift (node_analyze s));
    ("retrieve_guidance", node_retrieve);
    ("safety", fun s => ret (node_safety s));
    ("answer", node_answer) ].

(** A run of the nodes of a linear graph: each node reads the state, and
    its update is merged channel by channel. *)
Fixpoint run_nodes (nodes : list (string * Node)) (s : AgentState) : M AgentState :=
  match nodes with
  | [] => ret s
  | (_, node) :: rest =>
      u <- node s ;;
      run_nodes rest (merge s u)
  end.

(** [GRAPH.invoke(input)]: the input is written to the channels, the nodes
    run, the final state is returned. *)
Definition invoke (input : Update) : M AgentState :=
  run_nodes GRAPH (merge empty_state input).

(** [async for update in GRAPH.astream(input, stream_mode="updates"): body]:
    after each node the graph hands [{node_name: update}] to the loop body,
    and runs the next node when the body asks for the next item. *)
Fixpoint astream_loop {A} (nodes : list (string * Node)) (s : AgentState)
  (body : A -> string -> Update -> M A) (acc : A) : M A :=
  match nodes with
  | [] => ret acc
  | (name, node) :: rest =>
      u <- node s ;;
      acc' <- body acc name u ;;
      astream_loop rest (merge s u) body acc'
  end.

Definition astream_for {A} (input : Update) (body : A -> string -> Update -> M A) (acc : A)
  : M A :=
  astream_loop GRAPH (merge empty_state input) body acc.

End WithEnv.

End Agent.
Import Agent.

(* ===================================================================== *)
(** * Part VI. [src/app/main.py]: the chat endpoints                     *)
(* ===================================================================== *)

Module Main.

(** [ChatRequest] (the [metadata] field is not read). *)
Record ChatRequest := {
  req_user_id : string;
  req_message : string;
  req_timeframe : option (string * string);   (** [(start, end)] *)
  req_metric_kinds : option (list string);
}.

Record ChatResponse := {
  reply : string;
  used_docs : list Citation;
}.

Section WithEnv.
Context (env : Env) (settings : Settings).

Let rt := env_rt env.

Definition MICROSECONDS_PER_DAY : Z := 86400 * 1000000.

(** [_default_timeframe(days)] *)
Definition _default_timeframe (days : Z) : M Timeframe :=
  end_ <- call CallClock (fun w => Ok (clock env w)) ;;
  let start := end_ - days * MICROSECONDS_PER_DAY in
  ret {| tf_start := Some (isoformat rt start); tf_end := Some (isoformat rt end_) |}.

(** [_to_lc_history(context)] *)
Definition _to_lc_history (context : list (string * string)) : list Message :=
  map (fun '(role, content) =>
         if String.eqb (lower rt role) "assistant" then AIMessage content
         else HumanMessage content)
      context.

(** The part the two endpoints share: the history, the window, the kinds
    and the [initial_state] dict. *)
Definition build_initial_state (body : ChatRequest) : M Update :=
  history_raw <- fetch_context env settings (req_user_id body)
                   (Some (max_context_messages settings)) ;;
  let history_msgs := _to_lc_history history_raw in
  timeframe <-
    match req_timeframe body with
    | Some (s, e) => ret {| tf_start := Some s; tf_end := Some e |}
    | None => _default_timeframe 7
    end ;;
  let metric_kinds :=
    match req_metric_kinds body with
    | Some (k :: ks) => k :: ks
    | _ => default_metric_kinds settings
    end in
  ret [ WMessages (history_msgs ++ [HumanMessage (req_message body)])%list;
        WUserId (Some (req_user_id body));
        WTimeframe (Some timeframe);
        WMetricKinds metric_kinds;
        WMetrics [];
        WAnomalies [];
        WRelevantChunks [];
        WCitations [];
        WSafetyWarnings [] ].

(** What [chat] does once [initial_state] is built. *)
Definition chat_run (body : ChatRequest) (initial_state : Update) : M ChatResponse :=
  result <- invoke env initial_state ;;
  let reply := strip (str_or_empty (answer result)) in
  append_turn env (req_user_id body) "user" (req_message body) ;;;
  append_turn env (req_user_id body) "assistant" reply ;;;
  ret {| reply := reply; used_docs := citations result |}.

(** [chat(body)] *)
Definition chat (body : ChatRequest) : M ChatResponse :=
  initial_state <- build_initial_state body ;;
  chat_run body initial_state.

(** The body of the [async for] loop of [sse_gen]; the accumulator is
    [final_answer]. *)
Definition sse_step (final_answer : string) (node_name : string) (payload : Update)
  : M string :=
  let maybe_state := payload in
  let final_answer :=
    match upd_answer maybe_state with
    | Some (Some ans) => if String.eqb ans "" then final_answer else ans
    | _ => final_answer
    end in
  yield (SseNode node_name (update_keys maybe_state)) ;;;
  ret final_answer.

(** [sse_gen()], the generator behind the streaming response. *)
Definition sse_gen (body : ChatRequest) (initial_state : Update) : M unit :=
  try_finally
    (try_except
       (final_answer <- astream_for env initial_state sse_step "" ;;
        append_turn env (req_user_id body) "user" (req_message body) ;;;
        append_turn env (req_user_id body) "assistant" final_answer ;;;
        yield (SseFinal final_answer))
       (fun exc => yield (SseError (exc_msg exc))))
    (yield SseDone).

(** [chat_stream(body)] with its response consumed to the end. *)
Definition chat_stream (body : ChatRequest) : M unit :=
  initial_state <- build_initial_state body ;;
  sse_gen body initial_state.

End WithEnv.

End Main.
Import Main.

(* ===================================================================== *)
(** * Part VI-a. [src/app/retriever.py]                                  *)
(* ===================================================================== *)

Module Retriever.

(** An item of [upsert_texts]: [{"text": ..., "metadata": {...}, "id": ...}]
    ([None]: key absent or [None]). *)
Record Item := {
  it_text : string;
  it_metadata : option Dict;
  it_id : option string;
}.

(** [k in d] *)
Definition dict_has (k : string) (d : Dict) : bool :=
  existsb (fun kv => String.eqb k (fst kv)) d.

(** [{**d, **meta}]: the keys of [meta] are written into [d] one after the
    other. *)
Definition dict_update (d meta : Dict) : Dict :=
  fold_left (fun acc kv => dict_set (fst kv) (snd kv) acc) meta d.

(** The payload [upsert_texts] builds for an item:
    [{"text": item["text"], **meta}] with [meta = item.get("metadata") or {}]. *)
Definition payload_of_item (item : Item) : Dict :=
  let meta := dict_or_empty (it_metadata item) in
  dict_update [("text", PyStr (it_text item))] meta.

(** The objects [search] returns. *)
Record Doc := {
  page_content : PyVal;
  metadata : Dict;
  score : float;
}.

(** [_Doc(payload, score)] *)
Definition _Doc (payload : Dict) (score : float) : Doc :=
  {| page_content :=
       py_or (py_or (dict_get "text" payload) (dict_get "page_content" payload)) (PyStr "");
     metadata := filter (fun kv => negb (String.eqb (fst kv) "text")) payload;
     score := score |}.

(** The filter of [search]: [must = [{"key": where["key"], "match":
    MatchValue(value=where["value"])}]] when [where] is a non-empty dict
    with both keys, no filter otherwise. *)
Definition qfilter_of (where_ : option Dict) : option (PyVal * PyVal) :=
  match where_ with
  | Some (kv :: rest) =>
      let w := kv :: rest in
      if dict_has "key" w && dict_has "value" w
      then Some (dict_get "key" w, dict_get "value" w)
      else None
  | _ => None
  end.

(** The two collaborators of [search]: the embedder and the index, asked
    for at most [limit] hits that pass the filter. *)
Record IndexEnv := {
  ix_embed_query : string -> Result (list float);
  ix_search : list float -> Z -> option (PyVal * PyVal) -> Result (list Hit);
}.

(** [search(query, k, where)] *)
Definition search (ix : IndexEnv) (query : string) (k : Z) (where_ : option Dict)
  : Result (list Doc) :=
  rbind (ix_embed_query ix query) (fun qvec =>
  let qfilter := qfilter_of where_ in
  rbind (ix_search ix qvec k qfilter) (fun results =>
  Ok (map (fun hit => _Doc (dict_or_empty (hit_payload hit)) (score_of hit)) results))).

End Retriever.

(* ===================================================================== *)
(** * Part VI-b. [src/app/main.py]: the configuration endpoints          *)
(* ===================================================================== *)

Module Config.

(** [settings] as the configuration endpoints see it: the fields the chat
    endpoints read, and the kinds on offer. *)
Record AppSettings := {
  chat_settings : Settings;
  available_metric_kinds : list string;
}.

(** [MetricConfigUpdateRequest] *)
Record MetricConfigUpdateRequest := {
  new_default_metric_kinds : option (list string);
  new_available_metric_kinds : option (list string);
}.

(** [MetricConfigResponse] *)
Record MetricConfigResponse := {
  resp_default_metric_kinds : list string;
  resp_available_metric_kinds : list string;
}.

(** [get_metric_config()] *)
Definition get_metric_config (settings : AppSettings) : MetricConfigResponse :=
  {| resp_default_metric_kinds := default_metric_kinds (chat_settings settings);
     resp_available_metric_kinds := available_metric_kinds settings |}.

(** [set(a) - set(b)], each element once. *)
Definition set_difference (a b : list string) : list string :=
  uniq (filter (fun x => negb (existsb (String.eqb x) b)) a).

(** [o or dflt] on an optional list: an empty list is false. *)
Definition list_or (o : option (list string)) (dflt : list string) : list string :=
  match o with
  | Some (x :: l) => x :: l
  | _ => dflt
  end.

Definition set_default_metric_kinds (settings : AppSettings) (v : list string) : AppSettings :=
  {| chat_settings :=
       {| max_context_messages := max_context_messages (chat_settings settings);
          default_metric_kinds := v |};
     available_metric_kinds := available_metric_kinds settings |}.

Definition set_available_metric_kinds (settings : AppSettings) (v : list string) : AppSettings :=
  {| chat_settings := chat_settings settings; available_metric_kinds := v |}.

Section WithRepr.
(** How Python prints a set of strings in an f-string. *)
Context (repr_set : list string -> string).

(** [update_metric_config(body)]: the response or the exception, and
    [settings] afterwards. *)
Definition update_metric_config (body : MetricConfigUpdateRequest) (settings : AppSettings)
  : Result MetricConfigResponse * AppSettings :=
  let invalid_defaults :=
    match new_default_metric_kinds body with
    | Some (d :: ds) =>
        set_difference (d :: ds)
          (list_or (new_available_metric_kinds body) (available_metric_kinds settings))
    | _ => []
    end in
  if negb (is_nil invalid_defaults) then
    (Raise (mkExc "ValueError"
              ("Default metric kinds " ++ repr_set invalid_defaults ++
               " are not in available metric kinds")),
     settings)
  else
    let settings :=
      match new_default_metric_kinds body with
      | Some d => set_default_metric_kinds settings d
      | None => settings
      end in
    let settings :=
      match new_available_metric_kinds body with
      | Some a => set_available_metric_kinds settings a
      | None => settings
      end in
    (Ok (get_metric_config settings), settings).

End WithRepr.

End Config.

(* ===================================================================== *)
(** * Part VII. Definitions used to state the properties                 *)
(* ===================================================================== *)

Module Spec.

(** The total number of characters of a list of blocks. *)
Definition sum_len (l : list string) : nat :=
  fold_right (fun s n => (String.length s + n)%nat) 0%nat l.

(** The blocks [_format_context] joins. *)
Definition context_pieces (env : Env) (chunks : list Chunk) (max_chars : Z) : list string :=
  format_loop env chunks max_chars [] 0.

(** A stored metric whose value [float()] accepts. *)
Definition coercible (env : Env) (d : option MetricData) : bool :=
  match d with
  | Some data => is_ok (py_float (env_rt env) (md_value data))
  | None => false
  end.

(** The state lets the Metrics Fetcher query the store: a user and both
    ends of the window are there. *)
Definition fetch_ready (s : AgentState) (uid st en : string) : Prop :=
  user_id s = Some uid /\ uid <> "" /\
  timeframe s = Some {| tf_start := Some st; tf_end := Some en |} /\
  st <> "" /\ en <> "".

(** A citation and a chunk that come from the same hit: same id, same
    source, same score. *)
Definition same_hit (c : Citation) (ch : Chunk) : Prop :=
  cit_id c = dict_get "id" (dict_or_empty (ch_metadata ch)) /\
  cit_source c = dict_get "source" (dict_or_empty (ch_metadata ch)) /\
  cit_score c = ch_score ch.

(** [citations] and [relevant_chunks] have the same length and agree index
    by index. *)
Definition aligned (chunks : list Chunk) (cites : list Citation) : Prop :=
  List.length cites = List.length chunks /\
  forall (i : nat) (c : Citation) (ch : Chunk),
    nth_error cites i = Some c -> nth_error chunks i = Some ch -> same_hit c ch.

(** A string of whitespace only (the empty string included). *)
Fixpoint blank (s : string) : bool :=
  match s with
  | EmptyString => true
  | String c s' => is_space c && blank s'
  end.

(** [sub] occurs in [s]. *)
Definition contains (sub s : string) : Prop :=
  exists pre post : string, s = pre ++ sub ++ post.

(** The lower-cased question mentions one of the emergency signs. *)
Definition mentions_emergency (env : Env) (q : option string) : Prop :=
  exists k : string,
    In k EMERGENCY_SIGNS /\ contains k (lower (env_rt env) (str_or_empty q)).

(** Two characters that are equal, or the same ASCII letter in its two
    cases (the capital letters are 65 to 90, the small ones 32 above). *)
Definition same_char_ignoring_case (a b : ascii) : Prop :=
  a = b \/
  ((65 <= nat_of_ascii a)%nat /\ (nat_of_ascii a <= 90)%nat /\
   nat_of_ascii b = (nat_of_ascii a + 32)%nat) \/
  ((65 <= nat_of_ascii b)%nat /\ (nat_of_ascii b <= 90)%nat /\
   nat_of_ascii a = (nat_of_ascii b + 32)%nat).

(** Two texts that are the same when the case of ASCII letters is ignored. *)
Fixpoint same_ignoring_case (s t : string) : Prop :=
  match s, t with
  | EmptyString, EmptyString => True
  | String a s', String b t' => same_char_ignoring_case a b /\ same_ignoring_case s' t'
  | _, _ => False
  end.

(** [sub] occurs in [s], in any mix of upper and lower case. *)
Definition occurs_ignoring_case (sub s : string) : Prop :=
  exists pre mid post : string, s = pre ++ mid ++ post /\ same_ignoring_case mid sub.

(** The question mentions one of the emergency signs, in any mix of upper
    and lower case. *)
Definition mentions_emergency_in_any_case (q : option string) : Prop :=
  exists k : string, In k EMERGENCY_SIGNS /\ occurs_ignoring_case k (str_or_empty q).

(** Some anomaly starts with the tag of the heart-rate kind. *)
Definition heart_rate_anomaly (anomalies : list string) : Prop :=
  exists a : string, In a anomalies /\ exists rest : string, a = "hr:" ++ rest.

(** The rational number a finite float stands for. *)
Definition exact_value (x : float) : Q :=
  match as_integer_ratio x with
  | Some q => q
  | None => 0 # 1
  end.

(** The arithmetic mean: the sum over the count. *)
Definition spec_mean (qs : list Q) : Q :=
  (Qsum qs / count_Q (List.length qs))%Q.

(** The population variance: the mean of the squared deviations from the
    mean, divisor the count. *)
Definition spec_pvariance (qs : list Q) : Q :=
  (Qsum (map (fun x => (x - spec_mean qs) * (x - spec_mean qs)) qs)
   / count_Q (List.length qs))%Q.

(** The sample variance: divisor the count minus one. *)
Definition spec_svariance (qs : list Q) : Q :=
  (Qsum (map (fun x => (x - spec_mean qs) * (x - spec_mean qs)) qs)
   / count_Q (List.length qs - 1))%Q.

(** The square root of a fraction, rounded to a float. *)
Definition sqrt_of_frac (q : Q) : Result float :=
  let r := Qred q in _float_sqrt_of_frac (Qnum r) (Zpos (Qden r)).

(** The values of the points of kind [k] that the Metrics Analyzer keeps:
    the kind is not empty and the value passes [_safe_float]. *)
Definition values_of_kind (env : Env) (k : string) (points : list Point) : list float :=
  flat_map (fun p =>
              match _safe_float env (pt_value p), pt_kind p with
              | Some v, Some k' =>
                  if String.eqb k' k && negb (String.eqb k' "") then [v] else []
              | _, _ => []
              end)
           points.

(** The values grouped under [k] (none if [k] is no key). *)
Definition group_get (k : string) (d : list (string * list float)) : list float :=
  match dict_find k d with
  | Some l => l
  | None => []
  end.

(** The keys of the groups are distinct and no group is empty. *)
Definition good_groups (d : list (string * list float)) : Prop :=
  NoDup (map fst d) /\ Forall (fun g => snd g <> []) d.

(** What one group contributes to [stats] and to [anomalies]. *)
Definition kind_result (env : Env) (g : string * list float)
  : Result (StatEntry * option string) :=
  rbind (_mean_sd env (snd g)) (fun '(mu, sd) =>
    Ok ({| st_mean := mu; st_stdev := sd; st_n := List.length (snd g) |},
        flag_of (fst g) mu sd (snd g))).

Definition opt_list {A} (o : option A) : list A :=
  match o with Some a => [a] | None => [] end.

(** [v] lies strictly outside [[mu - 2.5 sd, mu + 2.5 sd]]. *)
Definition strictly_outside (mu sd v : float) : Prop :=
  (v <? mu - 2.5 * sd)%float = true \/ (mu + 2.5 * sd <? v)%float = true.


(** A run of the nodes told as a list: the updates of the nodes that
    completed, in order, the exception that ended the run if one did, and the
    world after the run. *)
Fixpoint graph_updates (nodes : list (string * Node)) (s : AgentState) (w : World)
  : list (string * Update) * option PyExc * World :=
  match nodes with
  | [] => ([], None, w)
  | (name, node) :: rest =>
      match node s w with
      | (Ok u, w1) =>
          let '(ups, o, w') := graph_updates rest (merge s u) w1 in
          ((name, u) :: ups, o, w')
      | (Raise e, w1) => ([], Some e, w1)
      end
  end.

(** The state after the updates of a run. *)
Definition state_after (s : AgentState) (ups : list (string * Update)) : AgentState :=
  fold_left (fun s nu => merge s (snd nu)) ups s.

(** The progress event of a completed stage. *)
Definition node_event (nu : string * Update) : SSE :=
  SseNode (fst nu) (update_keys (snd nu)).

(** The answer the loop of [sse_gen] ends with: the last non-empty
    [answer] among the updates, or the initial value. *)
Definition final_answer_of (acc : string) (ups : list (string * Update)) : string :=
  fold_left (fun acc nu =>
               match upd_answer (snd nu) with
               | Some (Some ans) => if String.eqb ans "" then acc else ans
               | _ => acc
               end)
            ups acc.

(** The world with more events on the response. *)
Definition emit_all (w : World) (evs : list SSE) : World :=
  {| conv_store := conv_store w; calls := calls w; sse_out := sse_out w ++ evs |}.

(** The two turns of a request. *)
Definition user_turn (body : ChatRequest) (created_at : string) : ConvDoc :=
  {| cd_user := req_user_id body; cd_role := "user"; cd_content := req_message body;
     cd_created_at := created_at |}.

Definition assistant_turn (body : ChatRequest) (reply created_at : string) : ConvDoc :=
  {| cd_user := req_user_id body; cd_role := "assistant"; cd_content := reply;
     cd_created_at := created_at |}.

(** The two [append_turn] calls of an endpoint. *)
Definition persist_turns (env : Env) (body : ChatRequest) (reply : string) : M unit :=
  append_turn env (req_user_id body) "user" (req_message body) ;;;
  append_turn env (req_user_id body) "assistant" reply.

(** The turns a request may leave in the store: none, the user turn, or the
    user turn and the assistant turn. *)
Definition turns_of (body : ChatRequest) (reply : string) (turns : list ConvDoc) : Prop :=
  turns = [] \/
  (exists t1, turns = [user_turn body t1]) \/
  (exists t1 t2, turns = [user_turn body t1; assistant_turn body reply t2]).

(** A computation that only talks to collaborators that are read: it leaves
    the conversation store and the response alone, and what it returns and
    calls depends on the calls made before only. *)
Definition quiet {A} (m : M A) : Prop :=
  forall w : World,
    conv_store (snd (m w)) = conv_store w /\
    sse_out (snd (m w)) = sse_out w /\
    forall st evs,
      m {| conv_store := st; calls := calls w; sse_out := evs |}
      = (fst (m w), {| conv_store := st; calls := calls (snd (m w)); sse_out := evs |}).

End Spec.
Import Spec.

(* ===================================================================== *)
(** * Part VIII. Concrete collaborators and inputs                       *)
(* ===================================================================== *)

Module Fixtures.

(** A runtime for inputs in which no number is parsed from a string and the
    text to lower-case is ASCII. *)
Definition rt0 : Runtime :=
  {| float_of_str := fun _ => None;
     repr_float := fun _ => "0.0";
     fmt_fixed := fun _ _ => "0.0";
     fromisoformat_utc := fun _ => Some 0;
     isoformat := fun _ => "1970-01-01T00:00:00+00:00";
     pstdev_nonfinite := fun _ => Ok nan;
     lower_nonascii := fun _ c _ => String c EmptyString |}.

Definition w0 : World := {| conv_store := []; calls := []; sse_out := [] |}.

Definition settings0 : Settings :=
  {| max_context_messages := 12;
     default_metric_kinds := ["hr"; "hrv"; "steps"; "sleep"] |}.

Definition doc_of (kind : string) (value : PyVal) : option MetricData :=
  Some {| md_kind := Some kind; md_ts := TsDatetime 0; md_value := value;
          md_unit := PyStr "bpm" |}.

Definition hit0 : Hit :=
  {| hit_payload := Some [("text", PyStr "Sleep seven to nine hours.");
                          ("source", PyStr "sleep.md"); ("id", PyInt 7)];
     hit_score := 0.5%float |}.

(** Collaborators that all answer: two heart-rate points, one hit, a
    completion. *)
Definition env_ok : Env :=
  {| env_rt := rt0;
     clock := fun _ => 0;
     messages_stream := fun _ _ => Ok [];
     metrics_stream := fun _ _ _ _ _ =>
       Ok [doc_of "hr" (PyFloat 10); doc_of "hr" (PyInt 20)];
     add_fault := fun _ _ => None;
     embed_query := fun _ _ => Ok [1%float];
     qdrant_search := fun _ _ => Ok [hit0];
     chat_invoke := fun _ _ _ => Ok "Rest well. [1]" |}.

(** The same, with a metrics store that holds an infinite value and a
    value that is no number. *)
Definition env_inf : Env :=
  {| env_rt := rt0;
     clock := fun _ => 0;
     messages_stream := fun _ _ => Ok [];
     metrics_stream := fun _ _ _ _ _ =>
       Ok [doc_of "hr" (PyFloat infinity); doc_of "hr" PyNone];
     add_fault := fun _ _ => None;
     embed_query := fun _ _ => Ok [1%float];
     qdrant_search := fun _ _ => Ok [hit0];
     chat_invoke := fun _ _ _ => Ok "Rest well. [1]" |}.

(** The same as [env_ok], with an index that fails. *)
Definition env_search_down : Env :=
  {| env_rt := rt0;
     clock := fun _ => 0;
     messages_stream := fun _ _ => Ok [];
     metrics_stream := fun _ _ _ _ _ =>
       Ok [doc_of "hr" (PyFloat 10); doc_of "hr" (PyInt 20)];
     add_fault := fun _ _ => None;
     embed_query := fun _ _ => Ok [1%float];
     qdrant_search := fun _ _ => Raise (mkExc "ResponseHandlingException" "connection refused");
     chat_invoke := fun _ _ _ => Ok "Rest well. [1]" |}.

Definition body0 : ChatRequest :=
  {| req_user_id := "u1"; req_message := "How is my sleep?";
     req_timeframe := Some ("2025-09-13T00:00:00Z", "2025-09-20T00:00:00Z");
     req_metric_kinds := None |}.

(** A state as the endpoints build it, before the first node. *)
Definition state0 : AgentState :=
  merge empty_state
    [ WMessages [HumanMessage "How is my sleep?"];
      WUserId (Some "u1");
      WTimeframe (Some {| tf_start := Some "2025-09-13T00:00:00Z";
                          tf_end := Some "2025-09-20T00:00:00Z" |});
      WMetricKinds ["hr"] ].

(** Values left in the accumulator channels by an earlier use of the state
    object. *)
Definition stale_point : Point :=
  {| pt_kind := Some "hr"; pt_ts := PyStr "2025-01-01T00:00:00+00:00";
     pt_value := PyFloat 72; pt_unit := PyStr "bpm" |}.

Definition stale_chunk : Chunk :=
  {| ch_text := PyStr "old passage"; ch_score := Some 0.5%float;
     ch_metadata := Some [("id", PyStr "d1"); ("source", PyStr "old.md")];
     ch_payload := None |}.

Definition stale_citation : Citation :=
  {| cit_id := PyStr "d1"; cit_source := PyStr "old.md"; cit_score := Some 0.5%float |}.

Definition stale_input : Update :=
  [ WMessages [HumanMessage "How is my sleep?"];
    WUserId (Some "u1");
    WMetrics [stale_point];
    WAnomalies ["hr: 1 outlier(s) beyond ±2.5σ"];
    WRelevantChunks [stale_chunk];
    WCitations [stale_citation];
    WSafetyWarnings [HEART_RATE_WARNING] ].

(** [n] times the letter a. *)
Fixpoint letters (n : nat) : string :=
  match n with
  | O => EmptyString
  | S n' => String "a"%char (letters n')
  end.

(** A chunk whose block [[SOURCE: s]\n<text>\n] has 2000 characters. *)
Definition chunk_2000 : Chunk :=
  {| ch_text := PyStr (letters 1987); ch_score := Some 0.5%float;
     ch_metadata := Some [("id", PyStr "d1"); ("source", PyStr "s");
                          ("title", PyNone); ("chunk", PyNone)];
     ch_payload := None |}.

(** What the Guidance Retriever builds from [hit0], and the world after its
    two calls. *)
Definition chunk_hit0 : Chunk :=
  {| ch_text := PyStr "Sleep seven to nine hours."; ch_score := Some 0.5%float;
     ch_metadata := Some [("id", PyInt 7); ("source", PyStr "sleep.md");
                          ("title", PyNone); ("chunk", PyNone)];
     ch_payload := None |}.

Definition citation_hit0 : Citation :=
  {| cit_id := PyInt 7; cit_source := PyStr "sleep.md"; cit_score := Some 0.5%float |}.

Definition world_retrieved : World :=
  {| conv_store := [];
     calls := [CallEmbed "How is my sleep?"; CallSearch [1%float]];
     sse_out := [] |}.

(** States for the Safety Screener. *)
Definition state_calm : AgentState :=
  merge state0 [WQuestion (Some "How is my sleep?")].

Definition state_fainted : AgentState :=
  merge state0 [WQuestion (Some "He was UNCONSCIOUS for a minute")].

Definition state_fainted_hr : AgentState :=
  merge state_fainted [WAnomalies ["hr: 1 outlier(s) beyond ±2.5σ"]].

(** Heart-rate groups: nine values 0 and one value 10 (mean 1, stdev 3, so
    10 lies beyond 1 + 2.5 * 3 = 8.5); twenty-five values 0 and four values
    29 (mean 4, stdev 10, so 29 lies exactly on 4 + 2.5 * 10). *)
Definition group_outlier : list float := (repeat 0 9 ++ [10])%float%list.

Definition group_boundary : list float := (repeat 0 25 ++ repeat 29 4)%float%list.

Definition points_of (kind : string) (vals : list float) : list Point :=
  map (fun v => {| pt_kind := Some kind; pt_ts := PyNone; pt_value := PyFloat v;
                   pt_unit := PyNone |}) vals.

Definition state_outlier : AgentState :=
  merge state0 [WMetrics (points_of "hr" group_outlier)].

(** A state whose question is whitespace only. *)
Definition state_blank : AgentState :=
  merge state0 [WQuestion (Some (String " "%char (String (ascii_of_nat 9) " ")))].

(** A request against the index that is down: the [initial_state] the
    endpoints build, the world once it is built, and the run of the graph on
    it, which fails in the fourth stage. *)
Definition input_down : Update :=
  [ WMessages [HumanMessage "How is my sleep?"];
    WUserId (Some "u1");
    WTimeframe (Some {| tf_start := Some "2025-09-13T00:00:00Z";
                        tf_end := Some "2025-09-20T00:00:00Z" |});
    WMetricKinds ["hr"; "hrv"; "steps"; "sleep"];
    WMetrics [];
    WAnomalies [];
    WRelevantChunks [];
    WCitations [];
    WSafetyWarnings [] ].

Definition world_built : World :=
  {| conv_store := []; calls := [CallMessagesQuery "u1"]; sse_out := [] |}.

Definition error_down : PyExc :=
  mkExc "ResponseHandlingException" "connection refused".

Definition updates_down : list (string * Update) :=
  Eval vm_compute in
    fst (fst (graph_updates (GRAPH env_search_down) (merge empty_state input_down) w0)).


Definition world_failed : World :=
  Eval vm_compute in
    snd (graph_updates (GRAPH env_search_down) (merge empty_state input_down) world_built).

End Fixtures.
Import Fixtures.

(* ===================================================================== *)
(** * Part VIII-a. Further notions and inputs                            *)
(* ===================================================================== *)

Module Notions.

(** A message [node_parse_user] takes the question from: a [HumanMessage]
    or a dict whose ["type"] is ["human"]. *)
Definition is_human (m : Message) : bool :=
  match m with
  | HumanMessage _ => true
  | DictMessage d => match dict_get "type" d with PyStr "human" => true | _ => false end
  | _ => false
  end.

(** An optional string that is unset or empty. *)
Definition missing (o : option string) : Prop := o = None \/ o = Some "".

(** [s] ends with [suffix]. *)
Definition ends_with (suffix s : string) : Prop := exists pre : string, s = pre ++ suffix.

(** A stored turn as [(role, content)]: the role of a document without one
    is ["user"], the content [""]. *)
Definition stored_turn (d : option StoredMsg) : string * string :=
  match d with
  | Some m => (match sm_role m with Some r => r | None => "user" end,
               match sm_content m with Some c => c | None => "" end)
  | None => ("user", "")
  end.

(** The message a stored turn becomes in the conversation: the assistant's
    when its role, lower-cased, is the word assistant, the user's
    otherwise. *)
Definition history_message (env : Env) (turn : string * string) : Message :=
  if String.eqb (lower (env_rt env) (fst turn)) "assistant"
  then AIMessage (snd turn)
  else HumanMessage (snd turn).


End Notions.
Import Notions.

Module Samples.

(** A conversation whose latest human message is followed by other
    messages. *)
Definition state_dialogue : AgentState :=
  merge empty_state
    [WMessages [HumanMessage "Hi"; AIMessage "Hello."; HumanMessage "  Is 50 bpm low? ";
                AIMessage "It can be."; DictMessage [("type", PyStr "ai")]]].

(** Collaborators whose date parser rejects the word yesterday. *)
Definition env_bad_dates : Env :=
  {| env_rt := {| float_of_str := fun _ => None;
                  repr_float := fun _ => "0.0";
                  fmt_fixed := fun _ _ => "0.0";
                  fromisoformat_utc :=
                    fun s => if String.eqb s "yesterday" then None else Some 0;
                  isoformat := fun _ => "1970-01-01T00:00:00+00:00";
                  pstdev_nonfinite := fun _ => Ok nan;
                  lower_nonascii := fun _ c _ => String c EmptyString |};
     clock := fun _ => 0;
     messages_stream := fun _ _ => Ok [];
     metrics_stream := fun _ _ _ _ _ => Ok [];
     add_fault := fun _ _ => None;
     embed_query := fun _ _ => Ok [1%float];
     qdrant_search := fun _ _ => Ok [];
     chat_invoke := fun _ _ _ => Ok "" |}.

Definition state_bad_window : AgentState :=
  merge empty_state
    [ WUserId (Some "u1");
      WTimeframe (Some {| tf_start := Some "yesterday";
                          tf_end := Some "2025-09-20T00:00:00Z" |}) ].

Definition eleven_kinds : list string :=
  ["hr"; "hrv"; "steps"; "sleep"; "weight"; "blood_pressure"; "temperature"; "glucose";
   "oxygen_saturation"; "vo2max"; "calories"].

(** A complete run under [env_ok]: the updates of the six stages, the world
    after the run, and what [chat] returns and leaves. *)
Definition updates_ok : list (string * Update) :=
  Eval vm_compute in
    fst (fst (graph_updates (GRAPH env_ok) (merge empty_state input_down) world_built)).

Definition world_ok : World :=
  Eval vm_compute in
    snd (graph_updates (GRAPH env_ok) (merge empty_state input_down) world_built).

Definition response_ok : ChatResponse :=
  Eval vm_compute in
    match fst (chat env_ok settings0 body0 w0) with
    | Ok r => r
    | Raise _ => {| reply := ""; used_docs := [] |}
    end.

Definition world_chatted : World :=
  Eval vm_compute in snd (chat env_ok settings0 body0 w0).

Definition stored (role content : string) : option StoredMsg :=
  Some {| sm_role := Some role; sm_content := Some content |}.

(** A conversation store with four documents, one empty and one without a
    role. *)
Definition env_history : Env :=
  {| env_rt := rt0;
     clock := fun _ => 0;
     messages_stream := fun _ _ =>
       Ok [stored "user" "Hi"; stored "assistant" "Hello."; None;
           Some {| sm_role := None; sm_content := Some "Is 50 bpm low?" |}];
     metrics_stream := fun _ _ _ _ _ => Ok [];
     add_fault := fun _ _ => None;
     embed_query := fun _ _ => Ok [1%float];
     qdrant_search := fun _ _ => Ok [hit0];
     chat_invoke := fun _ _ _ => Ok "It can be. [1]" |}.

(** The request of [body0] against that store: the state [chat] builds and
    the complete run on it. *)
Definition input_history : Update :=
  Eval vm_compute in
    match fst (build_initial_state env_history settings0 body0 w0) with
    | Ok input => input
    | Raise _ => []
    end.

Definition updates_history : list (string * Update) :=
  Eval vm_compute in
    fst (fst (graph_updates (GRAPH env_history) (merge empty_state input_history) world_built)).

Definition world_history : World :=
  Eval vm_compute in
    snd (graph_updates (GRAPH env_history) (merge empty_state input_history) world_built).

Definition error_history : PyExc := mkExc "ServiceUnavailable" "firestore is down".

(** A conversation store that cannot be read. *)
Definition env_history_down : Env :=
  {| env_rt := rt0;
     clock := fun _ => 0;
     messages_stream := fun _ _ => Raise error_history;
     metrics_stream := fun _ _ _ _ _ => Ok [];
     add_fault := fun _ _ => None;
     embed_query := fun _ _ => Ok [1%float];
     qdrant_search := fun _ _ => Ok [hit0];
     chat_invoke := fun _ _ _ => Ok "It can be. [1]" |}.

(** Items for the index: one with plain metadata, one whose metadata has a
    key named text. *)
Definition item_sleep : Retriever.Item :=
  {| Retriever.it_text := "Sleep seven to nine hours.";
     Retriever.it_metadata := Some [("source", PyStr "sleep.md"); ("chunk", PyInt 3)];
     Retriever.it_id := None |}.

Definition item_shadowed : Retriever.Item :=
  {| Retriever.it_text := "Sleep seven to nine hours.";
     Retriever.it_metadata := Some [("source", PyStr "sleep.md"); ("text", PyStr "draft")];
     Retriever.it_id := None |}.

Definition ix_ok : Retriever.IndexEnv :=
  {| Retriever.ix_embed_query := fun _ => Ok [1%float];
     Retriever.ix_search := fun _ _ _ => Ok [hit0] |}.

(** The settings with the defaults of [config.py], and an update of the
    default kinds. *)
Definition app_settings0 : Config.AppSettings :=
  {| Config.chat_settings := settings0;
     Config.available_metric_kinds :=
       ["hr"; "hrv"; "steps"; "sleep"; "weight"; "blood_pressure"; "temperature"; "glucose";
        "oxygen_saturation"] |}.

Definition config_body0 : Config.MetricConfigUpdateRequest :=
  {| Config.new_default_metric_kinds := Some ["hr"; "weight"];
     Config.new_available_metric_kinds := None |}.

Definition repr_set0 (l : list string) : string := "{" ++ join ", " l ++ "}".

End Samples.
Import Samples.

(* ===================================================================== *)
(** * Part IX. The properties                                            *)
(* ===================================================================== *)

(** ** The first node and the accumulator channels *)

Section ParseUser.
Context (env : Env).

(** Under the concatenating reducers the empty lists that [node_parse_user]
    writes leave the five accumulator channels as they were. *)
Lemma parse_user_keeps_accumulators (s : AgentState) :
  let s' := merge s (node_parse_user env s) in
  metrics s' = metrics s /\ anomalies s' = anomalies s /\
  relevant_chunks s' = relevant_chunks s /\ citations s' = citations s /\
  safety_warnings s' = safety_warnings s.
Proof.
  cbn. rewrite !app_nil_r. repeat split.
Qed.

(** The update of [node_parse_user] itself writes empty lists. *)
Lemma parse_user_writes_empty_lists (s : AgentState) :
  upd_metrics (node_parse_user env s) = Some [] /\
  upd_relevant_chunks (node_parse_user env s) = Some [] /\
  upd_citations (node_parse_user env s) = Some [].
Proof. repeat split. Qed.

(** C1, at the failing input: a run of the first node on a state whose
    accumulator channels hold values from an earlier use ends with these
    values still in the channels, so the accumulators are not empty after the
    Question Extractor. *)
Theorem C1_stale_accumulators_survive_first_stage :
  forall w : World,
    exists s1 : AgentState,
      run_nodes (firstn 1 (GRAPH env)) (merge empty_state stale_input) w = (Ok s1, w) /\
      metrics s1 = [stale_point] /\
      anomalies s1 = ["hr: 1 outlier(s) beyond ±2.5σ"] /\
      relevant_chunks s1 = [stale_chunk] /\
      citations s1 = [stale_citation] /\
      safety_warnings s1 = [HEART_RATE_WARNING].
Proof.
  intros w. eexists. split; [reflexivity | repeat split].
Qed.

End ParseUser.

(** ** Strings *)

Lemma length_append (a b : string) :
  String.length (a ++ b) = (String.length a + String.length b)%nat.
Proof. induction a as [|c a IH]; simpl; [reflexivity | now rewrite IH]. Qed.

(** The joined string has the characters of the blocks and one separator
    between two neighbours. *)
Lemma join_length (sep : string) (l : list string) :
  String.length (join sep l)
  = (sum_len l + String.length sep * pred (List.length l))%nat.
Proof.
  unfold join. induction l as [|x l IH]; [simpl; lia|].
  destruct l as [|y l].
  - simpl. lia.
  - change (String.concat sep (x :: y :: l)) with (x ++ sep ++ String.concat sep (y :: l)).
    rewrite !length_append, IH. simpl. lia.
Qed.

(** ** The context of the Answer Composer *)

Section FormatContext.
Context (env : Env).

Lemma format_loop_cons (r : Chunk) (rest : list Chunk) (max_chars : Z)
  (pieces : list string) (used : nat) :
  format_loop env (r :: rest) max_chars pieces used
  = if max_chars <? Z.of_nat (used + String.length (context_part env r)) then pieces
    else format_loop env rest max_chars (pieces ++ [context_part env r])%list
           (used + String.length (context_part env r)).
Proof. reflexivity. Qed.

(** The loop keeps a prefix of the blocks, whole, in chunk order; what it
    adds stays within the budget; and it stops at the first block that
    would pass the budget. *)
Lemma format_loop_spec (chunks : list Chunk) (max_chars : Z) :
  forall (pieces : list string) (used : nat),
  exists k : nat,
    (k <= List.length chunks)%nat /\
    format_loop env chunks max_chars pieces used
    = (pieces ++ map (context_part env) (firstn k chunks))%list /\
    (Z.of_nat used <= max_chars ->
     Z.of_nat (used + sum_len (map (context_part env) (firstn k chunks))) <= max_chars) /\
    (forall r, nth_error chunks k = Some r ->
       max_chars < Z.of_nat (used + sum_len (map (context_part env) (firstn k chunks))
                             + String.length (context_part env r))).
Proof.
  induction chunks as [|r rest IH]; intros pieces used.
  - exists 0%nat. simpl. rewrite app_nil_r.
    split; [lia|]. split; [reflexivity|]. split; [lia|].
    intros r H. discriminate.
  - rewrite format_loop_cons.
    destruct (max_chars <? Z.of_nat (used + String.length (context_part env r))) eqn:E.
    + exists 0%nat. cbn [firstn map sum_len fold_right nth_error List.length].
      rewrite app_nil_r.
      split; [lia|]. split; [reflexivity|]. split; [lia|].
      intros r0 H. injection H as <-. apply Z.ltb_lt in E. lia.
    + apply Z.ltb_ge in E.
      destruct (IH (pieces ++ [context_part env r])%list
                  (used + String.length (context_part env r))%nat)
        as (k & Hk & Heq & Hsum & Hstop).
      exists (S k). cbn [firstn map sum_len fold_right nth_error List.length].
      split; [lia|]. split; [rewrite Heq, <- app_assoc; reflexivity|].
      split.
      * intros _. specialize (Hsum E). unfold sum_len in *. lia.
      * intros r0 H. specialize (Hstop r0 H). unfold sum_len in *. lia.
Qed.

(** The blocks that enter the context hold at most [max_chars] characters
    together, and each is the whole block of its chunk. *)
Lemma context_pieces_within_budget (chunks : list Chunk) (max_chars : Z) :
  0 <= max_chars ->
  exists k : nat,
    context_pieces env chunks max_chars = map (context_part env) (firstn k chunks) /\
    Z.of_nat (sum_len (context_pieces env chunks max_chars)) <= max_chars.
Proof.
  intros Hmax. unfold context_pieces.
  destruct (format_loop_spec chunks max_chars [] 0) as (k & _ & Heq & Hsum & _).
  exists k. rewrite Heq. simpl. split; [reflexivity|].
  apply Hsum. simpl. exact Hmax.
Qed.

(** The length of the context: the blocks and the newlines that join them. *)
Lemma format_context_length (chunks : list Chunk) (max_chars : Z) :
  String.length (_format_context env chunks max_chars)
  = (sum_len (context_pieces env chunks max_chars)
     + pred (List.length (context_pieces env chunks max_chars)))%nat.
Proof.
  unfold _format_context, context_pieces. rewrite join_length.
  change (String.length nl) with 1%nat. lia.
Qed.

(** C3, at the failing input: two chunks whose blocks have 2000 characters
    each both fit the budget of 4000, and the context that joins them with a
    newline has 4001 characters, more than the budget. *)
Theorem C3_context_exceeds_budget :
  context_pieces env [chunk_2000; chunk_2000] MAX_CHARS
  = [context_part env chunk_2000; context_part env chunk_2000] /\
  String.length (context_part env chunk_2000) = 2000%nat /\
  String.length (_format_context env [chunk_2000; chunk_2000] MAX_CHARS) = 4001%nat /\
  MAX_CHARS < Z.of_nat (String.length (_format_context env [chunk_2000; chunk_2000] MAX_CHARS)).
Proof.
  repeat split; vm_compute; reflexivity.
Qed.

End FormatContext.

(** ** The Metrics Fetcher *)

Ltac munfold := unfold bind, ret, lift, call in *.

Section PullMetrics.
Context (env : Env).

Let rt := env_rt env.

(** Every point that [get_user_metrics] keeps carries a float. *)
Lemma collect_points_float (kinds : list string) (docs : list (option MetricData)) :
  Forall (fun p => exists f, pt_value p = PyFloat f) (collect_points env kinds docs).
Proof.
  induction docs as [|d docs IH]; simpl; [constructor|].
  destruct (point_of_doc env kinds d) as [p|] eqn:E; [|exact IH].
  constructor; [|exact IH].
  unfold point_of_doc in E. destruct d as [data|]; [|discriminate].
  match type of E with context [if ?c then _ else _] => destruct c end;
    [discriminate|].
  destruct (py_float (env_rt env) (md_value data)) as [val|]; [|discriminate].
  injection E as <-. now exists val.
Qed.

(** A document whose value [float()] rejects gives no point. *)
Lemma point_of_doc_uncoercible (kinds : list string) (d : option MetricData) :
  coercible env d = false -> point_of_doc env kinds d = None.
Proof.
  destruct d as [data|]; [|reflexivity]. unfold coercible, point_of_doc. intros H.
  match goal with |- context [if ?c then _ else _] => destruct c end;
    [reflexivity|].
  destruct (py_float (env_rt env) (md_value data)); [discriminate | reflexivity].
Qed.

(** The points are those of the documents with a value [float()] accepts:
    the others leave no trace. *)
Lemma collect_points_drops_uncoercible (kinds : list string)
  (docs : list (option MetricData)) :
  collect_points env kinds docs = collect_points env kinds (filter (coercible env) docs).
Proof.
  induction docs as [|d docs IH]; [reflexivity|].
  simpl. destruct (coercible env d) eqn:E.
  - simpl. now rewrite IH.
  - now rewrite (point_of_doc_uncoercible kinds d E).
Qed.

Lemma cleaned_point_float (p : Point) :
  (exists f, pt_value p = PyFloat f) ->
  exists f, pt_value (cleaned_point env p) = PyFloat f.
Proof. intros [f Hf]. exists f. unfold cleaned_point. simpl. now rewrite Hf. Qed.

Lemma str_truthy_some (x : string) : x <> "" -> str_truthy (Some x) = true.
Proof.
  intros H. simpl. destruct (String.eqb_spec x ""); [contradiction | reflexivity].
Qed.

(** C2, as amended: after the Metrics Fetcher every value of the metrics it
    writes is a float (an infinity or NaN included); the stored points whose
    value [float()] rejects are dropped without a trace; and when the window
    parses and the store answers, the stage succeeds whatever the stored
    values are. *)
Theorem C2_metrics_values_are_floats :
  forall (s : AgentState) (w : World),
    (forall (u : Update) (w' : World),
        node_pull_metrics env s w = (Ok u, w') ->
        exists ms, u = [WMetrics ms] /\
                   Forall (fun p => exists f, pt_value p = PyFloat f) ms) /\
    (forall (uid st en : string) (start_dt end_dt : Z) (docs : list (option MetricData)),
        fetch_ready s uid st en ->
        _parse_iso_utc env st = Ok start_dt ->
        _parse_iso_utc env en = Ok end_dt ->
        metrics_stream env (calls w) uid start_dt end_dt (kind_filter (metric_kinds s))
        = Ok docs ->
        node_pull_metrics env s w
        = (Ok [WMetrics (map (cleaned_point env)
                           (collect_points env (metric_kinds s)
                              (filter (coercible env) docs)))],
           log_call (CallMetricsQuery uid start_dt end_dt (kind_filter (metric_kinds s))) w)).
Proof.
  intros s w. split.
  - intros u w' H. unfold node_pull_metrics in H.
    destruct (_ || _).
    + munfold. injection H as <- _. exists []. split; [reflexivity | constructor].
    + unfold get_user_metrics in H. munfold.
      destruct (_parse_iso_utc env _); [|discriminate].
      destruct (_parse_iso_utc env _); [|discriminate].
      destruct (metrics_stream env (calls w) _ _ _ _) as [docs|]; [|discriminate].
      injection H as <- _. eexists. split; [reflexivity|].
      apply Forall_map. eapply Forall_impl; [|apply collect_points_float].
      intros p Hp. now apply cleaned_point_float.
  - intros uid st en start_dt end_dt docs (Hu & Hune & Htf & Hst & Hen) Hps Hpe Hdocs.
    unfold node_pull_metrics. rewrite Hu, Htf. cbn [tf_start tf_end].
    rewrite !str_truthy_some by assumption. cbn [negb orb str_or_empty].
    unfold get_user_metrics. munfold. rewrite Hps, Hpe, Hdocs.
    now rewrite <- collect_points_drops_uncoercible.
Qed.

End PullMetrics.

(** C2, as stated, fails: a stored point whose value is the float infinity
    passes [float()] and enters the metrics, so not every value after the
    Metrics Fetcher is finite. *)
Lemma C2_counterexample_infinite_value :
  ~ (forall (env : Env) (s : AgentState) (w w' : World) (u : Update)
            (ms : list Point) (p : Point),
        node_pull_metrics env s w = (Ok u, w') ->
        upd_metrics u = Some ms -> In p ms ->
        exists f, pt_value p = PyFloat f /\ is_finite f = true).
Proof.
  intros H.
  destruct (H env_inf state0 w0 _ _ _
              {| pt_kind := Some "hr"; pt_ts := PyStr "1970-01-01T00:00:00+00:00";
                 pt_value := PyFloat infinity; pt_unit := PyStr "bpm" |}
              eq_refl eq_refl (or_introl eq_refl))
    as (f & Hf & Hfin).
  simpl in Hf. injection Hf as <-. vm_compute in Hfin. discriminate.
Qed.

(** A run of the Metrics Fetcher that meets the hypotheses of C2 as
    amended. *)
Lemma C2_witness :
  fetch_ready state0 "u1" "2025-09-13T00:00:00Z" "2025-09-20T00:00:00Z" /\
  node_pull_metrics env_inf state0 w0
  = (Ok [WMetrics [ {| pt_kind := Some "hr"; pt_ts := PyStr "1970-01-01T00:00:00+00:00";
                       pt_value := PyFloat infinity; pt_unit := PyStr "bpm" |} ]],
     log_call (CallMetricsQuery "u1" 0 0 (Some ["hr"])) w0).
Proof.
  assert (R : fetch_ready state0 "u1" "2025-09-13T00:00:00Z" "2025-09-20T00:00:00Z").
  { unfold fetch_ready. repeat split; discriminate. }
  split; [exact R|].
  exact (proj2 (C2_metrics_values_are_floats env_inf state0 w0)
           "u1" "2025-09-13T00:00:00Z" "2025-09-20T00:00:00Z" 0 0
           [doc_of "hr" (PyFloat infinity); doc_of "hr" PyNone]
           R eq_refl eq_refl eq_refl).
Defined.

(** ** The Guidance Retriever *)

Lemma aligned_nil : aligned [] [].
Proof.
  split; [reflexivity|]. intros i c ch H. destruct i; discriminate.
Qed.

Lemma aligned_app (chunks chunks' : list Chunk) (cites cites' : list Citation) :
  aligned chunks cites -> aligned chunks' cites' ->
  aligned (chunks ++ chunks') (cites ++ cites').
Proof.
  intros [Hlen Hnth] [Hlen' Hnth']. split.
  - rewrite !length_app. lia.
  - intros i c ch Hc Hch.
    destruct (Nat.lt_ge_cases i (List.length cites)) as [Hlt|Hge].
    + rewrite nth_error_app1 in Hc by lia. rewrite nth_error_app1 in Hch by lia.
      eapply Hnth; eassumption.
    + rewrite nth_error_app2 in Hc by lia. rewrite nth_error_app2 in Hch by lia.
      rewrite <- Hlen in Hch. eapply Hnth'; eassumption.
Qed.

Lemma aligned_one (c : Citation) (ch : Chunk) : same_hit c ch -> aligned [ch] [c].
Proof.
  intros H. split; [reflexivity|].
  intros [|i] c' ch' Hc Hch; simpl in *.
  - injection Hc as <-. injection Hch as <-. exact H.
  - destruct i; discriminate.
Qed.

(** The loop over the hits keeps the two lists aligned, and adds one entry
    to each per hit. *)
Lemma retrieve_loop_aligned (results : list Hit) :
  forall (chunks : list Chunk) (cites : list Citation),
    aligned chunks cites ->
    aligned (fst (retrieve_loop results chunks cites))
            (snd (retrieve_loop results chunks cites)) /\
    List.length (fst (retrieve_loop results chunks cites))
    = (List.length chunks + List.length results)%nat.
Proof.
  induction results as [|hit rest IH]; intros chunks cites Ha.
  - simpl. split; [exact Ha | lia].
  - cbn [retrieve_loop].
    match goal with
    | |- context [retrieve_loop rest (chunks ++ [?ch]) (cites ++ [?c])] =>
        destruct (IH (chunks ++ [ch])%list (cites ++ [c])%list) as [IHa IHl]
    end.
    + apply aligned_app; [exact Ha|]. apply aligned_one. repeat split.
    + split; [exact IHa|]. rewrite IHl, length_app. simpl. lia.
Qed.

Lemma lstrip_blank (s : string) : blank s = true -> lstrip s = "".
Proof.
  induction s as [|c s IH]; [reflexivity|]. simpl.
  destruct (is_space c); [exact IH | discriminate].
Qed.

Lemma strip_blank (s : string) : blank s = true -> strip s = "".
Proof. intros H. unfold strip. now rewrite lstrip_blank. Qed.

Section Retrieve.
Context (env : Env).

(** C6: the chunks and the citations that the Guidance Retriever writes have
    the same length, and at every index the citation has the id, the source
    and the score of the chunk at that index; merged into a state whose two
    lists are aligned (the empty lists a request starts with are), the lists
    of the state are aligned after the stage. *)
Theorem C6_citations_match_chunks :
  forall (s : AgentState) (w w' : World) (u : Update),
    node_retrieve env s w = (Ok u, w') ->
    exists (chunks : list Chunk) (cites : list Citation),
      u = [WRelevantChunks chunks; WCitations cites] /\
      aligned chunks cites /\
      (aligned (relevant_chunks s) (citations s) ->
       aligned (relevant_chunks (merge s u)) (citations (merge s u))).
Proof.
  intros s w w' u H.
  assert (exists chunks cites,
             u = [WRelevantChunks chunks; WCitations cites] /\ aligned chunks cites)
    as (chunks & cites & -> & Ha).
  { unfold node_retrieve in H.
    destruct (String.eqb _ ""); munfold.
    - injection H as <- _. exists [], []. split; [reflexivity | apply aligned_nil].
    - destruct (embed_query env (calls w) _) as [vector|]; [|discriminate].
      destruct (qdrant_search env _ vector) as [results|]; [|discriminate].
      destruct (retrieve_loop results [] []) as [chunks cites] eqn:E.
      injection H as <- _. exists chunks, cites. split; [reflexivity|].
      pose proof (proj1 (retrieve_loop_aligned results [] [] aligned_nil)) as Ha.
      rewrite E in Ha. exact Ha. }
  exists chunks, cites. split; [reflexivity|]. split; [exact Ha|].
  intros Hs. cbn. now apply aligned_app.
Qed.

(** C7: when the question is unset, empty or whitespace only, the Guidance
    Retriever returns empty chunks and citations and leaves the world as it
    found it: no call to the embedder or to the index is made. *)
Theorem C7_blank_question_short_circuits :
  forall (s : AgentState) (w : World),
    (question s = None \/ exists q, question s = Some q /\ blank q = true) ->
    node_retrieve env s w = (Ok [WRelevantChunks []; WCitations []], w) /\
    calls (snd (node_retrieve env s w)) = calls w.
Proof.
  intros s w H.
  assert (E : strip (str_or_empty (question s)) = "").
  { destruct H as [-> | (q & -> & Hq)]; [reflexivity | now apply strip_blank]. }
  unfold node_retrieve. rewrite E. simpl. split; reflexivity.
Qed.

End Retrieve.

(** A run of the Guidance Retriever with one hit. *)
Lemma C6_witness :
  node_retrieve env_ok state_calm w0
  = (Ok [WRelevantChunks [chunk_hit0]; WCitations [citation_hit0]], world_retrieved) /\
  exists (chunks : list Chunk) (cites : list Citation),
    [WRelevantChunks [chunk_hit0]; WCitations [citation_hit0]]
    = [WRelevantChunks chunks; WCitations cites] /\
    aligned chunks cites /\
    (aligned (relevant_chunks state_calm) (citations state_calm) ->
     aligned
       (relevant_chunks
          (merge state_calm [WRelevantChunks [chunk_hit0]; WCitations [citation_hit0]]))
       (citations
          (merge state_calm [WRelevantChunks [chunk_hit0]; WCitations [citation_hit0]]))).
Proof.
  assert (H : node_retrieve env_ok state_calm w0
              = (Ok [WRelevantChunks [chunk_hit0]; WCitations [citation_hit0]],
                 world_retrieved)) by (vm_compute; reflexivity).
  split; [exact H|].
  exact (C6_citations_match_chunks env_ok state_calm w0 _ _ H).
Defined.

(** A whitespace-only question. *)
Lemma C7_witness :
  node_retrieve env_ok state_blank w0 = (Ok [WRelevantChunks []; WCitations []], w0) /\
  calls (snd (node_retrieve env_ok state_blank w0)) = calls w0.
Proof.
  apply (C7_blank_question_short_circuits env_ok state_blank w0).
  right. exists (String " "%char (String (ascii_of_nat 9) " ")). split; reflexivity.
Defined.

(** ** The Safety Screener *)

Lemma prefix_spec (p s : string) :
  prefix p s = true <-> exists post : string, s = p ++ post.
Proof.
  revert s. induction p as [|a p IH]; intros s.
  - destruct s; simpl; split; intros _; eauto.
  - destruct s as [|b s]; simpl.
    + split; [discriminate | intros [post H]; discriminate].
    + destruct (ascii_dec a b) as [->|Hne].
      * rewrite IH. split; intros [post H]; exists post.
        -- now rewrite H.
        -- now injection H.
      * split; [discriminate|]. intros [post H]. injection H as H _. congruence.
Qed.

(** [str_in] decides occurrence as a substring. *)
Lemma str_in_spec (sub s : string) : str_in sub s = true <-> contains sub s.
Proof.
  unfold contains. induction s as [|c s IH].
  - cbn [str_in]. rewrite orb_false_r, prefix_spec. split.
    + intros [post H]. exists "", post. exact H.
    + intros (pre & post & H). destruct pre; [|discriminate]. exists post. exact H.
  - cbn [str_in]. rewrite orb_true_iff, IH, prefix_spec. split.
    + intros [[post H] | (pre & post & H)].
      * exists "", post. exact H.
      * exists (String c pre), post. simpl. now rewrite H.
    + intros (pre & post & H). destruct pre as [|c' pre].
      * left. exists post. exact H.
      * right. simpl in H. injection H as _ H. exists pre, post. exact H.
Qed.

Lemma string_app_assoc (a b c : string) : (a ++ b) ++ c = a ++ b ++ c.
Proof. induction a as [|x a IH]; [reflexivity|]. cbn [append]. rewrite IH. reflexivity. Qed.

(** *** Lower-casing, on the characters *)

Lemma lower_char_capital (a : ascii) :
  (65 <= nat_of_ascii a)%nat -> (nat_of_ascii a <= 90)%nat ->
  nat_of_ascii (lower_char a) = (nat_of_ascii a + 32)%nat.
Proof.
  intros H1 H2. unfold lower_char.
  assert (E : ((65 <=? nat_of_ascii a) && (nat_of_ascii a <=? 90))%nat = true).
  { apply andb_true_iff. split; apply Nat.leb_le; assumption. }
  rewrite E. apply nat_ascii_embedding. lia.
Qed.

Lemma lower_char_other (a : ascii) :
  (nat_of_ascii a < 65 \/ 90 < nat_of_ascii a)%nat -> lower_char a = a.
Proof.
  intros H. unfold lower_char.
  assert (E : ((65 <=? nat_of_ascii a) && (nat_of_ascii a <=? 90))%nat = false).
  { apply andb_false_iff. destruct H; [left; apply Nat.leb_gt | right; apply Nat.leb_gt]; lia. }
  rewrite E. reflexivity.
Qed.

Lemma nat_of_ascii_inj (a b : ascii) : nat_of_ascii a = nat_of_ascii b -> a = b.
Proof.
  intros H. rewrite <- (ascii_nat_embedding a), <- (ascii_nat_embedding b), H. reflexivity.
Qed.

Lemma lower_char_same (a : ascii) : same_char_ignoring_case a (lower_char a).
Proof.
  destruct (Nat.le_gt_cases 65 (nat_of_ascii a)) as [H1|H1];
    [destruct (Nat.le_gt_cases (nat_of_ascii a) 90) as [H2|H2]|].
  - right; left. split; [exact H1 | split; [exact H2 | apply lower_char_capital; assumption]].
  - left. symmetry. apply lower_char_other. right; exact H2.
  - left. symmetry. apply lower_char_other. left; exact H1.
Qed.

Lemma same_char_lower (a b : ascii) :
  same_char_ignoring_case a b -> lower_char b = b -> lower_char a = b.
Proof.
  intros [->|[(H1 & H2 & H3)|(H1 & H2 & H3)]] Hb.
  - exact Hb.
  - apply nat_of_ascii_inj. rewrite lower_char_capital by assumption. symmetry. exact H3.
  - exfalso. pose proof (lower_char_capital b H1 H2) as H. rewrite Hb in H. lia.
Qed.

Lemma same_char_ascii (a b : ascii) :
  same_char_ignoring_case a b -> is_ascii_char b = true -> is_ascii_char a = true.
Proof.
  unfold is_ascii_char. intros [->|[(H1 & H2 & H3)|(H1 & H2 & H3)]] Hb; [exact Hb | |];
    apply Nat.ltb_lt; lia.
Qed.

(** *** Lower-casing, on the texts *)

Lemma map_string_app_inv (f : ascii -> ascii) (q : string) :
  forall a b : string,
    map_string f q = a ++ b ->
    exists qa qb, q = qa ++ qb /\ map_string f qa = a /\ map_string f qb = b.
Proof.
  induction q as [|c q IH]; intros a b H.
  - destruct a; [|discriminate]. destruct b; [|discriminate]. exists "", "". repeat split.
  - destruct a as [|x a].
    + exists "", (String c q). repeat split. exact H.
    + cbn [map_string append] in H. injection H as Hx H.
      destruct (IH a b H) as (qa & qb & -> & Ha & Hb).
      exists (String c qa), qb. cbn [append map_string]. rewrite Hx, Ha. repeat split. exact Hb.
Qed.

Lemma same_lower (mid : string) :
  forall k : string,
    same_ignoring_case mid k -> map_string lower_char k = k -> map_string lower_char mid = k.
Proof.
  induction mid as [|a mid IH]; intros [|b k] H Hk; try (destruct H; fail); [reflexivity|].
  destruct H as [Hc Hs]. cbn [map_string] in Hk |- *. injection Hk as Hb Hk.
  rewrite (same_char_lower a b Hc Hb), (IH k Hs Hk). reflexivity.
Qed.

Lemma lower_same (mid : string) : same_ignoring_case mid (map_string lower_char mid).
Proof.
  induction mid as [|a mid IH]; [exact I|]. split; [apply lower_char_same | exact IH].
Qed.

Lemma same_is_ascii (mid : string) :
  forall k : string, same_ignoring_case mid k -> is_ascii k = true -> is_ascii mid = true.
Proof.
  induction mid as [|a mid IH]; intros [|b k] H Hk; try (destruct H; fail); [reflexivity|].
  destruct H as [Hc Hs]. cbn [is_ascii] in Hk |- *. apply andb_true_iff in Hk as [Hb Hk].
  rewrite (same_char_ascii a b Hc Hb), (IH k Hs Hk). reflexivity.
Qed.

Section Lower.
Context (rt : Runtime).

(** On ASCII text [lower] folds the capital letters and nothing else. *)
Lemma lower_at_ascii (s : string) :
  forall before, is_ascii s = true -> lower_at rt before s = map_string lower_char s.
Proof.
  induction s as [|c s IH]; intros before H; [reflexivity|].
  cbn [is_ascii] in H. apply andb_true_iff in H as [Hc Hs].
  cbn [lower_at map_string]. rewrite Hc, IH by exact Hs. reflexivity.
Qed.

(** An ASCII stretch is folded in its place, whatever stands before and
    after it. *)
Lemma lower_at_ascii_app (k : string) :
  forall before post,
    is_ascii k = true ->
    lower_at rt before (k ++ post) = map_string lower_char k ++ lower_at rt (before ++ k) post.
Proof.
  induction k as [|c k IH]; intros before post H.
  - cbn [append map_string]. f_equal. clear. induction before as [|x b IH]; [reflexivity|].
    cbn [append]. rewrite <- IH. reflexivity.
  - cbn [is_ascii] in H. apply andb_true_iff in H as [Hc Hk].
    cbn [append lower_at map_string]. rewrite Hc, IH by exact Hk.
    rewrite string_app_assoc. reflexivity.
Qed.

Lemma lower_at_app (a : string) :
  forall before b, exists X, lower_at rt before (a ++ b) = X ++ lower_at rt (before ++ a) b.
Proof.
  induction a as [|c a IH]; intros before b.
  - exists "". cbn [append]. f_equal. clear. induction before as [|x bf IH]; [reflexivity|].
    cbn [append]. rewrite <- IH. reflexivity.
  - destruct (IH (before ++ String c "") b) as (X & HX).
    cbn [append lower_at]. rewrite HX, string_app_assoc. cbn [append].
    destruct (is_ascii_char c).
    + exists (String (lower_char c) X). reflexivity.
    + exists (lower_nonascii rt before c (a ++ b) ++ X). rewrite string_app_assoc. reflexivity.
Qed.

(** A lower-case ASCII phrase that occurs in the text in any case occurs in
    the lowered text. *)
Lemma occurs_lowered (k q : string) :
  is_ascii k = true -> map_string lower_char k = k ->
  occurs_ignoring_case k q -> contains k (lower rt q).
Proof.
  intros Hk Hl (pre & mid & post & -> & Hs). unfold lower.
  destruct (lower_at_app pre "" (mid ++ post)) as (X & ->).
  rewrite lower_at_ascii_app by (apply (same_is_ascii mid k Hs Hk)).
  rewrite (same_lower mid k Hs Hl). exists X. eexists. reflexivity.
Qed.

(** In ASCII text, a phrase of the lowered text is a phrase of the text in
    some mix of cases. *)
Lemma lowered_occurs (k q : string) :
  is_ascii q = true -> contains k (lower rt q) -> occurs_ignoring_case k q.
Proof.
  intros Hq (pre & post & H). unfold lower in H. rewrite lower_at_ascii in H by exact Hq.
  apply map_string_app_inv in H as (qa & qr & -> & _ & H).
  apply map_string_app_inv in H as (qm & qb & -> & Hm & _).
  exists qa, qm, qb. split; [reflexivity|]. rewrite <- Hm. apply lower_same.
Qed.

End Lower.

Lemma emergency_signs_lower_case :
  Forall (fun k => is_ascii k = true /\ map_string lower_char k = k) EMERGENCY_SIGNS.
Proof. repeat constructor. Qed.

Lemma existsb_str_in (q : string) :
  existsb (fun k => str_in k q) EMERGENCY_SIGNS = true
  <-> exists k, In k EMERGENCY_SIGNS /\ contains k q.
Proof.
  rewrite existsb_exists. split; intros (k & Hin & H); exists k; split; try exact Hin.
  - now apply str_in_spec.
  - now apply str_in_spec.
Qed.

Lemma existsb_startswith (anomalies : list string) :
  existsb (fun a => startswith a "hr:") anomalies = true <-> heart_rate_anomaly anomalies.
Proof.
  unfold heart_rate_anomaly, startswith. rewrite existsb_exists.
  split; intros (a & Hin & H); exists a; split; try exact Hin.
  - now apply prefix_spec.
  - now apply prefix_spec.
Qed.

Section Safety.
Context (env : Env).

(** Zero, one and two warnings all occur; the question of the second and
    third state has the phrase in capital letters. *)
Lemma safety_counts_occur :
  node_safety env state_calm = [WSafetyWarnings []] /\
  node_safety env state_fainted = [WSafetyWarnings [URGENT_CARE_WARNING]] /\
  node_safety env state_fainted_hr
  = [WSafetyWarnings [URGENT_CARE_WARNING; HEART_RATE_WARNING]].
Proof. repeat split. Qed.

Lemma any_case_mentions (q : option string) :
  mentions_emergency_in_any_case q -> mentions_emergency env q.
Proof.
  intros (k & Hin & Ho). exists k. split; [exact Hin|].
  pose proof (proj1 (Forall_forall _ _) emergency_signs_lower_case k Hin) as [Hk Hl].
  apply occurs_lowered; assumption.
Qed.

Lemma mentions_any_case (q : option string) :
  is_ascii (str_or_empty q) = true ->
  mentions_emergency env q -> mentions_emergency_in_any_case q.
Proof.
  intros Hq (k & Hin & Hc). exists k. split; [exact Hin|].
  apply (lowered_occurs (env_rt env)); assumption.
Qed.

(** C9: the Safety Screener writes the urgent-care warning exactly when the
    lower-cased question contains one of the emergency phrases. Lower-casing
    is what makes the match blind to case: a question that has a phrase in
    any mix of upper and lower case gets the warning (so one that contains
    "unconscious", "Unconscious" or "UNCONSCIOUS" does, whatever stands
    around it), and a question of ASCII characters gets it only then.
    Independently, the seek-medical-review warning is written exactly when
    some anomaly starts with "hr:" (so never without anomalies). Nothing
    else is written, the urgent-care warning first, hence zero, one or two
    warnings, and each number occurs. *)
Theorem C9_safety_warnings :
  forall s : AgentState,
    exists ws : list string,
      node_safety env s = [WSafetyWarnings ws] /\
      (In URGENT_CARE_WARNING ws <-> mentions_emergency env (question s)) /\
      (mentions_emergency_in_any_case (question s) -> In URGENT_CARE_WARNING ws) /\
      (is_ascii (str_or_empty (question s)) = true ->
       In URGENT_CARE_WARNING ws -> mentions_emergency_in_any_case (question s)) /\
      (In HEART_RATE_WARNING ws <-> heart_rate_anomaly (anomalies s)) /\
      (forall pre post,
          question s = Some (pre ++ "unconscious" ++ post) \/
          question s = Some (pre ++ "Unconscious" ++ post) \/
          question s = Some (pre ++ "UNCONSCIOUS" ++ post) ->
          In URGENT_CARE_WARNING ws) /\
      (anomalies s = [] -> ~ In HEART_RATE_WARNING ws) /\
      (ws = [] \/ ws = [URGENT_CARE_WARNING] \/ ws = [HEART_RATE_WARNING] \/
       ws = [URGENT_CARE_WARNING; HEART_RATE_WARNING]) /\
      node_safety env state_calm = [WSafetyWarnings []] /\
      node_safety env state_fainted = [WSafetyWarnings [URGENT_CARE_WARNING]] /\
      node_safety env state_fainted_hr
      = [WSafetyWarnings [URGENT_CARE_WARNING; HEART_RATE_WARNING]].
Proof.
  intros s.
  pose proof (existsb_str_in (lower (env_rt env) (str_or_empty (question s)))) as He.
  pose proof (existsb_startswith (anomalies s)) as Hh.
  fold (mentions_emergency env (question s)) in He.
  assert (Hne : URGENT_CARE_WARNING <> HEART_RATE_WARNING) by discriminate.
  assert (Hu : forall pre post,
             question s = Some (pre ++ "unconscious" ++ post) \/
             question s = Some (pre ++ "Unconscious" ++ post) \/
             question s = Some (pre ++ "UNCONSCIOUS" ++ post) ->
             mentions_emergency env (question s)).
  { intros pre post Hq. apply any_case_mentions. exists "unconscious". split.
    - simpl. tauto.
    - destruct Hq as [Hq|[Hq|Hq]]; rewrite Hq; cbn [str_or_empty];
        eexists pre, _, post; (split; [reflexivity|]);
        cbn [same_ignoring_case]; unfold same_char_ignoring_case;
        repeat split; try (left; reflexivity); right; left; cbn; lia. }
  assert (Hn : anomalies s = [] -> ~ heart_rate_anomaly (anomalies s)).
  { intros -> (a & [] & _). }
  destruct safety_counts_occur as (Hc0 & Hc1 & Hc2).
  unfold node_safety.
  set (b1 := existsb (fun k => str_in k _) EMERGENCY_SIGNS) in *.
  set (b2 := existsb (fun a => startswith a "hr:") (anomalies s)) in *.
  assert (Hw1 : b1 = true <-> mentions_emergency env (question s)) by exact He.
  assert (Hw2 : b2 = true <-> heart_rate_anomaly (anomalies s)) by exact Hh.
  clearbody b1 b2.
  eexists. split; [reflexivity|].
  assert (Hany : mentions_emergency_in_any_case (question s) -> b1 = true).
  { intros H. apply Hw1, any_case_mentions, H. }
  assert (Hback : is_ascii (str_or_empty (question s)) = true -> b1 = true ->
                  mentions_emergency_in_any_case (question s)).
  { intros Hq H. apply mentions_any_case; [exact Hq | apply Hw1, H]. }
  destruct b1, b2; cbn [app In];
    (split; [|split; [|split; [|split; [|split; [|split; [|split; [|split;
       [exact Hc0 | split; [exact Hc1 | exact Hc2]]]]]]]]]).
  all: try tauto.
  all: try (split; [intros _; apply Hw1; reflexivity | intros _; left; reflexivity]).
  all: try (split; [intros [H|[]]; congruence | intros H; apply Hw1 in H; discriminate]).
  all: try (split; [intros [] | intros H; apply Hw1 in H; discriminate]).
  all: try (intros H; apply Hany in H; discriminate).
  all: try (intros _ [H|[]]; congruence).
  all: try (intros _ []).
  all: try (split; [intros _; apply Hw2; reflexivity | intros _; right; left; reflexivity]).
  all: try (split; [intros _; apply Hw2; reflexivity | intros _; left; reflexivity]).
  all: try (split; [intros [H|[]]; congruence | intros H; apply Hw2 in H; discriminate]).
  all: try (split; [intros [] | intros H; apply Hw2 in H; discriminate]).
  all: try (intros pre post Hq; apply (Hu pre post), Hw1 in Hq; discriminate).
  all: try (intros Ha; apply Hn in Ha; exfalso; apply Ha, Hw2; reflexivity).
Qed.

End Safety.

(** ** The statistics of the Metrics Analyzer *)

Lemma count_Q_succ (n : nat) : (count_Q (S n) == count_Q n + 1)%Q.
Proof.
  unfold count_Q, Qeq, Qplus. cbn [Qnum Qden]. rewrite Nat2Z.inj_succ. lia.
Qed.

Lemma count_Q_nonzero (n : nat) : (0 < n)%nat -> ~ (count_Q n == 0)%Q.
Proof. unfold count_Q, Qeq. cbn [Qnum Qden]. lia. Qed.

(** The sum of the squared deviations from any centre [m]. *)
Lemma sum_sq_dev (m : Q) (qs : list Q) :
  (Qsum (map (fun x => (x - m) * (x - m)) qs)
   == Qsum (map (fun x => x * x) qs) - (2 # 1) * m * Qsum qs
      + count_Q (List.length qs) * m * m)%Q.
Proof.
  induction qs as [|x qs IH].
  - cbn [map Qsum fold_right List.length]. unfold count_Q. cbn [Z.of_nat]. ring.
  - cbn [map List.length]. unfold Qsum in *. cbn [fold_right].
    rewrite IH, count_Q_succ. ring.
Qed.

(** What [_ss] computes, over the count, is the population variance. *)
Lemma ss_is_pvariance (qs : list Q) :
  (0 < List.length qs)%nat ->
  (_ss qs / count_Q (List.length qs) == spec_pvariance qs)%Q.
Proof.
  intros Hn. unfold spec_pvariance. rewrite sum_sq_dev.
  unfold _ss, spec_mean. pose proof (count_Q_nonzero _ Hn) as Hc.
  field. exact Hc.
Qed.

Lemma exact_ratios_length (data : list float) (qs : list Q) :
  exact_ratios data = Some qs -> List.length qs = List.length data.
Proof.
  revert qs. induction data as [|x data IH]; intros qs H; simpl in H.
  - injection H as <-. reflexivity.
  - destruct (as_integer_ratio x); [|discriminate].
    destruct (exact_ratios data) as [qs'|]; [|discriminate].
    injection H as <-. simpl. now rewrite (IH qs').
Qed.

Lemma finite_ratio (x : float) :
  is_finite x = true -> as_integer_ratio x = Some (exact_value x).
Proof.
  unfold is_finite, exact_value, as_integer_ratio, Prim2SF. intros H.
  apply negb_true_iff, orb_false_iff in H. destruct H as [-> ->].
  destruct (is_zero x); [reflexivity|].
  destruct (Z.frexp x) as [r e].
  destruct (shr_fexp prec emax _ _ _) as [sh e'].
  destruct (shr_m sh); reflexivity.
Qed.

Lemma exact_ratios_finite (data : list float) :
  Forall (fun x => is_finite x = true) data ->
  exact_ratios data = Some (map exact_value data).
Proof.
  induction 1 as [|x data Hx Hdata IH]; [reflexivity|].
  cbn [exact_ratios map]. now rewrite (finite_ratio x Hx), IH.
Qed.


(** On finite data [statistics.pstdev] rounds the square root of the
    population variance. *)
Lemma pstdev_is_spec_pstdev (rt : Runtime) (data : list float) (qs : list Q) :
  data <> [] -> exact_ratios data = Some qs ->
  pstdev rt data = sqrt_of_frac (spec_pvariance qs).
Proof.
  intros Hne H. unfold pstdev, sqrt_of_frac.
  destruct data as [|x data]; [contradiction|].
  rewrite H. cbv zeta.
  assert (Hn : (0 < List.length qs)%nat).
  { rewrite (exact_ratios_length _ _ H). simpl. lia. }
  now rewrite (Qred_complete _ _ (ss_is_pvariance qs Hn)).
Qed.

(** ** Floats *)

Lemma ltb_irrefl (x : float) : (x <? x)%float = false.
Proof.
  rewrite ltb_spec. unfold SFltb.
  destruct (Prim2SF x) as [[|]|[|]| |[|] m e]; simpl; try reflexivity;
    rewrite Z.compare_refl, Pos.compare_cont_refl; reflexivity.
Qed.

(** A float above zero is true, so [sd and sd > 0] is [sd > 0]. *)
Lemma positive_is_truthy (x : float) : (0 <? x)%float = true -> float_truthy x = true.
Proof.
  unfold float_truthy, is_zero. rewrite ltb_spec, eqb_spec.
  change (Prim2SF 0) with (S754_zero false). change (Prim2SF zero) with (S754_zero false).
  unfold SFltb, SFeqb.
  destruct (Prim2SF x) as [[|]|[|]| |[|] m e]; simpl; intros H;
    try discriminate; reflexivity.
Qed.

(** ** The groups of the Metrics Analyzer *)

Lemma dict_find_setdefault (k k' : string) (v : float) (d : list (string * list float)) :
  dict_find k' (setdefault_append k v d)
  = if String.eqb k' k then Some (group_get k d ++ [v])%list else dict_find k' d.
Proof.
  unfold group_get. induction d as [|[k0 vs] rest IH].
  - simpl. destruct (String.eqb k' k); reflexivity.
  - cbn [setdefault_append dict_find]. destruct (String.eqb_spec k k0) as [->|Hk].
    + cbn [dict_find]. destruct (String.eqb_spec k' k0); reflexivity.
    + cbn [dict_find]. rewrite IH.
      destruct (String.eqb_spec k' k0) as [->|Hk'].
      * destruct (String.eqb_spec k0 k); [congruence | reflexivity].
      * reflexivity.
Qed.

Lemma group_get_setdefault (k k' : string) (v : float) (d : list (string * list float)) :
  group_get k' (setdefault_append k v d)
  = if String.eqb k' k then (group_get k d ++ [v])%list else group_get k' d.
Proof.
  unfold group_get at 1. rewrite dict_find_setdefault.
  destruct (String.eqb k' k); reflexivity.
Qed.

Lemma keys_setdefault (k : string) (v : float) (d : list (string * list float)) :
  map fst (setdefault_append k v d)
  = if existsb (String.eqb k) (map fst d) then map fst d else (map fst d ++ [k])%list.
Proof.
  induction d as [|[k0 vs] rest IH]; [reflexivity|].
  cbn [setdefault_append map fst existsb]. destruct (String.eqb k k0); [reflexivity|].
  cbn [map fst orb]. rewrite IH. destruct (existsb _ _); reflexivity.
Qed.

Lemma existsb_eqb_In (k : string) (l : list string) :
  existsb (String.eqb k) l = true <-> In k l.
Proof.
  rewrite existsb_exists. split.
  - intros (x & Hin & H). apply String.eqb_eq in H. now subst.
  - intros H. exists k. split; [exact H | apply String.eqb_refl].
Qed.

Lemma nonempty_setdefault (k : string) (v : float) (d : list (string * list float)) :
  Forall (fun g => snd g <> []) d ->
  Forall (fun g => snd g <> []) (setdefault_append k v d).
Proof.
  induction 1 as [|[k0 vs] rest H0 Hrest IH]; simpl.
  - constructor; [discriminate | constructor].
  - destruct (String.eqb k k0); constructor; try assumption.
    simpl. intros E. now apply app_eq_nil in E as [_ E].
Qed.

Lemma good_groups_setdefault (k : string) (v : float) (d : list (string * list float)) :
  good_groups d -> good_groups (setdefault_append k v d).
Proof.
  intros [Hnd Hne]. split; [|now apply nonempty_setdefault].
  rewrite keys_setdefault. destruct (existsb _ _) eqn:E; [exact Hnd|].
  apply NoDup_app; [exact Hnd | repeat constructor; intros [] |].
  intros x Hx [<-|[]]. apply existsb_eqb_In in Hx. congruence.
Qed.

Lemma dict_find_none_iff (k : string) (d : list (string * list float)) :
  Forall (fun g => snd g <> []) d ->
  (dict_find k d = None <-> group_get k d = []).
Proof.
  intros H. unfold group_get. induction H as [|[k0 vs] rest H0 Hrest IH].
  - simpl. tauto.
  - cbn [dict_find]. destruct (String.eqb k k0); [|exact IH].
    simpl in H0. split; [discriminate | intros E; contradiction].
Qed.

Section Groups.
Context (env : Env).

Lemma values_of_kind_cons (k : string) (p : Point) (points : list Point) :
  values_of_kind env k (p :: points)
  = (values_of_kind env k [p] ++ values_of_kind env k points)%list.
Proof. unfold values_of_kind. simpl. now rewrite app_nil_r. Qed.

Lemma group_step_good (d : list (string * list float)) (p : Point) :
  good_groups d -> good_groups (group_step env d p).
Proof.
  intros H. unfold group_step.
  destruct (_safe_float env (pt_value p)); [|exact H].
  destruct (pt_kind p) as [k|]; [|exact H].
  destruct (String.eqb k ""); [exact H | now apply good_groups_setdefault].
Qed.

Lemma group_step_get (k : string) (d : list (string * list float)) (p : Point) :
  group_get k (group_step env d p) = (group_get k d ++ values_of_kind env k [p])%list.
Proof.
  unfold group_step, values_of_kind. cbn [flat_map]. rewrite app_nil_r.
  destruct (_safe_float env (pt_value p)) as [v|]; [|now rewrite app_nil_r].
  destruct (pt_kind p) as [k'|]; [|now rewrite app_nil_r].
  destruct (String.eqb_spec k' "") as [->|Hne].
  - rewrite andb_false_r. now rewrite app_nil_r.
  - rewrite andb_true_r, group_get_setdefault.
    rewrite (String.eqb_sym k k').
    destruct (String.eqb_spec k' k) as [->|Hk]; [reflexivity | now rewrite app_nil_r].
Qed.

Lemma fold_group_step (points : list Point) :
  forall d : list (string * list float),
    good_groups d ->
    good_groups (fold_left (group_step env) points d) /\
    forall k, group_get k (fold_left (group_step env) points d)
              = (group_get k d ++ values_of_kind env k points)%list.
Proof.
  induction points as [|p points IH]; intros d Hd.
  - simpl. split; [exact Hd|]. intros k. now rewrite app_nil_r.
  - cbn [fold_left].
    destruct (IH (group_step env d p) (group_step_good d p Hd)) as [Hg Hget].
    split; [exact Hg|]. intros k.
    rewrite (values_of_kind_cons k p points), Hget, group_step_get, app_assoc.
    reflexivity.
Qed.

(** The groups: distinct keys, no empty group, and under each kind the
    values of its valid points, in the order of the metrics. *)
Lemma group_by_kind_spec (points : list Point) :
  good_groups (group_by_kind env points) /\
  forall k, dict_find k (group_by_kind env points)
            = match values_of_kind env k points with
              | [] => None
              | vals => Some vals
              end.
Proof.
  unfold group_by_kind.
  destruct (fold_group_step points []) as [Hg Hget].
  { split; constructor. }
  split; [exact Hg|]. intros k.
  specialize (Hget k). change (group_get k []) with (@nil float) in Hget.
  cbn [app] in Hget. rewrite <- Hget.
  destruct Hg as [_ Hne].
  pose proof (dict_find_none_iff k _ Hne) as Hn.
  unfold group_get in *.
  destruct (dict_find k (fold_left (group_step env) points [])) as [l|] eqn:E.
  - destruct l; [|reflexivity]. exfalso.
    assert (Some (@nil float) = None) by (apply Hn; reflexivity). discriminate.
  - reflexivity.
Qed.

End Groups.

(** ** The Metrics Analyzer *)

Lemma dict_set_fresh {V} (k : string) (v : V) (d : list (string * V)) :
  ~ In k (map fst d) -> dict_set k v d = (d ++ [(k, v)])%list.
Proof.
  induction d as [|[k0 v0] rest IH]; intros H; [reflexivity|].
  cbn [dict_set]. destruct (String.eqb_spec k k0) as [->|Hne].
  - exfalso. apply H. now left.
  - rewrite IH; [reflexivity|]. intros Hin. apply H. now right.
Qed.

Lemma In_dict_find {V} (k : string) (v : V) (d : list (string * V)) :
  NoDup (map fst d) -> In (k, v) d -> dict_find k d = Some v.
Proof.
  induction d as [|[k0 v0] rest IH]; intros Hnd Hin; [contradiction|].
  cbn [dict_find]. inversion Hnd as [|? ? Hnotin Hnd']; subst.
  destruct Hin as [E|Hin].
  - injection E as -> ->. now rewrite String.eqb_refl.
  - destruct (String.eqb_spec k k0) as [->|Hne]; [|now apply IH].
    exfalso. apply Hnotin. change k0 with (fst (k0, v)). now apply in_map.
Qed.

Section Analyze.
Context (env : Env).

(** The second loop: each group adds its entry to [stats] and its flag, if
    any, to [anomalies], in the order of the groups. *)
Lemma analyze_loop_spec (groups : list (string * list float)) :
  forall (stats0 : Stats) (flags0 : list string) (stats : Stats) (flags : list string),
    NoDup (map fst groups) ->
    (forall k, In k (map fst groups) -> ~ In k (map fst stats0)) ->
    analyze_loop env groups stats0 flags0 = Ok (stats, flags) ->
    exists rs : list (StatEntry * option string),
      Forall2 (fun g r => kind_result env g = Ok r) groups rs /\
      stats = (stats0 ++ map (fun gr => (fst (fst gr), fst (snd gr))) (combine groups rs))%list /\
      flags = (flags0 ++ flat_map (fun r => opt_list (snd r)) rs)%list.
Proof.
  induction groups as [|[k vals] rest IH]; intros stats0 flags0 stats flags Hnd Hfresh H.
  - simpl in H. injection H as <- <-. exists []. rewrite !app_nil_r.
    repeat split. constructor.
  - cbn [analyze_loop] in H.
    destruct (_mean_sd env vals) as [[mu sd]|] eqn:Em; [|discriminate].
    cbn [rbind] in H.
    cbn [map fst] in Hnd. inversion Hnd as [|? ? Hk Hnd']; subst.
    rewrite dict_set_fresh in H by (apply Hfresh; now left).
    apply IH in H; [|exact Hnd'|].
    + destruct H as (rs & HF & -> & ->).
      exists (({| st_mean := mu; st_stdev := sd; st_n := List.length vals |},
               flag_of k mu sd vals) :: rs).
      split; [|split].
      * constructor; [|exact HF]. unfold kind_result. cbn [fst snd].
        rewrite Em. reflexivity.
      * cbn [combine map fst snd]. now rewrite <- app_assoc.
      * cbn [flat_map snd]. rewrite app_assoc. f_equal.
        destruct (flag_of k mu sd vals); cbn [opt_list]; [reflexivity|].
        now rewrite app_nil_r.
    + intros k' Hin. rewrite map_app, in_app_iff. intros [Hin'|[<-|[]]].
      * eapply Hfresh; [right; exact Hin | exact Hin'].
      * contradiction.
Qed.

Lemma dict_find_results (groups : list (string * list float))
  (rs : list (StatEntry * option string)) :
  Forall2 (fun g r => kind_result env g = Ok r) groups rs ->
  forall k,
    match dict_find k groups with
    | Some vals =>
        exists r, kind_result env (k, vals) = Ok r /\
                  dict_find k (map (fun gr => (fst (fst gr), fst (snd gr)))
                                 (combine groups rs)) = Some (fst r)
    | None =>
        dict_find k (map (fun gr => (fst (fst gr), fst (snd gr))) (combine groups rs))
        = None
    end.
Proof.
  induction 1 as [|[k0 vals0] r0 groups rs Hr HF IH]; intros k; [reflexivity|].
  cbn [combine map fst snd dict_find].
  destruct (String.eqb_spec k k0) as [->|Hne]; [|apply IH].
  exists r0. split; [exact Hr | reflexivity].
Qed.

Lemma flags_from_stats (points : list Point) (groups : list (string * list float))
  (rs : list (StatEntry * option string)) :
  Forall2 (fun g r => kind_result env g = Ok r) groups rs ->
  Forall (fun g => snd g = values_of_kind env (fst g) points) groups ->
  flat_map (fun r => opt_list (snd r)) rs
  = flat_map (fun ke : string * StatEntry =>
                opt_list (flag_of (fst ke) (st_mean (snd ke)) (st_stdev (snd ke))
                            (values_of_kind env (fst ke) points)))
             (map (fun gr => (fst (fst gr), fst (snd gr))) (combine groups rs)).
Proof.
  induction 1 as [|[k0 vals0] r0 groups rs Hr HF IH]; intros Hv; [reflexivity|].
  inversion Hv as [|? ? Hv0 Hv']; subst.
  cbn [combine map flat_map fst snd]. rewrite (IH Hv'). f_equal.
  unfold kind_result in Hr. cbn [fst snd] in Hr, Hv0.
  destruct (_mean_sd env vals0) as [[mu sd]|]; [|discriminate].
  cbn [rbind] in Hr. injection Hr as <-. cbn [fst snd st_mean st_stdev].
  now rewrite <- Hv0.
Qed.

(** The Metrics Analyzer, node level: [stats] has an entry exactly for the
    kinds with at least one valid point, computed by [_mean_sd] on the values
    of the kind; [anomalies] holds, in the order of [stats], the flag of each
    kind that has one. *)
Lemma node_analyze_spec (s : AgentState) (u : Update) :
  node_analyze env s = Ok u ->
  exists (stats : Stats) (flags : list string),
    u = [WStats (Some stats); WAnomalies flags] /\
    (forall k,
        match values_of_kind env k (metrics s) with
        | [] => dict_find k stats = None
        | vals =>
            exists mu sd,
              _mean_sd env vals = Ok (mu, sd) /\
              dict_find k stats
              = Some {| st_mean := mu; st_stdev := sd; st_n := List.length vals |}
        end) /\
    flags = flat_map (fun ke : string * StatEntry =>
                        opt_list (flag_of (fst ke) (st_mean (snd ke)) (st_stdev (snd ke))
                                    (values_of_kind env (fst ke) (metrics s))))
                     stats.
Proof.
  intros H. unfold node_analyze in H.
  destruct (analyze_loop env (group_by_kind env (metrics s)) [] [])
    as [[stats flags]|] eqn:E; [|discriminate].
  cbn [rbind] in H. injection H as <-.
  destruct (group_by_kind_spec env (metrics s)) as [[Hnd Hne] Hfind].
  apply analyze_loop_spec in E; [|exact Hnd | intros k _ []].
  destruct E as (rs & HF & -> & ->). cbn [app].
  exists (map (fun gr => (fst (fst gr), fst (snd gr)))
            (combine (group_by_kind env (metrics s)) rs)),
         (flat_map (fun r => opt_list (snd r)) rs).
  split; [reflexivity|]. split.
  - intros k. pose proof (dict_find_results _ _ HF k) as Hk. rewrite Hfind in Hk.
    destruct (values_of_kind env k (metrics s)) as [|v vals]; [exact Hk|].
    destruct Hk as (r & Hr & Hk). unfold kind_result in Hr. cbn [fst snd] in Hr.
    destruct (_mean_sd env (v :: vals)) as [[mu sd]|]; [|discriminate].
    cbn [rbind] in Hr. injection Hr as <-. exists mu, sd. split; [reflexivity | exact Hk].
  - apply flags_from_stats; [exact HF|].
    apply Forall_forall. intros [k vals] Hin. cbn [fst snd].
    pose proof (In_dict_find k vals _ Hnd Hin) as Hk. rewrite Hfind in Hk.
    destruct (values_of_kind env k (metrics s)); [discriminate|].
    now injection Hk.
Qed.

(** The values counted as outliers are the values strictly outside the
    interval. *)
Lemma outliers_spec (mu sd v : float) (vals : list float) :
  In v (outliers_of mu sd vals) <-> In v vals /\ strictly_outside mu sd v.
Proof.
  unfold outliers_of, strictly_outside. rewrite filter_In, orb_true_iff. reflexivity.
Qed.

(** The flag of one kind. *)
Lemma flag_of_spec (k : string) (mu sd : float) (vals : list float) (f : string) :
  flag_of k (Some mu) (Some sd) vals = Some f <->
  (0 <? sd)%float = true /\
  (exists v, In v vals /\ strictly_outside mu sd v) /\
  f = anomaly_flag k (List.length (outliers_of mu sd vals)).
Proof.
  unfold flag_of. destruct (0 <? sd)%float eqn:Esd.
  - rewrite (positive_is_truthy sd Esd). cbn [andb].
    destruct (outliers_of mu sd vals) as [|v out] eqn:Eo.
    + split; [discriminate|]. intros (_ & (v & Hv) & _).
      apply outliers_spec in Hv. rewrite Eo in Hv. contradiction.
    + split.
      * intros H. injection H as <-. split; [reflexivity|]. split; [|reflexivity].
        exists v. apply outliers_spec. rewrite Eo. now left.
      * intros (_ & _ & ->). reflexivity.
  - rewrite andb_false_r. split; [discriminate | intros [H _]; discriminate].
Qed.


(** C5: a kind is flagged exactly when its stdev is above zero and some
    value lies strictly outside [[mean - 2.5 stdev, mean + 2.5 stdev]], and
    the flag then reads "<kind>: <outlier_count> outlier(s) beyond ±2.5σ",
    the count being that of the values strictly outside; a value on a
    boundary is not outside; no flag is raised when stdev is zero; and the
    anomalies of the Metrics Analyzer are these flags, in the order of the
    kinds in stats. *)
Theorem C5_outlier_flag :
  (forall (k : string) (mu sd : float) (vals : list float) (f : string),
      flag_of k (Some mu) (Some sd) vals = Some f <->
      (0 <? sd)%float = true /\
      (exists v, In v vals /\ strictly_outside mu sd v) /\
      f = k ++ ": " ++ str_of_nat (List.length (outliers_of mu sd vals))
            ++ " outlier(s) beyond ±2.5σ") /\
  (forall (mu sd v : float) (vals : list float),
      In v (outliers_of mu sd vals) <-> In v vals /\ strictly_outside mu sd v) /\
  (forall mu sd v : float,
      (v = (mu - 2.5 * sd)%float -> (v <? mu - 2.5 * sd)%float = false) /\
      (v = (mu + 2.5 * sd)%float -> (mu + 2.5 * sd <? v)%float = false)) /\
  (_mean_sd env group_boundary = Ok (Some 4%float, Some 10%float) /\
   In 29%float group_boundary /\ (4 + 2.5 * 10)%float = 29%float /\
   ~ strictly_outside 4 10 29 /\
   flag_of "hr" (Some 4%float) (Some 10%float) group_boundary = None) /\
  (forall (k : string) (mu : option float) (sd : float) (vals : list float),
      is_zero sd = true -> flag_of k mu (Some sd) vals = None) /\
  (forall (s : AgentState) (u : Update),
      node_analyze env s = Ok u ->
      exists (stats : Stats) (flags : list string),
        u = [WStats (Some stats); WAnomalies flags] /\
        flags = flat_map (fun ke : string * StatEntry =>
                            opt_list (flag_of (fst ke) (st_mean (snd ke)) (st_stdev (snd ke))
                                        (values_of_kind env (fst ke) (metrics s))))
                         stats) /\
  node_analyze env state_outlier
  = Ok [WStats (Some [("hr", {| st_mean := Some 1%float; st_stdev := Some 3%float;
                                st_n := 10 |})]);
        WAnomalies ["hr: 1 outlier(s) beyond ±2.5σ"]].
Proof.
  split; [|split; [|split; [|split; [|split; [|split]]]]].
  - intros k mu sd vals f. apply flag_of_spec.
  - intros mu sd v vals. apply outliers_spec.
  - intros mu sd v. split; intros ->; apply ltb_irrefl.
  - split; [vm_compute; reflexivity|]. split; [vm_compute; tauto|].
    split; [vm_compute; reflexivity|]. split; [|vm_compute; reflexivity].
    intros [H|H]; vm_compute in H; discriminate.
  - intros k mu sd vals Hz. unfold flag_of, float_truthy. rewrite Hz.
    destruct mu; reflexivity.
  - intros s u H. destruct (node_analyze_spec s u H) as (stats & flags & Hu & _ & Hf).
    exists stats, flags. split; assumption.
  - vm_compute. reflexivity.
Qed.

End Analyze.


(** A group with one value beyond the upper bound: the Metrics Analyzer
    flags it. *)
Lemma C5_witness :
  node_analyze env_ok state_outlier
  = Ok [WStats (Some [("hr", {| st_mean := Some 1%float; st_stdev := Some 3%float;
                                st_n := 10 |})]);
        WAnomalies ["hr: 1 outlier(s) beyond ±2.5σ"]] /\
  (flag_of "hr" (Some 1%float) (Some 3%float) group_outlier
   = Some "hr: 1 outlier(s) beyond ±2.5σ" <->
   (0 <? 3)%float = true /\
   (exists v, In v group_outlier /\ strictly_outside 1 3 v) /\
   "hr: 1 outlier(s) beyond ±2.5σ"
   = "hr" ++ ": " ++ str_of_nat (List.length (outliers_of 1 3 group_outlier))
          ++ " outlier(s) beyond ±2.5σ").
Proof.
  split; [vm_compute; reflexivity|].
  exact (proj1 (C5_outlier_flag env_ok) "hr" 1%float 3%float group_outlier
           "hr: 1 outlier(s) beyond ±2.5σ").
Defined.

(** ** Computations that leave the store and the response alone *)

Lemma quiet_ret {A} (a : A) : quiet (ret a).
Proof. intros w. repeat split. Qed.

Lemma quiet_lift {A} (r : Result A) : quiet (lift r).
Proof. intros w. repeat split. Qed.

Lemma quiet_call {A} (c : Call) (answer : list Call -> Result A) : quiet (call c answer).
Proof. intros w. repeat split. Qed.

Lemma quiet_bind {A B} (m : M A) (k : A -> M B) :
  quiet m -> (forall a, quiet (k a)) -> quiet (bind m k).
Proof.
  intros Hm Hk w. destruct (Hm w) as (Hs & He & Hq). unfold bind.
  destruct (m w) as [[a|e] w1] eqn:Em; cbn [fst snd] in *.
  - destruct (Hk a w1) as (Hs1 & He1 & Hq1).
    split; [congruence|]. split; [congruence|].
    intros st evs. rewrite Hq. rewrite (Hq1 st evs). reflexivity.
  - split; [exact Hs|]. split; [exact He|].
    intros st evs. rewrite Hq. reflexivity.
Qed.

Section QuietNodes.
Context (env : Env).

Lemma quiet_get_user_metrics (user st en : string) (kinds : list string) :
  quiet (get_user_metrics env user st en kinds).
Proof.
  unfold get_user_metrics.
  repeat (apply quiet_bind; [|intros ?]);
    auto using quiet_lift, quiet_call, quiet_ret.
Qed.

Lemma quiet_node_pull_metrics (s : AgentState) : quiet (node_pull_metrics env s).
Proof.
  unfold node_pull_metrics. destruct (_ || _); [apply quiet_ret|].
  apply quiet_bind; [apply quiet_get_user_metrics | intros; apply quiet_ret].
Qed.

Lemma quiet_node_retrieve (s : AgentState) : quiet (node_retrieve env s).
Proof.
  unfold node_retrieve. destruct (String.eqb _ ""); [apply quiet_ret|].
  apply quiet_bind; [apply quiet_call | intros vector].
  apply quiet_bind; [apply quiet_call | intros results].
  destruct (retrieve_loop results [] []). apply quiet_ret.
Qed.

Lemma quiet_node_answer (s : AgentState) : quiet (node_answer env s).
Proof.
  unfold node_answer. apply quiet_bind; [apply quiet_call | intros; apply quiet_ret].
Qed.

(** Every node of the graph leaves the store and the response alone. *)
Lemma quiet_GRAPH : Forall (fun n => forall s, quiet (snd n s)) (GRAPH env).
Proof.
  unfold GRAPH.
  repeat (apply Forall_cons;
          [ cbn [snd]; intros s;
            auto using quiet_ret, quiet_lift, quiet_node_pull_metrics,
                       quiet_node_retrieve, quiet_node_answer | ]).
  apply Forall_nil.
Qed.


End QuietNodes.

(** ** The run of the graph *)

Lemma emit_all_nil (w : World) : emit_all w [] = w.
Proof. destruct w. unfold emit_all. simpl. now rewrite app_nil_r. Qed.

(** The run leaves the store and the response alone, and does not depend on
    them. *)
Lemma graph_updates_quiet (nodes : list (string * Node)) :
  Forall (fun n => forall s, quiet (snd n s)) nodes ->
  forall s w ups o w1,
    graph_updates nodes s w = (ups, o, w1) ->
    conv_store w1 = conv_store w /\
    sse_out w1 = sse_out w /\
    forall st evs,
      graph_updates nodes s {| conv_store := st; calls := calls w; sse_out := evs |}
      = (ups, o, {| conv_store := st; calls := calls w1; sse_out := evs |}).
Proof.
  induction 1 as [|[name node] rest Hn Hrest IH]; intros s w ups o w1 H.
  - simpl in H. injection H as <- <- <-. repeat split.
  - cbn [graph_updates] in *. cbn [snd] in Hn.
    destruct (Hn s w) as (Hs & He & Hq).
    destruct (node s w) as [[u|e] w0] eqn:En; cbn [fst snd] in *.
    + destruct (graph_updates rest (merge s u) w0) as [[ups' o'] w'] eqn:Er.
      injection H as <- <- <-.
      destruct (IH _ _ _ _ _ Er) as (Hs' & He' & Hq').
      split; [congruence|]. split; [congruence|].
      intros st evs. rewrite Hq, (Hq' st evs). reflexivity.
    + injection H as <- <- <-. split; [exact Hs|]. split; [exact He|].
      intros st evs. rewrite Hq. reflexivity.
Qed.

(** The completed stages are the first stages of the graph, in order; a
    run without failure completes them all. *)
Lemma graph_updates_names (nodes : list (string * Node)) :
  forall s w ups o w1,
    graph_updates nodes s w = (ups, o, w1) ->
    map fst ups = firstn (List.length ups) (map fst nodes) /\
    (o = None -> List.length ups = List.length nodes) /\
    (forall e, o = Some e -> (List.length ups < List.length nodes)%nat).
Proof.
  induction nodes as [|[name node] rest IH]; intros s w ups o w1 H.
  - simpl in H. injection H as <- <- <-. repeat split. discriminate.
  - cbn [graph_updates] in H. destruct (node s w) as [[u|e] w0].
    + destruct (graph_updates rest (merge s u) w0) as [[ups' o'] w'] eqn:Er.
      injection H as <- <- <-. destruct (IH _ _ _ _ _ Er) as (Hn & Hall & Hlt).
      cbn [map fst List.length firstn]. split; [now rewrite Hn at 1|]. split.
      * intros Ho. now rewrite (Hall Ho).
      * intros e Ho. specialize (Hlt e Ho). lia.
    + injection H as <- <- <-. cbn [List.length]. repeat split; try discriminate.
      intros _ _. lia.
Qed.

(** [run_nodes] ends as the list of updates says. *)
Lemma run_nodes_updates (nodes : list (string * Node)) :
  forall s w ups o w1,
    graph_updates nodes s w = (ups, o, w1) ->
    run_nodes nodes s w
    = (match o with None => Ok (state_after s ups) | Some e => Raise e end, w1).
Proof.
  induction nodes as [|[name node] rest IH]; intros s w ups o w1 H.
  - simpl in H. injection H as <- <- <-. reflexivity.
  - cbn [graph_updates] in H. cbn [run_nodes]. unfold bind.
    destruct (node s w) as [[u|e] w0].
    + destruct (graph_updates rest (merge s u) w0) as [[ups' o'] w'] eqn:Er.
      injection H as <- <- <-. rewrite (IH _ _ _ _ _ Er). reflexivity.
    + injection H as <- <- <-. reflexivity.
Qed.

Lemma sse_step_run (acc name : string) (u : Update) (w : World) :
  sse_step acc name u w
  = (Ok (final_answer_of acc [(name, u)]), emit_all w [node_event (name, u)]).
Proof. reflexivity. Qed.

(** The loop of [sse_gen] over the stream of updates: one event per
    completed stage, in order, and the loop ends as the run does. *)
Lemma astream_loop_updates (nodes : list (string * Node)) :
  Forall (fun n => forall s, quiet (snd n s)) nodes ->
  forall s w ups o w1 acc,
    graph_updates nodes s w = (ups, o, w1) ->
    astream_loop nodes s sse_step acc w
    = (match o with None => Ok (final_answer_of acc ups) | Some e => Raise e end,
       emit_all w1 (map node_event ups)).
Proof.
  induction 1 as [|[name node] rest Hn Hrest IH]; intros s w ups o w1 acc H.
  - simpl in H. injection H as <- <- <-. simpl. now rewrite emit_all_nil.
  - cbn [graph_updates] in H. cbn [astream_loop]. unfold bind at 1.
    destruct (node s w) as [[u|e] w0] eqn:En.
    + destruct (graph_updates rest (merge s u) w0) as [[ups' o'] w'] eqn:Er.
      injection H as <- <- <-.
      destruct (graph_updates_quiet rest Hrest _ _ _ _ _ Er) as (Hs & He & Hq).
      unfold bind. rewrite sse_step_run.
      specialize (Hq (conv_store w0) (sse_out w0 ++ [node_event (name, u)])%list).
      unfold emit_all at 1. rewrite (IH _ _ _ _ _ _ Hq).
      f_equal. unfold emit_all. cbn [conv_store calls sse_out map].
      rewrite Hs, He, <- app_assoc. reflexivity.
    + injection H as <- <- <-. cbn [map]. now rewrite emit_all_nil.
Qed.


(** ** Persisting the turns *)

Section Persist.
Context (env : Env).

(** [append_turn] adds its turn to the store or fails and leaves the store
    as it was; it never touches the response. *)
Lemma append_turn_spec (user role content : string) (w : World) :
  exists created : string,
    let doc := {| cd_user := user; cd_role := role; cd_content := content;
                  cd_created_at := created |} in
    let w' := snd (append_turn env user role content w) in
    sse_out w' = sse_out w /\
    match fst (append_turn env user role content w) with
    | Ok _ => conv_store w' = (conv_store w ++ [doc])%list /\
              add_fault env (calls w ++ [CallClock]) doc = None
    | Raise e => conv_store w' = conv_store w /\
                 add_fault env (calls w ++ [CallClock]) doc = Some e
    end.
Proof.
  exists (isoformat (env_rt env) (clock env (calls w))).
  unfold append_turn, bind, call. cbn [fst snd log_call calls conv_store sse_out].
  destruct (add_fault env _ _) eqn:E; cbn [fst snd conv_store sse_out log_call];
    repeat split; assumption.
Qed.

(** The two appends leave no turn, the user turn, or both turns, in this
    order, and both when adding does not fail. *)
Lemma persist_turns_spec (body : ChatRequest) (reply : string) (w : World) :
  let w' := snd (persist_turns env body reply w) in
  sse_out w' = sse_out w /\
  (exists turns, conv_store w' = (conv_store w ++ turns)%list /\ turns_of body reply turns) /\
  (fst (persist_turns env body reply w) = Ok tt ->
   exists t1 t2,
     conv_store w' = (conv_store w ++ [user_turn body t1; assistant_turn body reply t2])%list) /\
  ((forall cs d, add_fault env cs d = None) ->
   fst (persist_turns env body reply w) = Ok tt).
Proof.
  unfold persist_turns, bind.
  destruct (append_turn_spec (req_user_id body) "user" (req_message body) w)
    as (t1 & He1 & H1).
  destruct (append_turn env (req_user_id body) "user" (req_message body) w)
    as [[[]|e1] w1]; cbn [fst snd] in *.
  - destruct H1 as [Hs1 Hf1].
    destruct (append_turn_spec (req_user_id body) "assistant" reply w1)
      as (t2 & He2 & H2).
    destruct (append_turn env (req_user_id body) "assistant" reply w1)
      as [[[]|e2] w2]; cbn [fst snd] in *.
    + destruct H2 as [Hs2 Hf2]. split; [congruence|]. split; [|split].
      * exists [user_turn body t1; assistant_turn body reply t2].
        split; [|right; right; now exists t1, t2].
        rewrite Hs2, Hs1, <- app_assoc. reflexivity.
      * intros _. exists t1, t2. rewrite Hs2, Hs1, <- app_assoc. reflexivity.
      * reflexivity.
    + destruct H2 as [Hs2 Hf2]. split; [congruence|]. split; [|split].
      * exists [user_turn body t1].
        split; [rewrite Hs2, Hs1; reflexivity | right; left; now exists t1].
      * discriminate.
      * intros Hnf. rewrite Hnf in Hf2. discriminate.
  - destruct H1 as [Hs1 Hf1]. split; [exact He1|]. split; [|split].
    + exists []. rewrite app_nil_r. split; [exact Hs1 | now left].
    + discriminate.
    + intros Hnf. rewrite Hnf in Hf1. discriminate.
Qed.

End Persist.

(** ** The two endpoints *)

Lemma append_not_empty (a b : string) : b <> "" -> a ++ b <> "".
Proof. intros Hb. destruct a; [exact Hb | discriminate]. Qed.

(** A run without failure of nodes that end with [last]: the updates are
    those of the nodes before, and the update of [last]. *)
Lemma graph_updates_last (front : list (string * Node)) (last : string * Node) :
  forall s w ups w1,
    graph_updates (front ++ [last]) s w = (ups, None, w1) ->
    exists ups' w' u,
      graph_updates front s w = (ups', None, w') /\
      snd last (state_after s ups') w' = (Ok u, w1) /\
      ups = (ups' ++ [(fst last, u)])%list.
Proof.
  induction front as [|[name node] rest IH]; intros s w ups w1 H.
  - destruct last as [name node]. cbn [app graph_updates] in H.
    destruct (node s w) as [[u|e] w0] eqn:En; [|discriminate].
    injection H as <- <-. exists [], w, u. repeat split. exact En.
  - cbn [app graph_updates] in *. destruct (node s w) as [[u|e] w0]; [|discriminate].
    destruct (graph_updates (rest ++ [last]) (merge s u) w0) as [[ups0 o0] w0'] eqn:Er.
    injection H as <- -> <-.
    destruct (IH _ _ _ _ Er) as (ups' & w' & u' & Hf & Hl & ->).
    rewrite Hf. exists ((name, u) :: ups'), w', u'. repeat split. exact Hl.
Qed.

Section Endpoints.
Context (env : Env) (settings : Settings).

(** After a complete run the last update is the one of [node_answer]: its
    answer is the final answer of the stream and the answer of the final
    state. *)
Lemma complete_run_answer (s : AgentState) (w w1 : World) (ups : list (string * Update)) :
  graph_updates (GRAPH env) s w = (ups, None, w1) ->
  exists content : string,
    final_answer_of "" ups = content /\
    answer (state_after s ups) = Some content /\
    citations (state_after s ups)
    = citations (state_after s (removelast ups)).
Proof.
  intros H.
  change (GRAPH env) with
    ([ ("parse_user", fun s => ret (node_parse_user env s));
       ("pull_metrics", node_pull_metrics env);
       ("analyze_metrics", fun s => lift (node_analyze env s));
       ("retrieve_guidance", node_retrieve env);
       ("safety", fun s => ret (node_safety env s)) ] ++ [("answer", node_answer env)])%list in H.
  apply graph_updates_last in H. destruct H as (ups' & w' & u & _ & Hl & ->).
  cbn [snd fst] in Hl. unfold node_answer, bind, call, ret in Hl.
  destruct (chat_invoke env _ _ _) as [resp|]; [|discriminate].
  injection Hl as <- _.
  exists (strip resp ++ nl ++ nl ++ DISCLAIMER).
  unfold final_answer_of, state_after. rewrite !fold_left_app, removelast_last.
  cbn [fold_left snd upd_answer merge apply_write answer citations].
  split; [|split; reflexivity].
  match goal with
  | |- context [String.eqb ?x ""] => destruct (String.eqb_spec x "") as [E|_]
  end; [|reflexivity].
  exfalso. revert E. apply append_not_empty. discriminate.
Qed.

(** [sse_gen], told on the run of the graph. *)
Lemma sse_gen_spec (body : ChatRequest) (input : Update) (w w1 : World)
  (ups : list (string * Update)) (o : option PyExc) :
  graph_updates (GRAPH env) (merge empty_state input) w = (ups, o, w1) ->
  sse_gen env body input w
  = match o with
    | Some e =>
        (Ok tt, emit_all w1 (map node_event ups ++ [SseError (exc_msg e); SseDone]))
    | None =>
        let reply := final_answer_of "" ups in
        match persist_turns env body reply (emit_all w1 (map node_event ups)) with
        | (Ok _, w3) => (Ok tt, emit_all w3 [SseFinal reply; SseDone])
        | (Raise e, w3) => (Ok tt, emit_all w3 [SseError (exc_msg e); SseDone])
        end
    end.
Proof.
  intros H. unfold sse_gen, try_finally, try_except, astream_for.
  unfold bind at 1.
  rewrite (astream_loop_updates _ (quiet_GRAPH env) _ _ _ _ _ "" H).
  destruct o as [e|].
  - unfold yield. cbn [conv_store calls sse_out emit_all].
    unfold emit_all. cbn [conv_store calls sse_out].
    now rewrite <- !app_assoc.
  - cbv zeta. unfold persist_turns. unfold bind.
    destruct (append_turn env _ "user" _ _) as [[[]|e1] w2].
    + destruct (append_turn env _ "assistant" _ _) as [[[]|e2] w3].
      * unfold yield, emit_all. cbn [conv_store calls sse_out].
        now rewrite <- !app_assoc.
      * unfold yield, emit_all. cbn [conv_store calls sse_out].
        now rewrite <- !app_assoc.
    + unfold yield, emit_all. cbn [conv_store calls sse_out].
      now rewrite <- !app_assoc.
Qed.

(** [chat], once [initial_state] is built, told on the run of the graph. *)
Lemma chat_run_spec (body : ChatRequest) (input : Update) (w w1 : World)
  (ups : list (string * Update)) (o : option PyExc) :
  graph_updates (GRAPH env) (merge empty_state input) w = (ups, o, w1) ->
  chat_run env body input w
  = match o with
    | Some e => (Raise e, w1)
    | None =>
        let result := state_after (merge empty_state input) ups in
        let reply := strip (str_or_empty (answer result)) in
        match persist_turns env body reply w1 with
        | (Ok _, w3) => (Ok {| reply := reply; used_docs := citations result |}, w3)
        | (Raise e, w3) => (Raise e, w3)
        end
    end.
Proof.
  intros H. unfold chat_run, invoke. unfold bind at 1.
  rewrite (run_nodes_updates _ _ _ _ _ _ H).
  destruct o as [e|]; [reflexivity|].
  cbv zeta. unfold persist_turns, bind, ret.
  destruct (append_turn env _ "user" _ _) as [[[]|e1] w2]; [|reflexivity].
  destruct (append_turn env _ "assistant" _ _) as [[[]|e2] w3]; reflexivity.
Qed.

(** Building [initial_state] reads the history and the clock only. *)
Lemma quiet_build_initial_state (body : ChatRequest) :
  quiet (build_initial_state env settings body).
Proof.
  unfold build_initial_state, fetch_context, _default_timeframe.
  apply quiet_bind.
  - apply quiet_bind; [apply quiet_call | intros; apply quiet_ret].
  - intros history. apply quiet_bind; [|intros; apply quiet_ret].
    destruct (req_timeframe body) as [[st en]|]; [apply quiet_ret|].
    apply quiet_bind; [apply quiet_call | intros; apply quiet_ret].
Qed.

(** In the requests the endpoints serve the accumulators are empty after
    the first node: [initial_state] has them empty. *)
Lemma endpoint_state_starts_empty (body : ChatRequest) (w w0 : World) (input : Update) :
  build_initial_state env settings body w = (Ok input, w0) ->
  let s1 := merge (merge empty_state input) (node_parse_user env (merge empty_state input)) in
  metrics s1 = [] /\ anomalies s1 = [] /\ relevant_chunks s1 = [] /\
  citations s1 = [] /\ safety_warnings s1 = [].
Proof.
  unfold build_initial_state, bind, ret. intros H.
  destruct (fetch_context env settings _ _ w) as [[history|e] w']; [|discriminate].
  destruct (req_timeframe body) as [[st en]|].
  - injection H as <- _. repeat split.
  - destruct (_default_timeframe env 7 w') as [[tf|e] w'']; [|discriminate].
    injection H as <- _. repeat split.
Qed.


(** C10: in both endpoints nothing is persisted before the run of the graph
    has ended; when a stage fails, the conversation store after the request
    is the store before it; after a complete run of the six stages the store
    gains the user turn and the assistant turn, in this order (or, if adding a
    turn fails, the turns added before the failure). *)
Theorem C10_turns_persisted_only_after_complete_run :
  forall (body : ChatRequest) (w w0 w1 : World) (input : Update)
         (ups : list (string * Update)) (o : option PyExc),
    build_initial_state env settings body w = (Ok input, w0) ->
    graph_updates (GRAPH env) (merge empty_state input) w0 = (ups, o, w1) ->
    conv_store w1 = conv_store w /\
    (forall e, o = Some e ->
       (List.length ups < 6)%nat /\
       chat env settings body w = (Raise e, w1) /\
       conv_store (snd (chat env settings body w)) = conv_store w /\
       conv_store (snd (chat_stream env settings body w)) = conv_store w) /\
    (o = None ->
       List.length ups = 6%nat /\
       exists content : string,
         answer (state_after (merge empty_state input) ups) = Some content /\
         (exists turns,
             conv_store (snd (chat env settings body w)) = (conv_store w ++ turns)%list /\
             turns_of body (strip content) turns) /\
         (exists turns,
             conv_store (snd (chat_stream env settings body w))
             = (conv_store w ++ turns)%list /\
             turns_of body content turns) /\
         ((forall cs d, add_fault env cs d = None) ->
          exists t1 t2 t3 t4,
            conv_store (snd (chat env settings body w))
            = (conv_store w ++ [user_turn body t1;
                                assistant_turn body (strip content) t2])%list /\
            conv_store (snd (chat_stream env settings body w))
            = (conv_store w ++ [user_turn body t3; assistant_turn body content t4])%list)).
Proof.
  intros body w w0 w1 input ups o Hb H.
  destruct (quiet_build_initial_state body w) as (Hs0 & _ & _).
  rewrite Hb in Hs0. cbn [snd] in Hs0.
  destruct (graph_updates_quiet _ (quiet_GRAPH env) _ _ _ _ _ H) as (Hs1 & _ & _).
  destruct (graph_updates_names _ _ _ _ _ _ H) as (_ & Hall & Hlt).
  assert (Hchat : chat env settings body w = chat_run env body input w0).
  { unfold chat, bind. now rewrite Hb. }
  assert (Hstream : chat_stream env settings body w = sse_gen env body input w0).
  { unfold chat_stream, bind. now rewrite Hb. }
  rewrite Hchat, Hstream, (chat_run_spec body input w0 w1 ups o H),
    (sse_gen_spec body input w0 w1 ups o H).
  split; [congruence|]. split.
  - intros e ->. split; [exact (Hlt e eq_refl)|]. cbn [snd emit_all conv_store].
    repeat split; congruence.
  - intros ->. split; [exact (Hall eq_refl)|].
    destruct (complete_run_answer _ _ _ _ H) as (content & Hfa & Hans & _).
    exists content. split; [exact Hans|]. cbv zeta. rewrite Hfa, Hans. cbn [str_or_empty].
    pose proof (persist_turns_spec env body (strip content) w1) as (_ & Hc & Hcok & Hcnf).
    pose proof (persist_turns_spec env body content (emit_all w1 (map node_event ups)))
      as (_ & Hg & Hgok & Hgnf).
    cbn [emit_all conv_store] in Hg, Hgok.
    destruct (persist_turns env body (strip content) w1) as [[[]|ec] wc];
      destruct (persist_turns env body content (emit_all w1 (map node_event ups)))
        as [[[]|eg] wg];
      cbn [fst snd emit_all conv_store] in *;
      (split; [destruct Hc as (t & Ht & Hof); exists t; split; [congruence | exact Hof]|]);
      (split; [destruct Hg as (t & Ht & Hof); exists t; split; [congruence | exact Hof]|]);
      intros Hnf;
      try (specialize (Hcnf Hnf); discriminate);
      try (specialize (Hgnf Hnf); discriminate).
    destruct (Hcok eq_refl) as (t1 & t2 & Hc2). destruct (Hgok eq_refl) as (t3 & t4 & Hg2).
    exists t1, t2, t3, t4. split; congruence.
Qed.

End Endpoints.


(** The same request through both endpoints: the store is left as it was. *)
Lemma C10_witness :
  build_initial_state env_search_down settings0 body0 w0 = (Ok input_down, world_built) /\
  graph_updates (GRAPH env_search_down) (merge empty_state input_down) world_built
  = (updates_down, Some error_down, world_failed) /\
  conv_store (snd (chat env_search_down settings0 body0 w0)) = conv_store w0 /\
  conv_store (snd (chat_stream env_search_down settings0 body0 w0)) = conv_store w0.
Proof.
  assert (Hb : build_initial_state env_search_down settings0 body0 w0
               = (Ok input_down, world_built)) by (vm_compute; reflexivity).
  assert (H : graph_updates (GRAPH env_search_down) (merge empty_state input_down)
                world_built
              = (updates_down, Some error_down, world_failed))
    by (vm_compute; reflexivity).
  split; [exact Hb|]. split; [exact H|].
  destruct (C10_turns_persisted_only_after_complete_run env_search_down settings0
              body0 w0 _ _ _ _ _ Hb H) as (_ & Hfail & _).
  destruct (Hfail _ eq_refl) as (_ & _ & Hc & Hs). split; [exact Hc | exact Hs].
Defined.


(* ===================================================================== *)
(** * Part X. Further properties of the code                             *)
(* ===================================================================== *)

(** ** The question [node_parse_user] extracts *)

(** Messages that are not human are skipped by the scan. *)
Lemma latest_question_skips (env : Env) (post : list Message) :
  forallb (fun m => negb (is_human m)) post = true ->
  forall rest, latest_question env (rev post ++ rest)%list = latest_question env rest.
Proof.
  induction post as [|m post IH] using rev_ind; intros H rest.
  - reflexivity.
  - rewrite forallb_app in H. apply andb_true_iff in H as [H1 H2].
    rewrite rev_app_distr. cbn [rev app]. simpl in H2. rewrite andb_true_r in H2.
    destruct m; cbn [is_human negb] in H2; try discriminate.
    + cbn [latest_question]. apply IH; assumption.
    + cbn [latest_question]. apply IH; assumption.
    + cbn [latest_question].
      destruct (dict_get "type" d) eqn:E; try (apply IH; assumption).
      destruct s as [|c s]; try (apply IH; assumption).
      revert H2.
      repeat (match goal with
      | |- context [match ?s with EmptyString => _ | String _ _ => _ end] => destruct s
      | |- context [match ?c with Ascii _ _ _ _ _ _ _ _ => _ end] => destruct c
      | |- context [if ?b then _ else _] => destruct b
      end; try discriminate; try (intros; apply IH; assumption)).
Qed.

Lemma latest_question_human (env : Env) (pre post : list Message) (c : string) :
  forallb (fun m => negb (is_human m)) post = true ->
  latest_question env (rev (pre ++ HumanMessage c :: post)) = Some (strip c).
Proof.
  intros Hp. rewrite rev_app_distr. cbn [rev].
  rewrite <- app_assoc. rewrite latest_question_skips by assumption. reflexivity.
Qed.

Lemma question_of_merge (env : Env) (s : AgentState) :
  question (merge s (node_parse_user env s)) = latest_question env (rev (messages s)).
Proof. reflexivity. Qed.

(** X1: after the first stage the question is the content of the most
    recent human message, stripped, whatever follows it (assistant messages,
    other objects, dicts of another type); for a human dict it is the string
    of its content, stripped; and the question is unset when the
    conversation holds no human message. *)
Theorem parse_user_takes_latest_human_message (env : Env) (s : AgentState) :
  (forall (pre post : list Message) (c : string),
      messages s = (pre ++ HumanMessage c :: post)%list ->
      forallb (fun m => negb (is_human m)) post = true ->
      question (merge s (node_parse_user env s)) = Some (strip c)) /\
  (forall (pre post : list Message) (d : Dict),
      messages s = (pre ++ DictMessage d :: post)%list ->
      dict_get "type" d = PyStr "human" ->
      forallb (fun m => negb (is_human m)) post = true ->
      question (merge s (node_parse_user env s))
      = Some (strip (py_str (env_rt env) (py_or (dict_get "content" d) (PyStr ""))))) /\
  (forallb (fun m => negb (is_human m)) (messages s) = true ->
   question (merge s (node_parse_user env s)) = None).
Proof.
  rewrite question_of_merge. split; [|split].
  - intros pre post c Hm Hp. rewrite Hm. apply latest_question_human; assumption.
  - intros pre post d Hm Hd Hp. rewrite Hm, rev_app_distr. cbn [rev].
    rewrite <- app_assoc. rewrite latest_question_skips by assumption.
    cbn [app latest_question]. rewrite Hd. reflexivity.
  - intros Hp. rewrite <- (app_nil_r (rev (messages s))).
    rewrite latest_question_skips by assumption. reflexivity.
Qed.

(** A conversation that goes on after its latest human message. *)
Lemma parse_user_takes_latest_human_message_witness :
  question (merge state_dialogue (node_parse_user env_ok state_dialogue))
  = Some "Is 50 bpm low?".
Proof.
  apply (proj1 (parse_user_takes_latest_human_message env_ok state_dialogue)
           [HumanMessage "Hi"; AIMessage "Hello."]
           [AIMessage "It can be."; DictMessage [("type", PyStr "ai")]]
           "  Is 50 bpm low? "); reflexivity.
Defined.

(** ** The metric kinds after the first stage *)

Lemma uniq_from_seen (seen l : list string) :
  (forall x, In x l -> In x seen) -> uniq_from seen l = [].
Proof.
  induction l as [|x l IH]; intros H; [reflexivity|].
  cbn [uniq_from].
  assert (Hx : existsb (String.eqb x) seen = true).
  { apply existsb_eqb_In. apply H. left; reflexivity. }
  rewrite Hx. apply IH. intros y Hy. apply H. right; assumption.
Qed.

Lemma uniq_from_app_seen (a : list string) :
  forall (seen b : list string),
    (forall x, In x b -> In x seen \/ In x a) ->
    uniq_from seen (a ++ b) = uniq_from seen a.
Proof.
  induction a as [|x a IH]; intros seen b H.
  - cbn [app uniq_from]. apply uniq_from_seen. intros y Hy.
    destruct (H y Hy) as [?|[]]; assumption.
  - cbn [app uniq_from]. destruct (existsb (String.eqb x) seen) eqn:E.
    + apply IH. intros y Hy. destruct (H y Hy) as [?|[<-|?]]; auto.
      left. apply existsb_eqb_In. assumption.
    + f_equal. apply IH. intros y Hy. destruct (H y Hy) as [?|[<-|?]]; auto.
      * left; right; assumption.
      * left; left; reflexivity.
Qed.

Lemma kind_filter_doubled (kinds : list string) :
  kind_filter (kinds ++ kinds) = kind_filter kinds.
Proof.
  unfold kind_filter, uniq. rewrite uniq_from_app_seen by (intros; right; assumption).
  destruct kinds; reflexivity.
Qed.

(** X2: the first stage returns the kinds it read, and the [metric_kinds]
    channel adds what is written to what it holds, so after the first stage
    the kinds stand twice in the state; the filter [get_user_metrics] sends
    to the store, built from the kinds without repetition, is the one of the
    kinds as given, and so is the membership test of its client-side
    filter. *)
Theorem first_stage_doubles_metric_kinds (env : Env) (s : AgentState) :
  let s1 := merge s (node_parse_user env s) in
  metric_kinds s1 = (metric_kinds s ++ metric_kinds s)%list /\
  kind_filter (metric_kinds s1) = kind_filter (metric_kinds s) /\
  (forall k, kind_in k (metric_kinds s1) = kind_in k (metric_kinds s)).
Proof.
  cbn zeta. assert (H : metric_kinds (merge s (node_parse_user env s))
                    = (metric_kinds s ++ metric_kinds s)%list) by reflexivity.
  rewrite H. split; [reflexivity | split; [apply kind_filter_doubled |]].
  intros [k|]; [|reflexivity]. cbn [kind_in]. rewrite existsb_app. apply orb_diag.
Qed.

(** ** The Metrics Fetcher at its edges *)

Lemma missing_falsy (o : option string) : missing o -> str_truthy o = false.
Proof. intros [->| ->]; reflexivity. Qed.

Section PullMetricsEdges.
Context (env : Env).

(** X3: without a user, or without a start or an end of the window (unset
    or empty), the Metrics Fetcher returns an empty [metrics] update and
    leaves the world as it found it: the store is not queried and no date is
    parsed. *)
Theorem pull_metrics_without_scope_is_noop (s : AgentState) (w : World) :
  missing (user_id s) \/ timeframe s = None \/
  (exists tf, timeframe s = Some tf /\ (missing (tf_start tf) \/ missing (tf_end tf))) ->
  node_pull_metrics env s w = (Ok [WMetrics []], w).
Proof.
  intros H. unfold node_pull_metrics.
  destruct H as [H | [H | (tf & H & [H1 | H1])]].
  - rewrite (missing_falsy _ H). reflexivity.
  - rewrite H. cbn [tf_start tf_end str_truthy negb orb]. rewrite orb_true_r. reflexivity.
  - rewrite H, (missing_falsy _ H1). cbn [negb orb]. rewrite orb_true_r. reflexivity.
  - rewrite H, (missing_falsy _ H1). cbn [negb orb]. rewrite !orb_true_r. reflexivity.
Qed.

(** X4: when the start of the window does not parse, or the start parses
    and the end does not, the Metrics Fetcher raises the parser's exception
    and the world is unchanged: the store is never queried with a bad
    window. *)
Theorem pull_metrics_bad_window_never_queries (s : AgentState) (w : World)
  (uid st en : string) (e : PyExc) :
  fetch_ready s uid st en ->
  (_parse_iso_utc env st = Raise e \/
   (exists start_dt, _parse_iso_utc env st = Ok start_dt) /\ _parse_iso_utc env en = Raise e) ->
  node_pull_metrics env s w = (Raise e, w).
Proof.
  intros (Hu & Hne & Ht & Hs & He) H. unfold node_pull_metrics.
  rewrite Hu, Ht. cbn [tf_start tf_end].
  rewrite !str_truthy_some by assumption. cbn [negb orb str_or_empty].
  unfold get_user_metrics. munfold.
  destruct H as [H | [(dt & H1) H2]].
  - rewrite H. reflexivity.
  - rewrite H1, H2. reflexivity.
Qed.

End PullMetricsEdges.

(** A state whose user is the empty string. *)
Lemma pull_metrics_without_scope_is_noop_witness :
  node_pull_metrics env_ok (merge empty_state [WUserId (Some "")]) w0 = (Ok [WMetrics []], w0).
Proof.
  apply pull_metrics_without_scope_is_noop. left. right. reflexivity.
Defined.

(** A window whose start is the word yesterday. *)
Lemma pull_metrics_bad_window_never_queries_witness :
  node_pull_metrics env_bad_dates state_bad_window w0
  = (Raise (mkExc "ValueError" "Invalid isoformat string: yesterday"), w0).
Proof.
  apply (pull_metrics_bad_window_never_queries env_bad_dates state_bad_window w0
           "u1" "yesterday" "2025-09-20T00:00:00Z").
  - repeat split; discriminate.
  - left. vm_compute; reflexivity.
Defined.

(** ** The kinds filter of [get_user_metrics] *)
Lemma uniq_from_In (l : list string) :
  forall seen x, In x (uniq_from seen l) <-> In x l /\ ~ In x seen.
Proof.
  induction l as [|y l IH]; intros seen x; cbn [uniq_from].
  - split; [intros [] | intros [[] _]].
  - destruct (existsb (String.eqb y) seen) eqn:E.
    + rewrite IH. apply existsb_eqb_In in E. split.
      * intros [H1 H2]. split; [right; assumption | assumption].
      * intros [[<-|H1] H2]; [contradiction | split; assumption].
    + assert (Hy : ~ In y seen).
      { intros H. apply existsb_eqb_In in H. congruence. }
      split.
      * intros [<-|H]; [split; [left; reflexivity | assumption]|].
        apply IH in H as [H1 H2]. split; [right; assumption|].
        intros H3. apply H2. right; assumption.
      * intros [[<-|H1] H2]; [left; reflexivity|].
        destruct (String.eqb_spec y x) as [->|Hne]; [left; reflexivity|].
        right. apply IH. split; [assumption|]. intros [H3|H3]; [congruence | contradiction].
Qed.

Lemma uniq_from_NoDup (l : list string) : forall seen, NoDup (uniq_from seen l).
Proof.
  induction l as [|y l IH]; intros seen; cbn [uniq_from].
  - constructor.
  - destruct (existsb (String.eqb y) seen); [apply IH|].
    constructor; [|apply IH].
    intros H. apply uniq_from_In in H as [_ H]. apply H. left; reflexivity.
Qed.

Lemma uniq_from_length (l : list string) :
  forall seen, (List.length (uniq_from seen l) <= List.length l)%nat.
Proof.
  induction l as [|y l IH]; intros seen; cbn [uniq_from List.length]; [lia|].
  destruct (existsb (String.eqb y) seen); cbn [List.length].
  - specialize (IH seen). lia.
  - specialize (IH (y :: seen)). lia.
Qed.

(** X5: the kinds filter sent to the store, when there is one, lists each
    requested kind once: it has no repetition, at most ten entries and the
    same members as the request. No filter is sent only when no kind is
    requested or more than ten distinct kinds are; the request then has more
    than ten entries, which is when the client-side filter applies. *)
Theorem kind_filter_is_distinct_kinds (kinds : list string) :
  match kind_filter kinds with
  | Some u =>
      kinds <> [] /\ NoDup u /\ (List.length u <= 10)%nat /\
      (forall k, In k u <-> In k kinds)
  | None =>
      kinds = [] \/
      ((10 < List.length kinds)%nat /\
       exists u, NoDup u /\ incl u kinds /\ (10 < List.length u)%nat)
  end.
Proof.
  unfold kind_filter. destruct kinds as [|k0 kinds]; [left; reflexivity|].
  cbn [is_nil]. destruct (Z.of_nat (List.length (uniq (k0 :: kinds))) <=? 10) eqn:E.
  - apply Z.leb_le in E.
    split; [discriminate | split; [apply uniq_from_NoDup | split; [lia|]]].
    intros k. unfold uniq. rewrite uniq_from_In.
    split; [intros [H _]; exact H | intros H; split; [exact H | intros []]].
  - apply Z.leb_gt in E. right.
    pose proof (uniq_from_length (k0 :: kinds) []) as H. unfold uniq in E.
    split; [lia|]. exists (uniq_from [] (k0 :: kinds)).
    split; [apply uniq_from_NoDup | split; [|lia]].
    intros k Hk. apply uniq_from_In in Hk as [Hk _]. exact Hk.
Qed.

(** ** The points [get_user_metrics] collects *)

Section CollectPoints.
Context (env : Env).

Lemma collect_points_app (kinds : list string) (d1 d2 : list (option MetricData)) :
  collect_points env kinds (d1 ++ d2)
  = (collect_points env kinds d1 ++ collect_points env kinds d2)%list.
Proof.
  induction d1 as [|d d1 IH]; [reflexivity|].
  cbn [app collect_points]. destruct (point_of_doc env kinds d); rewrite IH; reflexivity.
Qed.

Lemma point_of_doc_kind (kinds : list string) (d : option MetricData) (p : Point) :
  point_of_doc env kinds d = Some p ->
  exists data, d = Some data /\ pt_kind p = md_kind data /\ pt_unit p = md_unit data /\
               ((10 < List.length kinds)%nat -> kind_in (md_kind data) kinds = true).
Proof.
  unfold point_of_doc. destruct d as [data|]; [|discriminate]. cbv zeta.
  destruct (negb (is_nil kinds) && (10 <? Z.of_nat (List.length kinds))
            && negb (kind_in (md_kind data) kinds)) eqn:E; [discriminate|].
  destruct (py_float (env_rt env) (md_value data)) as [val|] eqn:Ef; [|discriminate].
  intros H. injection H as <-. exists data. cbn [pt_kind pt_unit pt_value].
  split; [reflexivity | split; [reflexivity | split; [reflexivity|]]].
  intros Hlen. destruct kinds as [|k0 kinds]; [cbn in Hlen; lia|].
  cbn [is_nil negb andb] in E.
  assert (H10 : (10 <? Z.of_nat (List.length (k0 :: kinds))) = true) by (apply Z.ltb_lt; lia).
  rewrite H10 in E. cbn [andb] in E. apply negb_false_iff in E. exact E.
Qed.

(** X6: when more than ten kinds are requested, every point returned has
    a kind, and that kind is one of the requested ones: documents of other
    kinds and documents without a kind are dropped on the client side. *)
Theorem many_kinds_are_filtered_by_the_client (kinds : list string)
  (docs : list (option MetricData)) :
  (10 < List.length kinds)%nat ->
  Forall (fun p => exists k, pt_kind p = Some k /\ In k kinds) (collect_points env kinds docs).
Proof.
  intros Hlen. induction docs as [|d docs IH]; [constructor|].
  cbn [collect_points]. destruct (point_of_doc env kinds d) as [p|] eqn:E; [|exact IH].
  constructor; [|exact IH].
  apply point_of_doc_kind in E as (data & _ & Hk & _ & Hin).
  specialize (Hin Hlen). rewrite Hk. destruct (md_kind data) as [k|]; [|discriminate].
  exists k. split; [reflexivity|]. apply existsb_eqb_In. exact Hin.
Qed.

(** X7: the points are collected document by document, in the order of
    the store: collecting from two batches one after the other gives the
    points of the first followed by the points of the second; a document
    gives no point or exactly one, which carries its kind, its unit and its
    value as a float; so there are never more points than documents. *)
Theorem collect_points_keeps_store_order (kinds : list string) :
  (forall d1 d2 : list (option MetricData),
      collect_points env kinds (d1 ++ d2)
      = (collect_points env kinds d1 ++ collect_points env kinds d2)%list) /\
  (forall d : option MetricData,
      collect_points env kinds [d] = [] \/
      exists data val,
        d = Some data /\ py_float (env_rt env) (md_value data) = Ok val /\
        exists ts, collect_points env kinds [d]
                   = [ {| pt_kind := md_kind data; pt_ts := PyStr ts;
                          pt_value := PyFloat val; pt_unit := md_unit data |} ]) /\
  (forall docs : list (option MetricData),
      (List.length (collect_points env kinds docs) <= List.length docs)%nat).
Proof.
  split; [apply collect_points_app | split].
  - intros d. cbn [collect_points]. unfold point_of_doc.
    destruct d as [data|]; [|left; reflexivity]. cbv zeta.
    destruct (_ && _); [left; reflexivity|].
    destruct (py_float (env_rt env) (md_value data)) as [val|] eqn:Ef; [|left; reflexivity].
    right. exists data, val. split; [reflexivity | split; [exact Ef|]].
    eexists. reflexivity.
  - induction docs as [|d docs IH]; [cbn; lia|].
    cbn [collect_points List.length]. destruct (point_of_doc env kinds d); cbn [List.length]; lia.
Qed.

End CollectPoints.

(** Eleven kinds requested, and a store that also returns a point of another kind. *)
Lemma many_kinds_are_filtered_by_the_client_witness :
  kind_filter eleven_kinds = None /\
  collect_points env_ok eleven_kinds [doc_of "hr" (PyInt 61); doc_of "mood" (PyInt 3)]
  = [ {| pt_kind := Some "hr"; pt_ts := PyStr "1970-01-01T00:00:00+00:00";
         pt_value := PyFloat 61; pt_unit := PyStr "bpm" |} ] /\
  Forall (fun p => exists k, pt_kind p = Some k /\ In k eleven_kinds)
    (collect_points env_ok eleven_kinds [doc_of "hr" (PyInt 61); doc_of "mood" (PyInt 3)]).
Proof.
  split; [reflexivity | split; [vm_compute; reflexivity|]].
  apply many_kinds_are_filtered_by_the_client. cbn. lia.
Defined.

(** ** What the Metrics Analyzer writes *)

Section StatsInvariants.
Context (env : Env).

Lemma values_of_kind_empty_key (points : list Point) : values_of_kind env "" points = [].
Proof.
  unfold values_of_kind. induction points as [|p points IH]; [reflexivity|].
  cbn [flat_map]. rewrite IH.
  destruct (_safe_float env (pt_value p)); [|reflexivity].
  destruct (pt_kind p) as [k|]; [|reflexivity].
  destruct (String.eqb_spec k ""); [subst; reflexivity|].
  cbn [andb]. reflexivity.
Qed.

Lemma mean_sd_some (vals : list float) (mu sd : option float) :
  vals <> [] -> _mean_sd env vals = Ok (mu, sd) -> mu <> None /\ sd <> None.
Proof.
  intros Hne H. unfold _mean_sd in H.
  destruct vals as [|v [|v' vals]]; [contradiction | |].
  - injection H as <- <-. split; discriminate.
  - destruct (mean (v :: v' :: vals)); [|discriminate]. cbn [rbind] in H.
    destruct (pstdev (env_rt env) (v :: v' :: vals)); [|discriminate]. cbn [rbind] in H.
    injection H as <- <-. split; discriminate.
Qed.

Lemma Forall2_combine_In {A B} (P : A -> B -> Prop) (l : list A) (l' : list B) :
  Forall2 P l l' -> forall a b, In (a, b) (combine l l') -> In a l /\ P a b.
Proof.
  induction 1 as [|x y l l' Hxy HF IH]; intros a b Hin; [destruct Hin|].
  destruct Hin as [Heq|Hin].
  - injection Heq as <- <-. split; [left; reflexivity | exact Hxy].
  - destruct (IH a b Hin). split; [right; assumption | assumption].
Qed.

Lemma Forall2_keys {A B C D} (P : A * B -> C -> Prop) (f : C -> D)
  (l : list (A * B)) (l' : list C) :
  Forall2 P l l' ->
  map fst (map (fun gr : (A * B) * C => (fst (fst gr), f (snd gr))) (combine l l')) = map fst l.
Proof.
  induction 1 as [|x y l l' Hxy HF IH]; [reflexivity|].
  cbn [combine map fst snd]. rewrite IH. reflexivity.
Qed.

Lemma flat_map_opt_length {A B} (f : A -> option B) (l : list A) :
  (List.length (flat_map (fun r => opt_list (f r)) l) <= List.length l)%nat.
Proof.
  induction l as [|a l IH]; [cbn; lia|].
  cbn [flat_map]. rewrite length_app. destruct (f a); cbn [opt_list List.length]; lia.
Qed.

(** The entries of [stats], told on the points of the state. *)
Lemma analyze_entries (s : AgentState) (u : Update) :
  node_analyze env s = Ok u ->
  exists (stats : Stats) (flags : list string),
    u = [WStats (Some stats); WAnomalies flags] /\
    NoDup (map fst stats) /\
    (List.length flags <= List.length stats)%nat /\
    forall k e, In (k, e) stats ->
      exists mu sd,
        values_of_kind env k (metrics s) <> [] /\
        _mean_sd env (values_of_kind env k (metrics s)) = Ok (mu, sd) /\
        e = {| st_mean := mu; st_stdev := sd;
               st_n := List.length (values_of_kind env k (metrics s)) |}.
Proof.
  intros H. unfold node_analyze in H.
  destruct (analyze_loop env (group_by_kind env (metrics s)) [] [])
    as [[stats flags]|] eqn:E; [|discriminate].
  cbn [rbind] in H. injection H as <-.
  destruct (group_by_kind_spec env (metrics s)) as [[Hnd Hne] Hfind].
  apply analyze_loop_spec in E; [|exact Hnd | intros k _ []].
  destruct E as (rs & HF & -> & ->). cbn [app].
  eexists _, _. split; [reflexivity|]. split; [|split].
  - rewrite (Forall2_keys _ fst _ _ HF). exact Hnd.
  - rewrite length_map.
    assert (Hl : List.length (combine (group_by_kind env (metrics s)) rs) = List.length rs).
    { rewrite length_combine. apply Forall2_length in HF. lia. }
    rewrite Hl. apply (flat_map_opt_length (fun r : StatEntry * option string => snd r)).
  - intros k e Hin. apply in_map_iff in Hin as ([[k' vals] r] & Heq & Hin).
    cbn [fst snd] in Heq. injection Heq as -> <-.
    destruct (Forall2_combine_In _ _ _ HF _ _ Hin) as [Hg Hr].
    pose proof (In_dict_find k vals _ Hnd Hg) as Hk. rewrite Hfind in Hk.
    assert (Hv : values_of_kind env k (metrics s) = vals /\ vals <> []).
    { destruct (values_of_kind env k (metrics s)); [discriminate|].
      injection Hk as <-. split; [reflexivity | discriminate]. }
    destruct Hv as [Hv Hvne]. rewrite Hv.
    unfold kind_result in Hr. cbn [fst snd] in Hr.
    destruct (_mean_sd env vals) as [[mu sd]|] eqn:Em; [|discriminate].
    cbn [rbind] in Hr. injection Hr as <-. cbn [fst].
    exists mu, sd. split; [exact Hvne | split; reflexivity].
Qed.

(** X8: when the Metrics Analyzer returns, [stats] has one entry per kind,
    each kind once and never the empty kind; every entry counts at least one
    point, exactly the points of that kind with a non-empty kind and a
    numeric value, and has a mean and a standard deviation; and there is at
    most one anomaly flag per entry. *)
Theorem analyze_stats_are_well_formed (s : AgentState) (u : Update) :
  node_analyze env s = Ok u ->
  exists (stats : Stats) (flags : list string),
    u = [WStats (Some stats); WAnomalies flags] /\
    NoDup (map fst stats) /\
    (forall k e, In (k, e) stats ->
       k <> "" /\ (1 <= st_n e)%nat /\ st_mean e <> None /\ st_stdev e <> None /\
       st_n e = List.length (values_of_kind env k (metrics s))) /\
    (List.length flags <= List.length stats)%nat.
Proof.
  intros H. destruct (analyze_entries s u H) as (stats & flags & Hu & Hnd & Hlen & Hent).
  exists stats, flags. split; [exact Hu | split; [exact Hnd | split; [|exact Hlen]]].
  intros k e Hin. destruct (Hent k e Hin) as (mu & sd & Hne & Hm & ->).
  cbn [st_n st_mean st_stdev].
  destruct (mean_sd_some _ mu sd Hne Hm) as [Hmu Hsd].
  split; [|split; [|split; [exact Hmu | split; [exact Hsd | reflexivity]]]].
  - intros ->. apply Hne. apply values_of_kind_empty_key.
  - destruct (values_of_kind env k (metrics s)); [contradiction | cbn; lia].
Qed.

End StatsInvariants.

(** The heart-rate group with one outlier. *)
Lemma analyze_stats_are_well_formed_witness :
  exists (stats : Stats) (flags : list string),
    [WStats (Some [("hr", {| st_mean := Some 1%float; st_stdev := Some 3%float; st_n := 10 |})]);
     WAnomalies ["hr: 1 outlier(s) beyond ±2.5σ"]]
    = [WStats (Some stats); WAnomalies flags] /\
    NoDup (map fst stats) /\
    (forall k e, In (k, e) stats ->
       k <> "" /\ (1 <= st_n e)%nat /\ st_mean e <> None /\ st_stdev e <> None /\
       st_n e = List.length (values_of_kind env_ok k (metrics state_outlier))) /\
    (List.length flags <= List.length stats)%nat.
Proof.
  apply (analyze_stats_are_well_formed env_ok state_outlier). vm_compute; reflexivity.
Defined.

(** ** Groups of identical values *)

Lemma Qsum_repeat (q : Q) (n : nat) : (Qsum (repeat q n) == count_Q n * q)%Q.
Proof.
  induction n as [|n IH].
  - cbn. unfold count_Q. cbn. ring.
  - cbn [repeat Qsum fold_right]. fold (Qsum (repeat q n)). rewrite IH, count_Q_succ. ring.
Qed.

Lemma sq_dev_repeat (q m : Q) (n : nat) :
  (m == q)%Q ->
  (Qsum (map (fun x => (x - m) * (x - m)) (repeat q n)) == 0)%Q.
Proof.
  intros Hm. induction n as [|n IH]; [reflexivity|].
  cbn [repeat map Qsum fold_right].
  fold (Qsum (map (fun x => (x - m) * (x - m)) (repeat q n))%Q). rewrite IH, Hm. ring.
Qed.

Lemma pvariance_repeat (q : Q) (n : nat) : (spec_pvariance (repeat q (S n)) == 0)%Q.
Proof.
  unfold spec_pvariance. rewrite sq_dev_repeat.
  - unfold Qdiv. ring.
  - unfold spec_mean. rewrite Qsum_repeat, repeat_length.
    field. apply count_Q_nonzero. lia.
Qed.

Lemma pstdev_repeat (rt : Runtime) (v : float) (n : nat) :
  is_finite v = true -> pstdev rt (repeat v (S n)) = Ok 0%float.
Proof.
  intros Hv.
  rewrite (pstdev_is_spec_pstdev rt _ (map exact_value (repeat v (S n)))).
  - rewrite map_repeat. unfold sqrt_of_frac.
    rewrite (Qred_complete _ 0 (pvariance_repeat (exact_value v) n)).
    vm_compute. reflexivity.
  - discriminate.
  - apply exact_ratios_finite. apply Forall_forall. intros x Hx.
    apply repeat_spec in Hx. subst. exact Hv.
Qed.

(** X9: for a group of one or more copies of the same finite value the
    population standard deviation is exactly zero, so whatever mean
    [_mean_sd] returns, the standard deviation it returns is 0.0 and the
    kind gets no outlier flag. *)
Theorem constant_values_are_never_flagged (env : Env) (k : string) (v : float) (n : nat) :
  is_finite v = true ->
  pstdev (env_rt env) (repeat v (S n)) = Ok 0%float /\
  forall mu sd,
    _mean_sd env (repeat v (S n)) = Ok (mu, sd) ->
    sd = Some 0%float /\ flag_of k mu sd (repeat v (S n)) = None.
Proof.
  intros Hv. split; [apply pstdev_repeat; exact Hv|].
  intros mu sd H. assert (Hsd : sd = Some 0%float).
  { destruct n as [|n].
    - cbn in H. injection H as _ <-. reflexivity.
    - unfold _mean_sd in H. cbn [repeat] in H.
      change (v :: v :: repeat v n) with (repeat v (S (S n))) in H.
      rewrite pstdev_repeat in H by exact Hv.
      destruct (mean (repeat v (S (S n)))); [|discriminate].
      cbn [rbind] in H. injection H as _ <-. reflexivity. }
  split; [exact Hsd|]. subst sd. destruct mu; reflexivity.
Qed.

(** Three heart rates of 72. *)
Lemma constant_values_are_never_flagged_witness :
  is_finite 72%float = true /\
  _mean_sd env_ok (repeat 72%float 3) = Ok (Some 72%float, Some 0%float) /\
  flag_of "hr" (Some 72%float) (Some 0%float) (repeat 72%float 3) = None.
Proof.
  assert (Hf : is_finite 72%float = true) by (vm_compute; reflexivity).
  assert (Hm : _mean_sd env_ok (repeat 72%float 3) = Ok (Some 72%float, Some 0%float))
    by (vm_compute; reflexivity).
  split; [exact Hf | split; [exact Hm|]].
  exact (proj2 (proj2 (constant_values_are_never_flagged env_ok "hr" 72%float 2 Hf)
                  (Some 72%float) (Some 0%float) Hm)).
Defined.

(** ** The citation block and the context *)

Section Citations.
Context (env : Env).

Lemma citation_lines_nth (cites : list Citation) :
  forall (start i : nat) (c : Citation),
    nth_error cites i = Some c ->
    exists rest : string,
      nth_error (citation_lines env start cites) i
      = Some ("[" ++ str_of_nat (start + i) ++ "] " ++ rest).
Proof.
  induction cites as [|c0 cites IH]; intros start i c H.
  - destruct i; discriminate.
  - destruct i as [|i].
    + cbn [citation_lines nth_error]. rewrite Nat.add_0_r. eexists. reflexivity.
    + cbn [citation_lines nth_error]. cbn [nth_error] in H.
      destruct (IH (S start) i c H) as (rest & Hr). exists rest.
      rewrite Hr. replace (S start + i)%nat with (start + S i)%nat by lia. reflexivity.
Qed.

Lemma citation_lines_length (cites : list Citation) :
  forall start, List.length (citation_lines env start cites) = List.length cites.
Proof.
  induction cites as [|c cites IH]; intros start; [reflexivity|].
  cbn [citation_lines List.length]. rewrite IH. reflexivity.
Qed.

Lemma citation_block_empty_iff (cites : list Citation) :
  _citation_block env cites = "" <-> cites = [].
Proof.
  split; [|intros ->; reflexivity].
  destruct cites as [|c cites]; [reflexivity|].
  unfold _citation_block, join. cbn [citation_lines String.concat].
  destruct (citation_lines env 2 cites); discriminate.
Qed.

(** X10: the citation block has one line per citation, in order; the
    line of the citation at index [i] (from 0) starts with its 1-based
    number in brackets, [[i+1]], and a space; and the block is the empty
    string exactly when there is no citation. *)
Theorem citation_block_numbers_from_one (cites : list Citation) :
  List.length (citation_lines env 1 cites) = List.length cites /\
  (forall (i : nat) (c : Citation),
      nth_error cites i = Some c ->
      exists rest : string,
        nth_error (citation_lines env 1 cites) i
        = Some ("[" ++ str_of_nat (S i) ++ "] " ++ rest)) /\
  (_citation_block env cites = "" <-> cites = []).
Proof.
  split; [apply citation_lines_length | split; [|apply citation_block_empty_iff]].
  intros i c H. exact (citation_lines_nth cites 1 i c H).
Qed.

End Citations.

Section FormatContextMore.
Context (env : Env).

Lemma sum_len_app (a b : list string) : sum_len (a ++ b) = (sum_len a + sum_len b)%nat.
Proof.
  unfold sum_len. induction a as [|x a IH]; [reflexivity|].
  cbn [app fold_right]. rewrite IH. lia.
Qed.

Lemma format_loop_fits (pre : list Chunk) (max_chars : Z) :
  forall (rest : list Chunk) (pieces : list string) (used : nat),
    Z.of_nat (used + sum_len (map (context_part env) pre)) <= max_chars ->
    format_loop env (pre ++ rest) max_chars pieces used
    = format_loop env rest max_chars (pieces ++ map (context_part env) pre)%list
        (used + sum_len (map (context_part env) pre)).
Proof.
  induction pre as [|r pre IH]; intros rest pieces used H.
  - cbn [app map]. rewrite app_nil_r. unfold sum_len. cbn [fold_right].
    rewrite Nat.add_0_r. reflexivity.
  - cbn [app map] in *. rewrite format_loop_cons.
    assert (Hs : sum_len (context_part env r :: map (context_part env) pre)
                 = (String.length (context_part env r)
                    + sum_len (map (context_part env) pre))%nat) by reflexivity.
    rewrite Hs in *.
    destruct (max_chars <? Z.of_nat (used + String.length (context_part env r))) eqn:E.
    + apply Z.ltb_lt in E. lia.
    + rewrite IH by lia. rewrite <- app_assoc. cbn [app].
      f_equal. lia.
Qed.

(** X11: the loop of [_format_context] stops at the first block that does
    not fit and never looks further: when the blocks of [pre] fit the budget
    together, the context of [pre] is all their blocks joined, and when the
    next chunk's block would pass the budget the context is still that of
    [pre], whatever chunks come after it, small ones included. *)
Theorem format_context_stops_at_first_overflow (pre : list Chunk) (max_chars : Z) :
  Z.of_nat (sum_len (map (context_part env) pre)) <= max_chars ->
  _format_context env pre max_chars = join nl (map (context_part env) pre) /\
  forall (r : Chunk) (post : list Chunk),
    max_chars < Z.of_nat (sum_len (map (context_part env) pre)
                          + String.length (context_part env r)) ->
    _format_context env (pre ++ r :: post) max_chars
    = join nl (map (context_part env) pre).
Proof.
  intros H. unfold _format_context. split.
  - rewrite <- (app_nil_r pre) at 1. rewrite format_loop_fits by exact H. reflexivity.
  - intros r post Hr. rewrite format_loop_fits by exact H.
    rewrite format_loop_cons. cbn [app plus].
    destruct (max_chars <? _) eqn:E; [reflexivity|]. apply Z.ltb_ge in E. lia.
Qed.

(** X12: for a non-negative budget the context is the blocks of the first
    [k] chunks joined by newlines, for some [k]; the blocks alone total at
    most [max_chars] characters, the context with its separators at most
    [max_chars + (k - 1)]; and if a chunk is left at index [k], its block
    would have passed the budget. *)
Theorem format_context_length_bound (chunks : list Chunk) (max_chars : Z) :
  0 <= max_chars ->
  exists k : nat,
    (k <= List.length chunks)%nat /\
    _format_context env chunks max_chars = join nl (map (context_part env) (firstn k chunks)) /\
    Z.of_nat (sum_len (map (context_part env) (firstn k chunks))) <= max_chars /\
    Z.of_nat (String.length (_format_context env chunks max_chars))
    <= max_chars + Z.of_nat (pred k) /\
    (forall r, nth_error chunks k = Some r ->
       max_chars < Z.of_nat (sum_len (map (context_part env) (firstn k chunks))
                             + String.length (context_part env r))).
Proof.
  intros H0. destruct (format_loop_spec env chunks max_chars [] 0%nat)
    as (k & Hk & Heq & Hfit & Hstop).
  cbn [app plus] in *. specialize (Hfit H0).
  exists k. split; [exact Hk|]. unfold _format_context. rewrite Heq.
  split; [reflexivity | split; [exact Hfit | split; [|exact Hstop]]].
  rewrite join_length, length_map, length_firstn.
  replace (String.length nl) with 1%nat by reflexivity.
  rewrite Nat.min_l by exact Hk. lia.
Qed.

End FormatContextMore.

(** The second of two citations. *)
Lemma citation_block_numbers_from_one_witness :
  exists rest : string,
    nth_error (citation_lines env_ok 1 [stale_citation; citation_hit0]) 1
    = Some ("[" ++ str_of_nat 2 ++ "] " ++ rest).
Proof.
  apply (proj1 (proj2 (citation_block_numbers_from_one env_ok [stale_citation; citation_hit0]))
           1%nat citation_hit0).
  reflexivity.
Defined.

(** One short chunk, followed by anything. *)
Lemma format_context_stops_at_first_overflow_witness :
  _format_context env_ok [stale_chunk] MAX_CHARS
  = join nl (map (context_part env_ok) [stale_chunk]) /\
  forall (r : Chunk) (post : list Chunk),
    MAX_CHARS < Z.of_nat (sum_len (map (context_part env_ok) [stale_chunk])
                          + String.length (context_part env_ok r)) ->
    _format_context env_ok ([stale_chunk] ++ r :: post) MAX_CHARS
    = join nl (map (context_part env_ok) [stale_chunk]).
Proof.
  apply (format_context_stops_at_first_overflow env_ok [stale_chunk] MAX_CHARS).
  vm_compute. discriminate.
Defined.

(** Two blocks of 2000 characters and a short one, under the default budget. *)
Lemma format_context_length_bound_witness :
  exists k : nat,
    (k <= List.length [chunk_2000; chunk_2000; stale_chunk])%nat /\
    _format_context env_ok [chunk_2000; chunk_2000; stale_chunk] MAX_CHARS
    = join nl (map (context_part env_ok) (firstn k [chunk_2000; chunk_2000; stale_chunk])) /\
    Z.of_nat (sum_len (map (context_part env_ok)
                         (firstn k [chunk_2000; chunk_2000; stale_chunk]))) <= MAX_CHARS /\
    Z.of_nat (String.length
                (_format_context env_ok [chunk_2000; chunk_2000; stale_chunk] MAX_CHARS))
    <= MAX_CHARS + Z.of_nat (pred k) /\
    (forall r, nth_error [chunk_2000; chunk_2000; stale_chunk] k = Some r ->
       MAX_CHARS < Z.of_nat (sum_len (map (context_part env_ok)
                                        (firstn k [chunk_2000; chunk_2000; stale_chunk]))
                             + String.length (context_part env_ok r))).
Proof.
  apply (format_context_length_bound env_ok [chunk_2000; chunk_2000; stale_chunk] MAX_CHARS).
  unfold MAX_CHARS. lia.
Defined.

(** ** The prompt of the Answer Composer *)

Lemma append_nil_r (a : string) : a ++ "" = a.
Proof. induction a as [|x a IH]; [reflexivity|]. cbn [append]. rewrite IH. reflexivity. Qed.

Lemma contains_refl (x : string) : contains x x.
Proof. exists "", "". rewrite append_nil_r. reflexivity. Qed.

Lemma contains_app_l (x a b : string) : contains x a -> contains x (a ++ b).
Proof.
  intros (pre & post & ->). exists pre, (post ++ b). rewrite !string_app_assoc. reflexivity.
Qed.

Lemma contains_app_r (x a b : string) : contains x b -> contains x (a ++ b).
Proof.
  intros (pre & post & ->). exists (a ++ pre), post. rewrite !string_app_assoc. reflexivity.
Qed.

Lemma contains_join (x sep : string) (l : list string) :
  In x l -> contains x (join sep l).
Proof.
  unfold join. induction l as [|y l IH]; intros H; [destruct H|].
  cbn [String.concat]. destruct l as [|z l].
  - destruct H as [->|[]]. apply contains_refl.
  - destruct H as [->|H].
    + apply contains_app_l, contains_refl.
    + apply contains_app_r, contains_app_r, IH, H.
Qed.

Ltac find_part :=
  match goal with
  | |- contains ?x ?x => apply contains_refl
  | H : In ?x ?l |- contains ?x (join _ ?l) => apply contains_join; exact H
  | |- contains _ (_ ++ _) =>
      first [ apply contains_app_l; find_part | apply contains_app_r; find_part ]
  end.

Section Prompt.
Context (env : Env).

(** X13: the Answer Composer calls the model once, with the system
    instructions and the prompt built from the state; that prompt contains,
    verbatim, the question, every anomaly flag, every safety warning, the
    formatted context and, when there are citations, the citation block. *)
Theorem answer_prompt_carries_findings (s : AgentState) (w : World) :
  let p := user_prompt_of env s in
  calls (snd (node_answer env s w)) = (calls w ++ [CallChat SYSTEM_INSTRUCTIONS p])%list /\
  contains (str_or_empty (question s)) p /\
  (forall a, In a (anomalies s) -> contains a p) /\
  (forall x, In x (safety_warnings s) -> contains x p) /\
  contains (_format_context env (relevant_chunks s) MAX_CHARS) p /\
  (citations s <> [] -> contains (_citation_block env (citations s)) p).
Proof.
  cbv zeta. split.
  - unfold node_answer. munfold.
    destruct (chat_invoke env (calls w) SYSTEM_INSTRUCTIONS (user_prompt_of env s)); reflexivity.
  - unfold user_prompt_of. cbv zeta.
    set (summary := match summary_parts env _ with [] => _ | _ => _ end).
    set (ctx := _format_context env (relevant_chunks s) MAX_CHARS).
    set (cb := _citation_block env (citations s)).
    set (q := str_or_empty (question s)).
    assert (Hcb : citations s <> [] -> String.eqb cb "" = false).
    { intros Hne. destruct (String.eqb_spec cb "") as [E|]; [|reflexivity].
      apply citation_block_empty_iff in E. contradiction. }
    destruct (anomalies s) as [|a0 al] eqn:Ea; destruct (safety_warnings s) as [|x0 xl] eqn:Ex;
      destruct (String.eqb cb "") eqn:Ec;
      (split; [find_part | split; [intros a Ha; first [solve [destruct Ha] | find_part]
        | split; [intros x Hx; first [solve [destruct Hx] | find_part]
        | split; [find_part
                 | intros Hne; first [specialize (Hcb Hne); discriminate | find_part]]]]]).
Qed.

End Prompt.

(** ** The calls of the Guidance Retriever *)

Section RetrieveTrace.
Context (env : Env).

Lemma retrieve_loop_lengths (results : list Hit) :
  List.length (fst (retrieve_loop results [] [])) = List.length results /\
  List.length (snd (retrieve_loop results [] [])) = List.length results.
Proof.
  destruct (retrieve_loop_aligned results [] [] aligned_nil) as [[Hl _] Hn].
  cbn [List.length plus] in Hn. split; [exact Hn | rewrite Hl; exact Hn].
Qed.

(** X14: the Guidance Retriever either makes no call (blank question), or
    embeds one query that starts with the stripped question (and is the
    stripped question when no statistic enriches it) and then, only if the
    embedding succeeded, searches the index once with the returned vector.
    A failure of the embedder or of the index is raised as it is; on success
    there are as many chunks and as many citations as hits. *)
Theorem retrieve_calls_embedder_then_index (s : AgentState) (w w' : World)
  (r : Result Update) :
  node_retrieve env s w = (r, w') ->
  let q := strip (str_or_empty (question s)) in
  (q = "" /\ r = Ok [WRelevantChunks []; WCitations []] /\ w' = w) \/
  (q <> "" /\
   exists extra : string,
     (enrich_of env (match stats s with Some st => st | None => [] end) = [] -> extra = "") /\
     match embed_query env (calls w) (q ++ extra) with
     | Raise e => r = Raise e /\ calls w' = (calls w ++ [CallEmbed (q ++ extra)])%list
     | Ok v =>
         calls w' = (calls w ++ [CallEmbed (q ++ extra); CallSearch v])%list /\
         match qdrant_search env (calls w ++ [CallEmbed (q ++ extra)]) v with
         | Raise e => r = Raise e
         | Ok hits =>
             exists chunks cites,
               r = Ok [WRelevantChunks chunks; WCitations cites] /\
               List.length chunks = List.length hits /\
               List.length cites = List.length hits
         end
     end).
Proof.
  intros H. cbv zeta. unfold node_retrieve in H.
  destruct (String.eqb_spec (strip (str_or_empty (question s))) "") as [E|E].
  - left. unfold ret in H. injection H as <- <-. repeat split; assumption.
  - right. split; [exact E|].
    set (q := strip (str_or_empty (question s))) in *.
    set (en := enrich_of env match stats s with Some st => st | None => [] end) in *.
    exists (match en with [] => "" | _ => " | " ++ join "; " en end).
    split; [intros ->; reflexivity|].
    assert (Hq : match en with [] => q | _ :: _ => q ++ " | " ++ join "; " en end
                 = q ++ match en with [] => "" | _ => " | " ++ join "; " en end).
    { destruct en; [symmetry; apply append_nil_r | reflexivity]. }
    rewrite Hq in H. clear Hq.
    set (enriched := q ++ match en with [] => "" | _ => " | " ++ join "; " en end) in *.
    munfold. cbn [calls log_call] in H.
    destruct (embed_query env (calls w) enriched) as [v|e].
    + destruct (qdrant_search env (calls w ++ [CallEmbed enriched]) v) as [hits|e].
      * destruct (retrieve_loop hits [] []) as [chunks cites] eqn:El.
        injection H as <- <-. cbn [calls log_call]. rewrite <- app_assoc.
        split; [reflexivity|]. exists chunks, cites.
        destruct (retrieve_loop_lengths hits) as [H1 H2]. rewrite El in H1, H2.
        split; [reflexivity | split; assumption].
      * injection H as <- <-. cbn [calls log_call]. rewrite <- app_assoc.
        split; reflexivity.
    + injection H as <- <-. split; reflexivity.
Qed.

End RetrieveTrace.

(** ** Complete runs and the two endpoints *)

Lemma lstrip_app_nonspace (x : string) (c : ascii) (d : string) :
  is_space c = false -> lstrip (x ++ String c d) = lstrip x ++ String c d.
Proof.
  intros Hc. induction x as [|a x IH].
  - cbn [append lstrip]. rewrite Hc. reflexivity.
  - cbn [append lstrip]. destruct (is_space a); [exact IH | reflexivity].
Qed.

Lemma rstrip_app_fixed (y d : string) :
  rstrip d = d -> d <> "" -> rstrip (y ++ d) = y ++ d.
Proof.
  intros Hd Hne. induction y as [|a y IH]; [exact Hd|].
  cbn [append rstrip]. rewrite IH.
  destruct (y ++ d) eqn:E; [|reflexivity].
  exfalso. revert E. apply append_not_empty. exact Hne.
Qed.

Lemma strip_keeps_disclaimer (x : string) :
  strip (x ++ nl ++ nl ++ DISCLAIMER) = lstrip (x ++ nl ++ nl) ++ DISCLAIMER.
Proof.
  unfold strip. rewrite <- !string_app_assoc.
  assert (HD : exists c d, DISCLAIMER = String c d /\ is_space c = false).
  { eexists _, _. split; [reflexivity | reflexivity]. }
  destruct HD as (c & d & HD & Hc). rewrite HD.
  rewrite lstrip_app_nonspace by exact Hc. rewrite <- HD.
  apply rstrip_app_fixed; [vm_compute; reflexivity | discriminate].
Qed.

Section EndpointQuestion.
Context (env : Env) (settings : Settings).

Lemma build_initial_state_messages (body : ChatRequest) (w w0 : World) (input : Update) :
  build_initial_state env settings body w = (Ok input, w0) ->
  exists history : list (string * string),
    fst (fetch_context env settings (req_user_id body)
           (Some (max_context_messages settings)) w) = Ok history /\
    messages (merge empty_state input)
    = (_to_lc_history env history ++ [HumanMessage (req_message body)])%list /\
    user_id (merge empty_state input) = Some (req_user_id body) /\
    metric_kinds (merge empty_state input)
    = match req_metric_kinds body with
      | Some (k :: ks) => k :: ks
      | _ => default_metric_kinds settings
      end.
Proof.
  unfold build_initial_state. unfold bind at 1.
  destruct (fetch_context env settings (req_user_id body)
              (Some (max_context_messages settings)) w) as [[h|e] w'] eqn:E; [|discriminate].
  unfold bind at 1.
  destruct (req_timeframe body) as [[st en]|].
  - unfold ret. intros H. injection H as <- _. exists h. repeat split; reflexivity.
  - destruct (_default_timeframe env 7 w') as [[tf|e] w''] eqn:E2; [|discriminate].
    unfold ret. intros H. injection H as <- _. exists h. repeat split; reflexivity.
Qed.

Lemma endpoint_question_state (body : ChatRequest) (w w0 : World) (input : Update) :
  build_initial_state env settings body w = (Ok input, w0) ->
  question (merge (merge empty_state input) (node_parse_user env (merge empty_state input)))
  = Some (strip (req_message body)).
Proof.
  intros H. destruct (build_initial_state_messages body w w0 input H) as (h & _ & Hm & _).
  rewrite question_of_merge, Hm. apply latest_question_human. reflexivity.
Qed.

End EndpointQuestion.

Section Runs.
Context (env : Env) (settings : Settings).

Lemma complete_run_steps (s : AgentState) (w w1 : World) (ups : list (string * Update)) :
  graph_updates (GRAPH env) s w = (ups, None, w1) ->
  exists (u2 u3 u4 u6 : Update) (w2 w4 : World),
    let s1 := merge s (node_parse_user env s) in
    let s2 := merge s1 u2 in
    let s3 := merge s2 u3 in
    let s4 := merge s3 u4 in
    let s5 := merge s4 (node_safety env s4) in
    node_pull_metrics env s1 w = (Ok u2, w2) /\
    node_analyze env s2 = Ok u3 /\
    node_retrieve env s3 w2 = (Ok u4, w4) /\
    node_answer env s5 w4 = (Ok u6, w1) /\
    ups = [("parse_user", node_parse_user env s); ("pull_metrics", u2);
           ("analyze_metrics", u3); ("retrieve_guidance", u4);
           ("safety", node_safety env s4); ("answer", u6)] /\
    state_after s ups = merge s5 u6.
Proof.
  unfold GRAPH. cbn [graph_updates]. unfold ret at 1.
  destruct (node_pull_metrics env (merge s (node_parse_user env s)) w) as [[u2|e] w2] eqn:E2;
    [|discriminate].
  unfold lift at 1.
  destruct (node_analyze env (merge (merge s (node_parse_user env s)) u2)) as [u3|e] eqn:E3;
    [|discriminate].
  destruct (node_retrieve env (merge (merge (merge s (node_parse_user env s)) u2) u3) w2)
    as [[u4|e] w4] eqn:E4; [|discriminate].
  unfold ret at 1.
  destruct (node_answer env _ w4) as [[u6|e] w6] eqn:E6; [|discriminate].
  intros H. injection H as <- <-.
  exists u2, u3, u4, u6, w2, w4. cbv zeta.
  repeat (split; [first [reflexivity | assumption]|]). reflexivity.
Qed.

Lemma node_answer_shape (s : AgentState) (w w' : World) (u : Update) :
  node_answer env s w = (Ok u, w') ->
  exists resp : string,
    chat_invoke env (calls w) SYSTEM_INSTRUCTIONS (user_prompt_of env s) = Ok resp /\
    u = [WAnswer (Some (strip resp ++ nl ++ nl ++ DISCLAIMER));
         WMessages [AIMessage (strip resp ++ nl ++ nl ++ DISCLAIMER)]] /\
    w' = log_call (CallChat SYSTEM_INSTRUCTIONS (user_prompt_of env s)) w.
Proof.
  unfold node_answer. munfold.
  destruct (chat_invoke env (calls w) SYSTEM_INSTRUCTIONS (user_prompt_of env s))
    as [resp|]; [|discriminate].
  intros H. injection H as <- <-. exists resp. repeat split; reflexivity.
Qed.

Lemma complete_run_content (s : AgentState) (w w1 : World) (ups : list (string * Update)) :
  graph_updates (GRAPH env) s w = (ups, None, w1) ->
  exists resp : string,
    answer (state_after s ups) = Some (strip resp ++ nl ++ nl ++ DISCLAIMER) /\
    final_answer_of "" ups = strip resp ++ nl ++ nl ++ DISCLAIMER.
Proof.
  intros H. destruct (complete_run_answer env s w w1 ups H) as (content & Hf & Ha & _).
  destruct (complete_run_steps s w w1 ups H)
    as (u2 & u3 & u4 & u6 & w2 & w4 & _ & _ & _ & H6 & _ & Hs).
  apply node_answer_shape in H6 as (resp & _ & -> & _).
  exists resp. rewrite Hs in Ha. cbn [merge fold_left apply_write answer] in Ha.
  injection Ha as Ha. rewrite <- Ha in Hf. split; [|exact Hf].
  rewrite Hs. reflexivity.
Qed.

Lemma node_pull_metrics_shape (s : AgentState) (w w' : World) (u : Update) :
  node_pull_metrics env s w = (Ok u, w') ->
  exists ms, u = [WMetrics ms] /\ Forall (fun p => exists f, pt_value p = PyFloat f) ms.
Proof.
  intros H. unfold node_pull_metrics in H.
  destruct (_ || _).
  - munfold. injection H as <- _. exists []. split; [reflexivity | constructor].
  - unfold get_user_metrics in H. munfold.
    destruct (_parse_iso_utc env _); [|discriminate].
    destruct (_parse_iso_utc env _); [|discriminate].
    destruct (metrics_stream env (calls w) _ _ _ _) as [docs|]; [|discriminate].
    injection H as <- _. eexists. split; [reflexivity|].
    apply Forall_map. eapply Forall_impl; [|apply collect_points_float].
    intros p Hp. now apply cleaned_point_float.
Qed.

Lemma node_retrieve_shape (s : AgentState) (w w' : World) (u : Update) :
  node_retrieve env s w = (Ok u, w') ->
  exists chunks cites, u = [WRelevantChunks chunks; WCitations cites] /\ aligned chunks cites.
Proof.
  intros H. unfold node_retrieve in H.
  destruct (String.eqb _ ""); munfold.
  - injection H as <- _. exists [], []. split; [reflexivity | apply aligned_nil].
  - destruct (embed_query env (calls w) _) as [vector|]; [|discriminate].
    destruct (qdrant_search env _ vector) as [results|]; [|discriminate].
    destruct (retrieve_loop results [] []) as [chunks cites] eqn:E.
    injection H as <- _. exists chunks, cites. split; [reflexivity|].
    pose proof (proj1 (retrieve_loop_aligned results [] [] aligned_nil)) as Ha.
    rewrite E in Ha. exact Ha.
Qed.

Lemma chat_unfold (body : ChatRequest) (w : World) :
  chat env settings body w
  = match build_initial_state env settings body w with
    | (Ok input, w0) => chat_run env body input w0
    | (Raise e, w0) => (Raise e, w0)
    end.
Proof. reflexivity. Qed.

Lemma chat_stream_unfold (body : ChatRequest) (w : World) :
  chat_stream env settings body w
  = match build_initial_state env settings body w with
    | (Ok input, w0) => sse_gen env body input w0
    | (Raise e, w0) => (Raise e, w0)
    end.
Proof. reflexivity. Qed.

Lemma run_keeps_store (s : AgentState) (w w1 : World) ups o :
  graph_updates (GRAPH env) s w = (ups, o, w1) ->
  conv_store w1 = conv_store w /\ sse_out w1 = sse_out w.
Proof.
  intros H. destruct (graph_updates_quiet _ (quiet_GRAPH env) _ _ _ _ _ H) as (H1 & H2 & _).
  split; assumption.
Qed.

Lemma node_safety_shape (s : AgentState) :
  exists ws, node_safety env s = [WSafetyWarnings ws] /\ (List.length ws <= 2)%nat.
Proof.
  unfold node_safety. eexists. split; [reflexivity|].
  destruct (existsb _ EMERGENCY_SIGNS); destruct (existsb _ (anomalies s)); cbn; lia.
Qed.

(** X15: when [chat] returns a response, its reply ends with the
    disclaimer, and the conversation store has gained exactly two turns at
    its end: the user's message, then the assistant turn carrying that same
    reply. *)
Theorem chat_reply_ends_with_disclaimer (body : ChatRequest) (w w' : World)
  (r : ChatResponse) :
  chat env settings body w = (Ok r, w') ->
  ends_with DISCLAIMER (reply r) /\
  exists t1 t2 : string,
    conv_store w'
    = (conv_store w ++ [user_turn body t1; assistant_turn body (reply r) t2])%list.
Proof.
  rewrite chat_unfold.
  pose proof (quiet_build_initial_state env settings body w) as (Hb & _).
  destruct (build_initial_state env settings body w) as [[input|e] w0]; [|discriminate].
  cbn [snd] in Hb.
  destruct (graph_updates (GRAPH env) (merge empty_state input) w0) as [[ups o] w1] eqn:Eg.
  rewrite (chat_run_spec env body input w0 w1 ups o Eg).
  destruct o as [e|]; [discriminate|]. cbv zeta.
  destruct (complete_run_content _ _ _ _ Eg) as (resp & Ha & _).
  destruct (run_keeps_store _ _ _ _ _ Eg) as [Hs _].
  rewrite Ha. cbn [str_or_empty].
  pose proof (persist_turns_spec env body
                (strip (strip resp ++ nl ++ nl ++ DISCLAIMER)) w1) as (_ & _ & Hp & _).
  destruct (persist_turns env body _ w1) as [[[]|e] w3]; [|discriminate].
  intros H. injection H as <- <-. cbn [reply fst snd] in *.
  split.
  - rewrite strip_keeps_disclaimer. eexists. reflexivity.
  - destruct (Hp eq_refl) as (t1 & t2 & Ht). exists t1, t2. rewrite Ht, Hs, Hb. reflexivity.
Qed.

(** X16: on a run of the graph that completes, with a store that accepts
    the turns, the two endpoints agree: [chat] returns a response, the
    stream ends with the events of the stages, one final event and the done
    marker; the final event's answer ends with the disclaimer, the reply of
    [chat] is that answer stripped, and the documents [chat] reports are the
    citations of the final state. *)
Theorem stream_and_sync_agree (body : ChatRequest) (input : Update) (w w1 : World)
  (ups : list (string * Update)) :
  graph_updates (GRAPH env) (merge empty_state input) w = (ups, None, w1) ->
  (forall cs d, add_fault env cs d = None) ->
  exists (r : ChatResponse) (a : string) (w2 w3 : World),
    chat_run env body input w = (Ok r, w2) /\
    sse_gen env body input w = (Ok tt, w3) /\
    sse_out w3 = (sse_out w ++ map node_event ups ++ [SseFinal a; SseDone])%list /\
    reply r = strip a /\
    ends_with DISCLAIMER a /\
    used_docs r = citations (state_after (merge empty_state input) ups).
Proof.
  intros Eg Hnf.
  rewrite (chat_run_spec env body input w w1 ups None Eg).
  rewrite (sse_gen_spec env body input w w1 ups None Eg). cbv zeta.
  destruct (complete_run_content _ _ _ _ Eg) as (resp & Ha & Hf).
  destruct (run_keeps_store _ _ _ _ _ Eg) as [_ Hout].
  rewrite Ha, Hf. cbn [str_or_empty].
  set (a := strip resp ++ nl ++ nl ++ DISCLAIMER).
  pose proof (persist_turns_spec env body (strip a) w1) as (_ & _ & _ & Hp1).
  pose proof (persist_turns_spec env body a (emit_all w1 (map node_event ups)))
    as (Hso & _ & _ & Hp2).
  specialize (Hp1 Hnf). specialize (Hp2 Hnf).
  destruct (persist_turns env body (strip a) w1) as [[[]|e] w2]; [|discriminate].
  destruct (persist_turns env body a (emit_all w1 (map node_event ups))) as [[[]|e] w3];
    [|discriminate].
  cbn [snd] in Hso.
  eexists _, a, w2, _. split; [reflexivity | split; [reflexivity|]].
  cbn [reply used_docs emit_all sse_out]. rewrite Hso. cbn [emit_all sse_out]. rewrite Hout.
  split; [rewrite <- app_assoc; reflexivity|].
  split; [reflexivity | split; [|reflexivity]].
  unfold a. exists (strip resp ++ nl ++ nl). rewrite !string_app_assoc. reflexivity.
Qed.

Lemma to_lc_history_messages (turns : list (string * string)) :
  _to_lc_history env turns = map (history_message env) turns.
Proof.
  unfold _to_lc_history. apply map_ext. intros [role content]. reflexivity.
Qed.

Lemma history_message_assistant (role content : string) :
  same_ignoring_case role "assistant" ->
  history_message env (role, content) = AIMessage content.
Proof.
  intros H. unfold history_message, lower. cbn [fst snd].
  rewrite lower_at_ascii by (apply (same_is_ascii role "assistant" H); reflexivity).
  rewrite (same_lower role "assistant" H) by reflexivity. reflexivity.
Qed.

Lemma history_message_other (role content : string) :
  is_ascii role = true -> ~ same_ignoring_case role "assistant" ->
  history_message env (role, content) = HumanMessage content.
Proof.
  intros Ha H. unfold history_message, lower. cbn [fst snd].
  rewrite lower_at_ascii by exact Ha.
  destruct (String.eqb_spec (map_string lower_char role) "assistant") as [E|_]; [|reflexivity].
  exfalso. apply H. rewrite <- E. apply lower_same.
Qed.

(** X17: a run that completes on the state an endpoint builds ends in a
    state whose citations and chunks are aligned, whose metrics all carry a
    float, whose question is the request's message stripped, and that has at
    most two safety warnings. Its conversation is the history the endpoint
    fetched, turn by turn and in order, then the request's message, then the
    assistant message carrying the answer; a fetched turn is an assistant
    message when its role is the word assistant in any mix of upper and
    lower case, and a user message for every other ASCII role. *)
Theorem endpoint_run_final_state (body : ChatRequest) (w w0 w1 : World) (input : Update)
  (ups : list (string * Update)) :
  build_initial_state env settings body w = (Ok input, w0) ->
  graph_updates (GRAPH env) (merge empty_state input) w0 = (ups, None, w1) ->
  let final := state_after (merge empty_state input) ups in
  aligned (relevant_chunks final) (citations final) /\
  Forall (fun p => exists f, pt_value p = PyFloat f) (metrics final) /\
  question final = Some (strip (req_message body)) /\
  (List.length (safety_warnings final) <= 2)%nat /\
  (exists (turns : list (string * string)) (content : string),
      fst (fetch_context env settings (req_user_id body)
             (Some (max_context_messages settings)) w) = Ok turns /\
      answer final = Some content /\
      messages final
      = (map (history_message env) turns
         ++ [HumanMessage (req_message body); AIMessage content])%list) /\
  (forall role content : string,
      same_ignoring_case role "assistant" ->
      history_message env (role, content) = AIMessage content) /\
  (forall role content : string,
      is_ascii role = true -> ~ same_ignoring_case role "assistant" ->
      history_message env (role, content) = HumanMessage content).
Proof.
  intros Hb Eg. cbv zeta.
  pose proof (endpoint_state_starts_empty env settings body w w0 input Hb) as Hempty.
  cbv zeta in Hempty. destruct Hempty as (Hm & Han & Hch & Hci & Hsw).
  destruct (build_initial_state_messages env settings body w w0 input Hb)
    as (h & Hfetch & Hmsg & _).
  pose proof (endpoint_question_state env settings body w w0 input Hb) as Hq.
  destruct (complete_run_steps _ _ _ _ Eg)
    as (u2 & u3 & u4 & u6 & w2 & w4 & H2 & H3 & H4 & H6 & _ & Hs).
  rewrite Hs. clear Hs Eg.
  set (s0 := merge empty_state input) in *.
  set (s1 := merge s0 (node_parse_user env s0)) in *.
  apply node_pull_metrics_shape in H2 as (ms & -> & Hms).
  apply node_analyze_spec in H3 as (st & fl & -> & _).
  apply node_retrieve_shape in H4 as (chunks & cites & -> & Hal).
  apply node_answer_shape in H6 as (resp & _ & -> & _).
  destruct (node_safety_shape (merge (merge (merge s1 [WMetrics ms])
                                    [WStats (Some st); WAnomalies fl])
                             [WRelevantChunks chunks; WCitations cites])) as (ws & Hws & Hlen).
  rewrite Hws.
  cbn [merge fold_left apply_write relevant_chunks citations metrics question
       safety_warnings answer messages].
  rewrite Hm, Hch, Hci, Hsw. cbn [app].
  split; [exact Hal | split; [exact Hms | split; [exact Hq | split; [exact Hlen|]]]].
  split; [|split; [exact history_message_assistant | exact history_message_other]].
  exists h, (strip resp ++ nl ++ nl ++ DISCLAIMER).
  split; [exact Hfetch | split; [reflexivity|]].
  assert (Hm1 : messages s1 = messages s0) by reflexivity.
  rewrite Hm1, Hmsg, to_lc_history_messages, <- app_assoc. reflexivity.
Qed.

End Runs.

(** ** The history and the requests that cannot read it *)

Section FetchContext.
Context (env : Env) (settings : Settings).

Lemma fetch_context_unfold (user : string) (limit : option Z) (w : World) :
  fetch_context env settings user limit w
  = (rbind (messages_stream env (calls w) user) (fun docs =>
       Ok (slice_from
             (- match limit with
                | Some l => if l =? 0 then max_context_messages settings else l
                | None => max_context_messages settings
                end)
             (map stored_turn docs))),
     log_call (CallMessagesQuery user) w).
Proof.
  unfold fetch_context. munfold.
  destruct (messages_stream env (calls w) user); reflexivity.
Qed.

Lemma slice_from_last {A} (l : list A) (n : Z) :
  0 < n ->
  slice_from (- n) l = skipn (List.length l - Z.to_nat n) l.
Proof.
  intros Hn. unfold slice_from.
  assert (E : (- n <? 0) = true) by (apply Z.ltb_lt; lia). rewrite E.
  f_equal. lia.
Qed.

Lemma slice_from_zero {A} (l : list A) : slice_from 0 l = l.
Proof.
  unfold slice_from. cbn [Z.ltb Z.compare]. rewrite Z.min_l by lia. reflexivity.
Qed.

(** X18: when the store answers, [fetch_context] with a positive limit
    returns the last [limit] stored turns (all of them if there are fewer),
    in the order of the store, a turn without role counting as the user's
    and one without content as empty; a limit of 0 means the configured
    default; and when that default is itself 0 the whole history is
    returned. *)
Theorem fetch_context_returns_last_turns (user : string) (w : World)
  (docs : list (option StoredMsg)) :
  messages_stream env (calls w) user = Ok docs ->
  (forall limit : Z,
      0 < limit ->
      exists older msgs : list (string * string),
        fetch_context env settings user (Some limit) w
        = (Ok msgs, log_call (CallMessagesQuery user) w) /\
        map stored_turn docs = (older ++ msgs)%list /\
        List.length msgs = Nat.min (List.length docs) (Z.to_nat limit)) /\
  fetch_context env settings user (Some 0) w = fetch_context env settings user None w /\
  (max_context_messages settings = 0 ->
   fetch_context env settings user None w
   = (Ok (map stored_turn docs), log_call (CallMessagesQuery user) w)).
Proof.
  intros Hd. split; [|split; [reflexivity|]].
  - intros limit Hl. rewrite fetch_context_unfold, Hd. cbn [rbind].
    assert (E : (limit =? 0) = false) by (apply Z.eqb_neq; lia). rewrite E.
    rewrite slice_from_last by exact Hl. rewrite length_map.
    exists (firstn (List.length docs - Z.to_nat limit) (map stored_turn docs)),
           (skipn (List.length docs - Z.to_nat limit) (map stored_turn docs)).
    split; [reflexivity | split; [symmetry; apply firstn_skipn|]].
    rewrite length_skipn, length_map. lia.
  - intros H0. rewrite fetch_context_unfold, Hd, H0. cbn [rbind Z.opp].
    rewrite slice_from_zero. reflexivity.
Qed.

(** X19: when the conversation store cannot be read, both endpoints raise
    the store's exception after that one call: [chat_stream] fails before
    its response exists, so no event is sent, not even the done marker, and
    nothing is persisted. *)
Theorem history_failure_ends_request_before_any_event (body : ChatRequest) (w : World)
  (e : PyExc) :
  messages_stream env (calls w) (req_user_id body) = Raise e ->
  chat env settings body w = (Raise e, log_call (CallMessagesQuery (req_user_id body)) w) /\
  chat_stream env settings body w
  = (Raise e, log_call (CallMessagesQuery (req_user_id body)) w) /\
  sse_out (snd (chat_stream env settings body w)) = sse_out w /\
  conv_store (snd (chat_stream env settings body w)) = conv_store w.
Proof.
  intros H.
  assert (Hb : build_initial_state env settings body w
               = (Raise e, log_call (CallMessagesQuery (req_user_id body)) w)).
  { unfold build_initial_state. unfold bind at 1.
    rewrite fetch_context_unfold, H. reflexivity. }
  assert (Hc : chat env settings body w
               = (Raise e, log_call (CallMessagesQuery (req_user_id body)) w)).
  { unfold chat, bind. rewrite Hb. reflexivity. }
  assert (Hs : chat_stream env settings body w
               = (Raise e, log_call (CallMessagesQuery (req_user_id body)) w)).
  { unfold chat_stream, bind. rewrite Hb. reflexivity. }
  rewrite Hc, Hs. repeat split; reflexivity.
Qed.

End FetchContext.

(** ** ISO dates *)

Lemma replace_Z_app (a b : string) : replace_Z (a ++ b) = replace_Z a ++ replace_Z b.
Proof.
  induction a as [|c a IH]; [reflexivity|].
  cbn [append replace_Z]. rewrite IH. destruct (Ascii.eqb c "Z"); reflexivity.
Qed.

Lemma replace_Z_empty (s : string) : replace_Z s = "" -> s = "".
Proof.
  destruct s as [|c s]; [reflexivity|]. cbn [replace_Z].
  destruct (Ascii.eqb c "Z"); discriminate.
Qed.

Lemma replace_Z_idem (s : string) : replace_Z (replace_Z s) = replace_Z s.
Proof.
  induction s as [|c s IH]; [reflexivity|].
  cbn [replace_Z]. destruct (Ascii.eqb c "Z") eqn:E.
  - rewrite replace_Z_app, IH. reflexivity.
  - cbn [replace_Z]. rewrite E, IH. reflexivity.
Qed.

Lemma is_space_Z (c : ascii) : Ascii.eqb c "Z" = true -> is_space c = false.
Proof. intros H. apply Ascii.eqb_eq in H. subst. reflexivity. Qed.

Lemma lstrip_replace_Z (s : string) : lstrip (replace_Z s) = replace_Z (lstrip s).
Proof.
  induction s as [|c s IH]; [reflexivity|].
  cbn [replace_Z lstrip]. destruct (Ascii.eqb c "Z") eqn:E.
  - rewrite (is_space_Z c E). cbn [replace_Z]. rewrite E. reflexivity.
  - cbn [lstrip]. destruct (is_space c); [exact IH|]. cbn [replace_Z]. rewrite E. reflexivity.
Qed.

Lemma rstrip_nonspace (c : ascii) (s : string) :
  is_space c = false -> rstrip (String c s) = String c (rstrip s).
Proof. intros H. cbn [rstrip]. rewrite H. destruct (rstrip s); reflexivity. Qed.

Lemma rstrip_replace_Z (s : string) : rstrip (replace_Z s) = replace_Z (rstrip s).
Proof.
  induction s as [|c s IH]; [reflexivity|].
  cbn [replace_Z]. destruct (Ascii.eqb c "Z") eqn:E.
  - rewrite (rstrip_nonspace c s (is_space_Z c E)). cbn [replace_Z]. rewrite E.
    change ("+00:00" ++ replace_Z s)
      with (String "+" (String "0" (String "0" (String ":" (String "0" (String "0"
             (replace_Z s))))))).
    rewrite !rstrip_nonspace by reflexivity. rewrite IH. reflexivity.
  - cbn [rstrip]. rewrite IH. destruct (rstrip s) as [|c' r] eqn:Er.
    + cbn [replace_Z]. destruct (is_space c); [reflexivity|]. cbn [replace_Z].
      rewrite E. reflexivity.
    + destruct (replace_Z (String c' r)) eqn:Er2.
      * apply replace_Z_empty in Er2. discriminate.
      * rewrite <- Er2. cbn [replace_Z]. rewrite E. reflexivity.
Qed.

Lemma strip_replace_Z (s : string) : strip (replace_Z s) = replace_Z (strip s).
Proof. unfold strip. rewrite lstrip_replace_Z, rstrip_replace_Z. reflexivity. Qed.

(** X20: [_parse_iso_utc] reads a [Z] as the offset [+00:00]: a string and
    the same string with every [Z] replaced give the same result, so a date
    ending in [Z] parses as the same date ending in [+00:00]; the empty
    string is refused with a [ValueError] before any parsing. *)
Theorem parse_iso_treats_Z_as_utc_offset (env : Env) :
  (forall s : string, _parse_iso_utc env (replace_Z s) = _parse_iso_utc env s) /\
  (forall s : string, _parse_iso_utc env (s ++ "Z") = _parse_iso_utc env (s ++ "+00:00")) /\
  _parse_iso_utc env "" = Raise (mkExc "ValueError" "Empty ISO datetime string.").
Proof.
  assert (H : forall s, _parse_iso_utc env (replace_Z s) = _parse_iso_utc env s).
  { intros s. unfold _parse_iso_utc.
    rewrite strip_replace_Z, replace_Z_idem.
    destruct s as [|c s]; [reflexivity|].
    destruct (String.eqb_spec (replace_Z (String c s)) "") as [E|_]; [|reflexivity].
    apply replace_Z_empty in E. discriminate. }
  split; [exact H | split; [|reflexivity]].
  intros s. rewrite <- (H (s ++ "Z")), <- (H (s ++ "+00:00")).
  rewrite !replace_Z_app. reflexivity.
Qed.

(** ** The index: payloads and search results *)

Lemma dict_get_set (k k' : string) (v : PyVal) (d : Dict) :
  dict_get k (dict_set k' v d) = if String.eqb k k' then v else dict_get k d.
Proof.
  induction d as [|[k0 v0] d IH]; cbn [dict_set dict_get].
  - destruct (String.eqb k k'); reflexivity.
  - destruct (String.eqb_spec k' k0) as [->|Hne]; cbn [dict_get].
    + destruct (String.eqb k k0); reflexivity.
    + rewrite IH. destruct (String.eqb_spec k k0) as [->|]; [|reflexivity].
      destruct (String.eqb_spec k0 k'); [congruence | reflexivity].
Qed.

Lemma dict_has_In (k : string) (d : Dict) : Retriever.dict_has k d = true <-> In k (map fst d).
Proof.
  unfold Retriever.dict_has. induction d as [|[k0 v0] d IH]; cbn [existsb map fst In].
  - split; [discriminate | intros []].
  - rewrite orb_true_iff, IH. split.
    + intros [H|H]; [left; apply String.eqb_eq in H; congruence | right; exact H].
    + intros [H|H]; [left; apply String.eqb_eq; congruence | right; exact H].
Qed.

Lemma dict_get_absent (k : string) (d : Dict) : ~ In k (map fst d) -> dict_get k d = PyNone.
Proof.
  induction d as [|[k0 v0] d IH]; intros H; [reflexivity|].
  cbn [dict_get]. cbn [map fst In] in H.
  destruct (String.eqb_spec k k0) as [->|]; [exfalso; apply H; left; reflexivity|].
  apply IH. intros Hin. apply H. right; exact Hin.
Qed.

Lemma dict_update_get (meta : Dict) :
  NoDup (map fst meta) ->
  forall (d : Dict) (k : string),
    dict_get k (Retriever.dict_update d meta)
    = if Retriever.dict_has k meta then dict_get k meta else dict_get k d.
Proof.
  unfold Retriever.dict_update.
  induction meta as [|[k0 v0] meta IH]; intros Hnd d k; [reflexivity|].
  cbn [fold_left fst snd]. inversion Hnd as [|? ? Hnotin Hnd']; subst.
  rewrite (IH Hnd'). unfold Retriever.dict_has. cbn [existsb fst dict_get].
  fold (Retriever.dict_has k meta).
  destruct (String.eqb_spec k k0) as [->|Hne].
  - cbn [orb]. destruct (Retriever.dict_has k0 meta) eqn:E.
    + apply dict_has_In in E. contradiction.
    + rewrite dict_get_set, String.eqb_refl. reflexivity.
  - cbn [orb]. destruct (Retriever.dict_has k meta); [reflexivity|].
    rewrite dict_get_set. destruct (String.eqb_spec k k0); [contradiction | reflexivity].
Qed.

Lemma dict_update_fresh (meta : Dict) :
  NoDup (map fst meta) ->
  forall d : Dict,
    (forall k, In k (map fst meta) -> ~ In k (map fst d)) ->
    Retriever.dict_update d meta = (d ++ meta)%list.
Proof.
  unfold Retriever.dict_update.
  induction meta as [|[k0 v0] meta IH]; intros Hnd d Hfresh.
  - cbn [fold_left]. rewrite app_nil_r. reflexivity.
  - cbn [fold_left fst snd]. inversion Hnd as [|? ? Hnotin Hnd']; subst.
    rewrite dict_set_fresh by (apply Hfresh; left; reflexivity).
    rewrite (IH Hnd').
    + rewrite <- app_assoc. reflexivity.
    + intros k Hk. rewrite map_app, in_app_iff. cbn [map fst In].
      intros [H|[H|[]]].
      * apply (Hfresh k); [right; exact Hk | exact H].
      * subst. contradiction.
Qed.

Lemma filter_not_text (meta : Dict) :
  ~ In "text" (map fst meta) ->
  filter (fun kv => negb (String.eqb (fst kv) "text")) meta = meta.
Proof.
  induction meta as [|[k0 v0] meta IH]; intros H; [reflexivity|].
  cbn [filter fst]. cbn [map fst In] in H.
  destruct (String.eqb_spec k0 "text") as [->|]; [exfalso; apply H; left; reflexivity|].
  cbn [negb]. rewrite IH; [reflexivity|]. intros Hin. apply H. right; exact Hin.
Qed.

(** X21: round trip through the index. For an item with a non-empty text
    whose metadata (a dict: distinct keys) has no key named text, the
    payload [upsert_texts] stores, read back by [search], gives a document
    whose content is the item's text and whose metadata is the item's
    metadata, unchanged and in order. *)
Theorem upsert_then_search_returns_text_and_metadata (item : Retriever.Item) (sc : float) :
  let meta := dict_or_empty (Retriever.it_metadata item) in
  NoDup (map fst meta) ->
  ~ In "text" (map fst meta) ->
  Retriever.it_text item <> "" ->
  Retriever._Doc (Retriever.payload_of_item item) sc
  = {| Retriever.page_content := PyStr (Retriever.it_text item);
       Retriever.metadata := meta;
       Retriever.score := sc |}.
Proof.
  cbv zeta. intros Hnd Hnt Hne. unfold Retriever.payload_of_item.
  rewrite dict_update_fresh.
  - unfold Retriever._Doc. cbn [app dict_get filter fst]. cbn [String.eqb Ascii.eqb Bool.eqb andb negb].
    rewrite filter_not_text by exact Hnt. f_equal.
    assert (E : String.eqb (Retriever.it_text item) "" = false)
      by (apply String.eqb_neq; exact Hne).
    unfold py_or. cbn [truthy]. rewrite E. cbn [negb truthy]. rewrite E. reflexivity.
  - exact Hnd.
  - intros k Hk [H|[]]. cbn [fst] in H. subst. contradiction.
Qed.

(** X22: in the payload [upsert_texts] stores, a key of the metadata
    carries the metadata's value, the key text included: a metadata entry
    named text replaces the item's text; the item's text is under text only
    when the metadata has no such key, and no other key is present. *)
Theorem metadata_overrides_item_text (item : Retriever.Item) (k : string) :
  let meta := dict_or_empty (Retriever.it_metadata item) in
  NoDup (map fst meta) ->
  dict_get k (Retriever.payload_of_item item)
  = if Retriever.dict_has k meta then dict_get k meta
    else if String.eqb k "text" then PyStr (Retriever.it_text item) else PyNone.
Proof.
  cbv zeta. intros Hnd. unfold Retriever.payload_of_item.
  rewrite dict_update_get by exact Hnd. reflexivity.
Qed.

Lemma dict_get_filter_text (payload : Dict) (k : string) :
  dict_get k (filter (fun kv => negb (String.eqb (fst kv) "text")) payload)
  = if String.eqb k "text" then PyNone else dict_get k payload.
Proof.
  induction payload as [|[k0 v0] payload IH].
  - cbn. destruct (String.eqb k "text"); reflexivity.
  - cbn [filter fst]. destruct (String.eqb_spec k0 "text") as [->|Hne]; cbn [negb dict_get].
    + rewrite IH. destruct (String.eqb k "text"); reflexivity.
    + rewrite IH. destruct (String.eqb_spec k k0) as [->|]; [|reflexivity].
      destruct (String.eqb_spec k0 "text"); [contradiction | reflexivity].
Qed.

(** X23: when [search] returns, the query was embedded and the index
    searched with that vector, the given limit and the filter of [where];
    there is one document per hit, in the order of the hits, with the hit's
    score (0.0 for a missing or zero score), and its metadata is the hit's
    payload without the key text: every other key keeps its value. *)
Theorem search_results_follow_hits (ix : Retriever.IndexEnv) (query : string) (k : Z)
  (where_ : option Dict) (docs : list Retriever.Doc) :
  Retriever.search ix query k where_ = Ok docs ->
  exists (qvec : list float) (hits : list Hit),
    Retriever.ix_embed_query ix query = Ok qvec /\
    Retriever.ix_search ix qvec k (Retriever.qfilter_of where_) = Ok hits /\
    List.length docs = List.length hits /\
    forall (i : nat) (hit : Hit) (d : Retriever.Doc),
      nth_error hits i = Some hit -> nth_error docs i = Some d ->
      Retriever.score d = score_of hit /\
      forall key,
        dict_get key (Retriever.metadata d)
        = if String.eqb key "text" then PyNone
          else dict_get key (dict_or_empty (hit_payload hit)).
Proof.
  unfold Retriever.search. intros H.
  destruct (Retriever.ix_embed_query ix query) as [qvec|]; [|discriminate]. cbn [rbind] in H.
  destruct (Retriever.ix_search ix qvec k (Retriever.qfilter_of where_)) as [hits|] eqn:Es;
    [|discriminate]. cbn [rbind] in H. injection H as <-.
  exists qvec, hits. split; [reflexivity | split; [exact Es | split; [apply length_map|]]].
  intros i hit d Hh Hd. rewrite nth_error_map, Hh in Hd. cbn [option_map] in Hd.
  injection Hd as <-. split; [reflexivity|].
  intros key. apply dict_get_filter_text.
Qed.

(** ** The configuration endpoints *)

Lemma uniq_nil_iff (l : list string) : uniq l = [] <-> l = [].
Proof.
  split; [|intros ->; reflexivity].
  destruct l as [|x l]; [reflexivity|]. unfold uniq. cbn [uniq_from existsb]. discriminate.
Qed.

Lemma filter_nil_iff {A} (f : A -> bool) (l : list A) :
  filter f l = [] <-> forall x, In x l -> f x = false.
Proof.
  induction l as [|a l IH]; cbn [filter In].
  - split; [intros _ x [] | reflexivity].
  - destruct (f a) eqn:E.
    + split; [discriminate|]. intros H. specialize (H a (or_introl eq_refl)). congruence.
    + rewrite IH. split.
      * intros H x [<-|Hx]; [exact E | apply H; exact Hx].
      * intros H x Hx. apply H. right; exact Hx.
Qed.

Lemma set_difference_nil_iff (a b : list string) :
  Config.set_difference a b = [] <-> incl a b.
Proof.
  unfold Config.set_difference. rewrite uniq_nil_iff, filter_nil_iff. unfold incl.
  split; intros H x Hx; specialize (H x Hx).
  - apply negb_false_iff in H. apply existsb_eqb_In. exact H.
  - apply negb_false_iff. apply existsb_eqb_In. exact H.
Qed.

Section MetricConfig.
Context (repr_set : list string -> string).

Lemma update_metric_config_cases (body : Config.MetricConfigUpdateRequest)
  (settings : Config.AppSettings) :
  let avail := Config.list_or (Config.new_available_metric_kinds body)
                 (Config.available_metric_kinds settings) in
  let settings' :=
    let s1 := match Config.new_default_metric_kinds body with
              | Some d => Config.set_default_metric_kinds settings d
              | None => settings
              end in
    match Config.new_available_metric_kinds body with
    | Some a => Config.set_available_metric_kinds s1 a
    | None => s1
    end in
  (exists d, Config.new_default_metric_kinds body = Some d /\ ~ incl d avail /\
             exists e, exc_type e = "ValueError" /\
                       Config.update_metric_config repr_set body settings = (Raise e, settings)) \/
  ((forall d, Config.new_default_metric_kinds body = Some d -> incl d avail) /\
   Config.update_metric_config repr_set body settings
   = (Ok (Config.get_metric_config settings'), settings')).
Proof.
  cbv zeta. unfold Config.update_metric_config.
  destruct (Config.new_default_metric_kinds body) as [[|d ds]|] eqn:Ed.
  - right. cbn [is_nil negb]. split; [|reflexivity].
    intros d H. injection H as <-. intros x [].
  - destruct (Config.set_difference (d :: ds) _) as [|x xs] eqn:Es.
    + right. cbn [is_nil negb]. split; [|reflexivity].
      intros d' H. injection H as <-. apply set_difference_nil_iff. exact Es.
    + left. exists (d :: ds). split; [reflexivity|]. split.
      * intros H. apply set_difference_nil_iff in H. congruence.
      * cbn [is_nil negb]. eexists. split; [|reflexivity]. reflexivity.
  - right. cbn [is_nil negb]. split; [|reflexivity]. intros d H. discriminate.
Qed.

(** X24: [update_metric_config] fails exactly when the request gives
    default kinds of which one is not among the available kinds (those of
    the request if it gives a non-empty list, the current ones otherwise),
    and a failed update leaves the settings as they were. After a successful
    update that gives default kinds and does not give an empty list of
    available kinds, the defaults are the given ones and each is available.
    A request that gives only available kinds is never refused: the
    defaults stay as they are, whether or not they are among the new
    available kinds. *)
Theorem metric_config_update_is_validated (body : Config.MetricConfigUpdateRequest)
  (settings : Config.AppSettings) :
  let r := fst (Config.update_metric_config repr_set body settings) in
  let settings' := snd (Config.update_metric_config repr_set body settings) in
  (is_ok r = false <->
   exists d x, Config.new_default_metric_kinds body = Some d /\ In x d /\
               ~ In x (Config.list_or (Config.new_available_metric_kinds body)
                         (Config.available_metric_kinds settings))) /\
  (is_ok r = false -> settings' = settings) /\
  (is_ok r = true ->
   forall d, Config.new_default_metric_kinds body = Some d ->
             Config.new_available_metric_kinds body <> Some [] ->
             default_metric_kinds (Config.chat_settings settings') = d /\
             incl d (Config.available_metric_kinds settings')) /\
  (Config.new_default_metric_kinds body = None ->
   forall a, Config.new_available_metric_kinds body = Some a ->
             is_ok r = true /\
             default_metric_kinds (Config.chat_settings settings')
             = default_metric_kinds (Config.chat_settings settings) /\
             Config.available_metric_kinds settings' = a).
Proof.
  cbv zeta.
  destruct (update_metric_config_cases body settings)
    as [(d & Hd & Hni & e & _ & ->) | [Hincl ->]]; cbn [fst snd is_ok].
  - split; [|split; [reflexivity | split; [discriminate|]]].
    + split; [intros _ | reflexivity].
      assert (Hx : exists x, In x d /\
                   ~ In x (Config.list_or (Config.new_available_metric_kinds body)
                             (Config.available_metric_kinds settings))).
      { set (avail := Config.list_or _ _) in *.
        destruct (filter (fun x => negb (existsb (String.eqb x) avail)) d) as [|x l] eqn:Ef.
        - exfalso. apply Hni. intros y Hy.
          pose proof (proj1 (filter_nil_iff _ _) Ef y Hy) as H.
          apply negb_false_iff in H. apply existsb_eqb_In. exact H.
        - assert (Hin : In x (filter (fun x => negb (existsb (String.eqb x) avail)) d))
            by (rewrite Ef; left; reflexivity).
          apply filter_In in Hin as [Hin Hf]. exists x. split; [exact Hin|].
          intros H. apply existsb_eqb_In in H. rewrite H in Hf. discriminate. }
      destruct Hx as (x & Hx1 & Hx2). exists d, x. split; [exact Hd | split; assumption].
    + intros Hnone. rewrite Hnone in Hd. discriminate.
  - split; [|split; [discriminate | split]].
    + split; [discriminate|]. intros (d & x & Hd & Hx & Hnx). exfalso.
      apply Hnx. apply (Hincl d Hd). exact Hx.
    + intros _ d Hd Hne. specialize (Hincl d Hd). rewrite Hd.
      destruct (Config.new_available_metric_kinds body) as [[|a al]|];
        [contradiction | |]; cbn; split; (reflexivity || exact Hincl).
    + intros Hnone a Ha. rewrite Hnone, Ha. repeat split; reflexivity.
Qed.

(** X25: a successful update is what [get_metric_config] returns next: the
    default and the available kinds are those of the request where it gives
    them and the previous ones where it does not; the other settings are
    untouched; and from then on a chat request that names no kinds is run
    with the new default kinds. *)
Theorem metric_config_update_is_read_back (body : Config.MetricConfigUpdateRequest)
  (settings settings' : Config.AppSettings) (resp : Config.MetricConfigResponse) :
  Config.update_metric_config repr_set body settings = (Ok resp, settings') ->
  Config.get_metric_config settings' = resp /\
  Config.resp_default_metric_kinds resp
  = match Config.new_default_metric_kinds body with
    | Some d => d
    | None => default_metric_kinds (Config.chat_settings settings)
    end /\
  Config.resp_available_metric_kinds resp
  = match Config.new_available_metric_kinds body with
    | Some a => a
    | None => Config.available_metric_kinds settings
    end /\
  max_context_messages (Config.chat_settings settings')
  = max_context_messages (Config.chat_settings settings) /\
  forall (env : Env) (request : ChatRequest) (w w0 : World) (input : Update),
    req_metric_kinds request = None ->
    build_initial_state env (Config.chat_settings settings') request w = (Ok input, w0) ->
    metric_kinds (merge empty_state input) = Config.resp_default_metric_kinds resp.
Proof.
  intros H.
  destruct (update_metric_config_cases body settings)
    as [(d & _ & _ & e & _ & He) | [_ Hok]].
  - rewrite He in H. discriminate.
  - rewrite Hok in H. injection H as <- <-.
    split; [reflexivity|].
    split; [destruct (Config.new_default_metric_kinds body), (Config.new_available_metric_kinds body); reflexivity|].
    split; [destruct (Config.new_default_metric_kinds body), (Config.new_available_metric_kinds body); reflexivity|].
    split; [destruct (Config.new_default_metric_kinds body), (Config.new_available_metric_kinds body); reflexivity|].
    intros env request w w0 input Hreq Hb.
    destruct (build_initial_state_messages env _ request w w0 input Hb) as (h & _ & _ & _ & Hk).
    rewrite Hk, Hreq.
    destruct (Config.new_default_metric_kinds body), (Config.new_available_metric_kinds body); reflexivity.
Qed.

End MetricConfig.

(** ** Instances of the properties above *)

(** The retriever against an index that is down: one embedding, one search, the failure raised. *)
Lemma retrieve_calls_embedder_then_index_witness :
  node_retrieve env_search_down state_calm w0 = (Raise error_down, world_retrieved) /\
  ((strip (str_or_empty (question state_calm)) = "" /\
    @Raise Update error_down = Ok [WRelevantChunks []; WCitations []] /\ world_retrieved = w0) \/
   (strip (str_or_empty (question state_calm)) <> "" /\
    exists extra : string,
      (enrich_of env_search_down (match stats state_calm with Some st => st | None => [] end)
       = [] -> extra = "") /\
      match embed_query env_search_down (calls w0)
              (strip (str_or_empty (question state_calm)) ++ extra) with
      | Raise e =>
          @Raise Update error_down = Raise e /\
          calls world_retrieved
          = (calls w0
             ++ [CallEmbed (strip (str_or_empty (question state_calm)) ++ extra)])%list
      | Ok v =>
          calls world_retrieved
          = (calls w0
             ++ [CallEmbed (strip (str_or_empty (question state_calm)) ++ extra);
                 CallSearch v])%list /\
          match qdrant_search env_search_down
                  (calls w0
                   ++ [CallEmbed (strip (str_or_empty (question state_calm)) ++ extra)]) v with
          | Raise e => @Raise Update error_down = Raise e
          | Ok hits =>
              exists chunks cites,
                @Raise Update error_down = Ok [WRelevantChunks chunks; WCitations cites] /\
                List.length chunks = List.length hits /\
                List.length cites = List.length hits
          end
      end)).
Proof.
  assert (H : node_retrieve env_search_down state_calm w0 = (Raise error_down, world_retrieved))
    by (vm_compute; reflexivity).
  split; [exact H|].
  exact (retrieve_calls_embedder_then_index env_search_down state_calm w0 world_retrieved
           (Raise error_down) H).
Defined.

(** A request that [chat] answers. *)
Lemma chat_reply_ends_with_disclaimer_witness :
  chat env_ok settings0 body0 w0 = (Ok response_ok, world_chatted) /\
  ends_with DISCLAIMER (reply response_ok) /\
  exists t1 t2 : string,
    conv_store world_chatted
    = (conv_store w0 ++ [user_turn body0 t1; assistant_turn body0 (reply response_ok) t2])%list.
Proof.
  assert (H : chat env_ok settings0 body0 w0 = (Ok response_ok, world_chatted))
    by (vm_compute; reflexivity).
  split; [exact H|].
  exact (chat_reply_ends_with_disclaimer env_ok settings0 body0 w0 world_chatted
           response_ok H).
Defined.

(** The same complete run behind both endpoints. *)
Lemma stream_and_sync_agree_witness :
  graph_updates (GRAPH env_ok) (merge empty_state input_down) world_built
  = (updates_ok, None, world_ok) /\
  (forall cs d, add_fault env_ok cs d = None) /\
  exists (r : ChatResponse) (a : string) (w2 w3 : World),
    chat_run env_ok body0 input_down world_built = (Ok r, w2) /\
    sse_gen env_ok body0 input_down world_built = (Ok tt, w3) /\
    sse_out w3
    = (sse_out world_built ++ map node_event updates_ok ++ [SseFinal a; SseDone])%list /\
    reply r = strip a /\
    ends_with DISCLAIMER a /\
    used_docs r = citations (state_after (merge empty_state input_down) updates_ok).
Proof.
  assert (H : graph_updates (GRAPH env_ok) (merge empty_state input_down) world_built
              = (updates_ok, None, world_ok)) by (vm_compute; reflexivity).
  assert (Hf : forall cs d, add_fault env_ok cs d = None) by reflexivity.
  split; [exact H | split; [exact Hf|]].
  exact (stream_and_sync_agree env_ok body0 input_down world_built world_ok updates_ok H Hf).
Defined.

(** The final state of a complete run on the state [chat] builds. *)
Lemma endpoint_run_final_state_witness :
  build_initial_state env_history settings0 body0 w0 = (Ok input_history, world_built) /\
  graph_updates (GRAPH env_history) (merge empty_state input_history) world_built
  = (updates_history, None, world_history) /\
  messages (state_after (merge empty_state input_history) updates_history)
  = [HumanMessage "Hi"; AIMessage "Hello."; HumanMessage ""; HumanMessage "Is 50 bpm low?";
     HumanMessage "How is my sleep?";
     AIMessage ("It can be. [1]" ++ nl ++ nl ++ DISCLAIMER)] /\
  aligned (relevant_chunks (state_after (merge empty_state input_history) updates_history))
          (citations (state_after (merge empty_state input_history) updates_history)) /\
  Forall (fun p => exists f, pt_value p = PyFloat f)
         (metrics (state_after (merge empty_state input_history) updates_history)) /\
  question (state_after (merge empty_state input_history) updates_history)
  = Some (strip (req_message body0)) /\
  (List.length (safety_warnings (state_after (merge empty_state input_history)
                                   updates_history)) <= 2)%nat /\
  (exists (turns : list (string * string)) (content : string),
      fst (fetch_context env_history settings0 (req_user_id body0)
             (Some (max_context_messages settings0)) w0) = Ok turns /\
      answer (state_after (merge empty_state input_history) updates_history)
      = Some content /\
      messages (state_after (merge empty_state input_history) updates_history)
      = (map (history_message env_history) turns
         ++ [HumanMessage (req_message body0); AIMessage content])%list) /\
  (forall role content : string,
      same_ignoring_case role "assistant" ->
      history_message env_history (role, content) = AIMessage content) /\
  (forall role content : string,
      is_ascii role = true -> ~ same_ignoring_case role "assistant" ->
      history_message env_history (role, content) = HumanMessage content).
Proof.
  assert (Hb : build_initial_state env_history settings0 body0 w0
               = (Ok input_history, world_built)) by (vm_compute; reflexivity).
  assert (H : graph_updates (GRAPH env_history) (merge empty_state input_history) world_built
              = (updates_history, None, world_history)) by (vm_compute; reflexivity).
  split; [exact Hb | split; [exact H | split; [vm_compute; reflexivity|]]].
  exact (endpoint_run_final_state env_history settings0 body0 w0 world_built world_history
           input_history updates_history Hb H).
Defined.

(** The last two of four stored turns. *)
Lemma fetch_context_returns_last_turns_witness :
  messages_stream env_history (calls w0) "u1"
  = Ok [stored "user" "Hi"; stored "assistant" "Hello."; None;
        Some {| sm_role := None; sm_content := Some "Is 50 bpm low?" |}] /\
  fetch_context env_history settings0 "u1" (Some 2) w0
  = (Ok [("user", ""); ("user", "Is 50 bpm low?")], log_call (CallMessagesQuery "u1") w0) /\
  exists older msgs : list (string * string),
    fetch_context env_history settings0 "u1" (Some 2) w0
    = (Ok msgs, log_call (CallMessagesQuery "u1") w0) /\
    map stored_turn [stored "user" "Hi"; stored "assistant" "Hello."; None;
                     Some {| sm_role := None; sm_content := Some "Is 50 bpm low?" |}]
    = (older ++ msgs)%list /\
    List.length msgs = Nat.min 4 (Z.to_nat 2).
Proof.
  split; [reflexivity | split; [vm_compute; reflexivity|]].
  apply (proj1 (fetch_context_returns_last_turns env_history settings0 "u1" w0 _ eq_refl) 2).
  lia.
Defined.

(** Both endpoints against a conversation store that is down. *)
Lemma history_failure_ends_request_before_any_event_witness :
  chat env_history_down settings0 body0 w0
  = (Raise error_history, log_call (CallMessagesQuery (req_user_id body0)) w0) /\
  chat_stream env_history_down settings0 body0 w0
  = (Raise error_history, log_call (CallMessagesQuery (req_user_id body0)) w0) /\
  sse_out (snd (chat_stream env_history_down settings0 body0 w0)) = sse_out w0 /\
  conv_store (snd (chat_stream env_history_down settings0 body0 w0)) = conv_store w0.
Proof.
  apply (history_failure_ends_request_before_any_event env_history_down settings0 body0 w0).
  reflexivity.
Defined.

(** An item with a source and a chunk number. *)
Lemma upsert_then_search_returns_text_and_metadata_witness :
  Retriever._Doc (Retriever.payload_of_item item_sleep) 0.5%float
  = {| Retriever.page_content := PyStr "Sleep seven to nine hours.";
       Retriever.metadata := [("source", PyStr "sleep.md"); ("chunk", PyInt 3)];
       Retriever.score := 0.5%float |}.
Proof.
  apply (upsert_then_search_returns_text_and_metadata item_sleep 0.5%float).
  - repeat constructor; cbn; intuition discriminate.
  - cbn. intuition discriminate.
  - discriminate.
Defined.

(** An item whose metadata has a key named text. *)
Lemma metadata_overrides_item_text_witness :
  dict_get "text" (Retriever.payload_of_item item_shadowed) = PyStr "draft".
Proof.
  apply (metadata_overrides_item_text item_shadowed "text").
  repeat constructor; cbn; intuition discriminate.
Defined.

(** A search that finds one hit. *)
Lemma search_results_follow_hits_witness :
  exists (qvec : list float) (hits : list Hit),
    Retriever.ix_embed_query ix_ok "sleep" = Ok qvec /\
    Retriever.ix_search ix_ok qvec 5 (Retriever.qfilter_of None) = Ok hits /\
    List.length [Retriever._Doc (dict_or_empty (hit_payload hit0)) (score_of hit0)]
    = List.length hits /\
    forall (i : nat) (hit : Hit) (d : Retriever.Doc),
      nth_error hits i = Some hit ->
      nth_error [Retriever._Doc (dict_or_empty (hit_payload hit0)) (score_of hit0)] i
      = Some d ->
      Retriever.score d = score_of hit /\
      forall key,
        dict_get key (Retriever.metadata d)
        = if String.eqb key "text" then PyNone
          else dict_get key (dict_or_empty (hit_payload hit)).
Proof.
  apply (search_results_follow_hits ix_ok "sleep" 5 None). reflexivity.
Defined.

(** The default kinds set to two of the available ones. *)
Lemma metric_config_update_is_read_back_witness :
  Config.update_metric_config repr_set0 config_body0 app_settings0
  = (Ok {| Config.resp_default_metric_kinds := ["hr"; "weight"];
           Config.resp_available_metric_kinds := Config.available_metric_kinds app_settings0 |},
     Config.set_default_metric_kinds app_settings0 ["hr"; "weight"]) /\
  Config.get_metric_config (Config.set_default_metric_kinds app_settings0 ["hr"; "weight"])
  = {| Config.resp_default_metric_kinds := ["hr"; "weight"];
       Config.resp_available_metric_kinds := Config.available_metric_kinds app_settings0 |}.
Proof.
  assert (H : Config.update_metric_config repr_set0 config_body0 app_settings0
              = (Ok {| Config.resp_default_metric_kinds := ["hr"; "weight"];
                       Config.resp_available_metric_kinds :=
                         Config.available_metric_kinds app_settings0 |},
                 Config.set_default_metric_kinds app_settings0 ["hr"; "weight"]))
    by (vm_compute; reflexivity).
  split; [exact H|].
  exact (proj1 (metric_config_update_is_read_back repr_set0 config_body0 app_settings0 _ _ H)).
Defined.
(** ** The events of a complete stream and the metrics summary *)

Section StageEvents.
Context (env : Env).


Lemma summary_parts_length (stats : Stats) :
  (forall k e, In (k, e) stats -> (1 <= st_n e)%nat /\ st_mean e <> None) ->
  List.length (summary_parts env stats) = List.length stats.
Proof.
  unfold summary_parts. induction stats as [|[k e] stats IH]; intros H; [reflexivity|].
  cbn [flat_map]. rewrite length_app, IH by (intros k' e' Hin; apply (H k' e'); right; exact Hin).
  destruct (H k e (or_introl eq_refl)) as [Hn Hm].
  destruct (st_mean e) as [mu|]; [|contradiction].
  destruct (st_n e) as [|n] eqn:En; [lia|]. cbn [Nat.eqb List.length]. reflexivity.
Qed.

(** X27: when the Metrics Analyzer returns, the metrics summary built by
    the Answer Composer has one line per entry of [stats]; it is empty
    exactly when no point of the state has a non-empty kind and a numeric
    value, and then the prompt built on the updated state contains the
    sentence that no recent metrics are available. *)
Theorem summary_lists_every_analyzed_kind (s : AgentState) (u : Update) :
  node_analyze env s = Ok u ->
  exists (stats : Stats) (flags : list string),
    u = [WStats (Some stats); WAnomalies flags] /\
    List.length (summary_parts env stats) = List.length stats /\
    (summary_parts env stats = [] <-> forall k, values_of_kind env k (metrics s) = []) /\
    ((forall k, values_of_kind env k (metrics s) = []) ->
     contains "No recent metrics available for the requested window."
       (user_prompt_of env (merge s u))).
Proof.
  intros H.
  destruct (node_analyze_spec env s u H) as (stats & flags & Hu & Hfind & _).
  destruct (analyze_entries env s u H) as (stats' & flags' & Hu' & _ & _ & Hent).
  rewrite Hu in Hu'. injection Hu' as <- <-.
  exists stats, flags. split; [exact Hu|].
  assert (Hlen : List.length (summary_parts env stats) = List.length stats).
  { apply summary_parts_length. intros k e Hin.
    destruct (Hent k e Hin) as (mu & sd & Hne & Hm & ->). cbn [st_n st_mean].
    split; [destruct (values_of_kind env k (metrics s)); [contradiction | cbn; lia]|].
    apply (mean_sd_some env _ mu sd Hne Hm). }
  assert (Hiff : summary_parts env stats = [] <->
                 forall k, values_of_kind env k (metrics s) = []).
  { split.
    - intros Hs k. rewrite Hs in Hlen. cbn [List.length] in Hlen.
      destruct stats; [|discriminate]. specialize (Hfind k).
      destruct (values_of_kind env k (metrics s)); [reflexivity|].
      destruct Hfind as (mu & sd & _ & Hd). discriminate.
    - intros Hk. destruct stats as [|[k e] stats]; [reflexivity|]. exfalso.
      specialize (Hfind k). rewrite Hk in Hfind. cbn [dict_find] in Hfind.
      rewrite String.eqb_refl in Hfind. discriminate. }
  split; [exact Hlen | split; [exact Hiff|]].
  intros Hk. apply Hiff in Hk. rewrite Hu.
  unfold user_prompt_of. cbn [merge fold_left apply_write State.stats]. cbv zeta. rewrite Hk.
  set (p1 := "Question:" ++ _).
  assert (Hp1 : contains "No recent metrics available for the requested window." p1)
    by (unfold p1; find_part).
  clearbody p1.
  repeat match goal with
         | |- context [match ?l with [] => _ | _ :: _ => _ end] => destruct l
         | |- context [if ?b then _ else _] => destruct b
         end; repeat (apply contains_app_l); exact Hp1.
Qed.

End StageEvents.


(** A state without metrics. *)
Lemma summary_lists_every_analyzed_kind_witness :
  node_analyze env_ok state0 = Ok [WStats (Some []); WAnomalies []] /\
  exists (stats : Stats) (flags : list string),
    [WStats (Some []); WAnomalies []] = [WStats (Some stats); WAnomalies flags] /\
    List.length (summary_parts env_ok stats) = List.length stats /\
    (summary_parts env_ok stats = [] <-> forall k, values_of_kind env_ok k (metrics state0) = []) /\
    ((forall k, values_of_kind env_ok k (metrics state0) = []) ->
     contains "No recent metrics available for the requested window."
       (user_prompt_of env_ok (merge state0 [WStats (Some []); WAnomalies []]))).
Proof.
  assert (H : node_analyze env_ok state0 = Ok [WStats (Some []); WAnomalies []])
    by reflexivity.
  split; [exact H|].
  exact (summary_lists_every_analyzed_kind env_ok state0 _ H).
Defined.
